(** * Leave and payroll bookkeeping of the workforce application

    A shallow embedding of the request handlers of [workforce/viewsets.py]
    and [workforce/views.py] that move leave applications, leave balances and
    payroll periods through their life cycles, together with the rows of
    [workforce/models.py] they read and write, the calculation admin of
    [workforce/admin.py], the route names of [workforce/urls.py], and the
    lookups of the report views ([workforce/views_reports.py]) and of the
    account views ([accounts/views.py]).

    Conventions of the embedding.
    - A table is a finite map from its key to its row.  Rows are keyed by
      their primary key [id]; [EmployeeLeaveBalance], whose [Meta] declares
      [unique_together = ['employee', 'leave_type', 'year']] and which the
      handlers only ever reach through a filter on exactly these three
      columns, is keyed by that triple.
    - A [DecimalField] with two decimal places is an integer number of
      hundredths ([Z]); sums and differences of such decimals are exact.
      The database stores what a handler writes, but a decimal with more
      digits than its column declares cannot be read back
      ([decimal.InvalidOperation]).  The rows a handler is given are rows
      that were read, so their decimals are within the digits of their
      columns ([EmployeeLeaveBalance.in_range], [LeaveType.in_range]); where
      a statement runs a handler on the outcome of another one, it says so
      for that outcome ([decimals_in_range]).
    - A handler is a function from the clock reading, the request and the
      database to a response and the database it leaves behind.  Handlers are
      modelled from the point where the framework calls them, that is for a
      request that already passed [login_required] / [IsAuthenticated]
      ([admin_required] for the account views) and the routing of the HTTP
      method; a check of the method that a view makes in its own body is
      part of the view.  [get_object()] of a view set is the lookup of the
      row by its primary key.
    - A row carries the columns its model class declares and the handlers
      use; the audit columns inherited from [AuditedModel] are maintained by
      the object-relational mapper and are not part of a row here. *)

From Stdlib Require Import ZArith List Lia String.
From stdpp Require Import base gmap list strings.

Local Open Scope Z_scope.
Local Open Scope string_scope.

(** ** Values shared by all models *)

(** [datetime.date]. *)
Module Date.
Record t := mk { year : Z; month : Z; day : Z }.
End Date.

(** [datetime.datetime], as returned by [timezone.now()]. *)
Module DateTime.
Record t := mk { date : Date.t; seconds : Z }.
Definition year (d : t) : Z := Date.year (date d).
End DateTime.

Inductive HttpMethod := GET | HEAD | POST | PUT | PATCH | DELETE | OPTIONS.

#[global] Instance HttpMethod_eq_dec : EqDecision HttpMethod.
Proof. solve_decision. Defined.

(** The part of [request] the handlers read: the authenticated user, the
    method, and the submitted key/value pairs ([request.data] for the REST
    actions, [request.POST] for the form views). *)
Module Request.
Record t := mk {
  user : Z;
  method : HttpMethod;
  data : gmap string string }.
End Request.

(** ** Models ([workforce/core_models.py], [workforce/models.py]) *)

Module Employee.
Inductive EmploymentStatus :=
  ACTIVE | PROBATION | SUSPENDED | TERMINATED | RESIGNED | RETIRED.

#[global] Instance EmploymentStatus_eq_dec : EqDecision EmploymentStatus.
Proof. solve_decision. Defined.

Record t := mk {
  id : Z;
  employee_no : string;
  first_name : string;
  middle_name : string;
  last_name : string;
  employment_status : EmploymentStatus;
  department : option Z }.
End Employee.

Module Department.
Record t := mk { name : string }.
End Department.

Module LeaveType.
Record t := mk {
  id : Z;
  name : string;
  accrual_rate : Z;
  is_active : bool }.

(** [accrual_rate] is a [DecimalField(max_digits=5, decimal_places=2)]. *)
Definition in_range (lt : t) : Prop := Z.abs (accrual_rate lt) < 10 ^ 5.

#[global] Instance in_range_dec lt : Decision (in_range lt).
Proof. unfold in_range. apply _. Defined.
End LeaveType.

Module EmployeeLeaveBalance.
Record t := mk {
  employee : Z;
  leave_type : Z;
  year : Z;
  opening_balance : Z;
  accrued_days : Z;
  carried_forward_days : Z;
  adjustment_days : Z;
  taken_days : Z;
  pending_days : Z;
  encashed_days : Z;
  forfeited_days : Z;
  closing_balance : Z;
  last_accrual_date : option Date.t;
  next_accrual_date : option Date.t }.

(** The row [get_or_create] inserts: every field not given takes its
    declared default. *)
Definition create (employee leave_type year : Z) : t :=
  mk employee leave_type year 0 0 0 0 0 0 0 0 0 None None.

Definition set_accrued_days (v : Z) (b : t) : t :=
  mk (employee b) (leave_type b) (year b) (opening_balance b) v
     (carried_forward_days b) (adjustment_days b) (taken_days b)
     (pending_days b) (encashed_days b) (forfeited_days b)
     (closing_balance b) (last_accrual_date b) (next_accrual_date b).

Definition set_taken_days (v : Z) (b : t) : t :=
  mk (employee b) (leave_type b) (year b) (opening_balance b)
     (accrued_days b) (carried_forward_days b) (adjustment_days b) v
     (pending_days b) (encashed_days b) (forfeited_days b)
     (closing_balance b) (last_accrual_date b) (next_accrual_date b).

Definition set_pending_days (v : Z) (b : t) : t :=
  mk (employee b) (leave_type b) (year b) (opening_balance b)
     (accrued_days b) (carried_forward_days b) (adjustment_days b)
     (taken_days b) v (encashed_days b) (forfeited_days b)
     (closing_balance b) (last_accrual_date b) (next_accrual_date b).

Definition set_closing_balance (v : Z) (b : t) : t :=
  mk (employee b) (leave_type b) (year b) (opening_balance b)
     (accrued_days b) (carried_forward_days b) (adjustment_days b)
     (taken_days b) (pending_days b) (encashed_days b) (forfeited_days b)
     v (last_accrual_date b) (next_accrual_date b).

Definition set_last_accrual_date (v : option Date.t) (b : t) : t :=
  mk (employee b) (leave_type b) (year b) (opening_balance b)
     (accrued_days b) (carried_forward_days b) (adjustment_days b)
     (taken_days b) (pending_days b) (encashed_days b) (forfeited_days b)
     (closing_balance b) v (next_accrual_date b).

(** The columns declared [DecimalField(max_digits=6, decimal_places=2)]. *)
Definition decimals (b : t) : list Z :=
  [ opening_balance b; accrued_days b; carried_forward_days b;
    adjustment_days b; taken_days b; pending_days b; encashed_days b;
    forfeited_days b; closing_balance b ].

(** Every decimal of the row has at most the six digits of its column, that
    is, stays below 10000.00 in absolute value. *)
Definition in_range (b : t) : Prop :=
  Forall (fun v => Z.abs v < 10 ^ 6) (decimals b).

#[global] Instance in_range_dec b : Decision (in_range b).
Proof. unfold in_range. apply _. Defined.
End EmployeeLeaveBalance.

Module LeaveApplication.
Inductive Status :=
  | DRAFT | SUBMITTED | PENDING_APPROVAL | APPROVED
  | REJECTED | CANCELLED | ON_LEAVE | COMPLETED.

#[global] Instance Status_eq_dec : EqDecision Status.
Proof. solve_decision. Defined.

Record t := mk {
  employee : Z;
  leave_type : Z;
  start_date : Date.t;
  end_date : Date.t;
  total_days : Z;
  working_days : Z;
  reason : string;
  status : Status;
  submitted_date : option DateTime.t;
  approved_date : option DateTime.t;
  rejected_date : option DateTime.t;
  rejection_reason : string }.

Definition set_status (v : Status) (a : t) : t :=
  mk (employee a) (leave_type a) (start_date a) (end_date a) (total_days a)
     (working_days a) (reason a) v (submitted_date a) (approved_date a)
     (rejected_date a) (rejection_reason a).

Definition set_submitted_date (v : option DateTime.t) (a : t) : t :=
  mk (employee a) (leave_type a) (start_date a) (end_date a) (total_days a)
     (working_days a) (reason a) (status a) v (approved_date a)
     (rejected_date a) (rejection_reason a).

Definition set_approved_date (v : option DateTime.t) (a : t) : t :=
  mk (employee a) (leave_type a) (start_date a) (end_date a) (total_days a)
     (working_days a) (reason a) (status a) (submitted_date a) v
     (rejected_date a) (rejection_reason a).

Definition set_rejected_date (v : option DateTime.t) (a : t) : t :=
  mk (employee a) (leave_type a) (start_date a) (end_date a) (total_days a)
     (working_days a) (reason a) (status a) (submitted_date a)
     (approved_date a) v (rejection_reason a).

Definition set_rejection_reason (v : string) (a : t) : t :=
  mk (employee a) (leave_type a) (start_date a) (end_date a) (total_days a)
     (working_days a) (reason a) (status a) (submitted_date a)
     (approved_date a) (rejected_date a) v.

(** The key of the balance row an application draws on:
    [filter(employee=..., leave_type=..., year=start_date.year)]. *)
Definition balance_key (a : t) : Z * Z * Z :=
  (employee a, leave_type a, Date.year (start_date a)).
End LeaveApplication.

Module PayrollPeriod.
Inductive Status := OPEN | PROCESSING | CALCULATED | APPROVED | PAID | CLOSED.

#[global] Instance Status_eq_dec : EqDecision Status.
Proof. solve_decision. Defined.

Record t := mk {
  period_name : string;
  start_date : Date.t;
  end_date : Date.t;
  payment_date : Date.t;
  status : Status;
  total_gross_pay : Z;
  total_deductions : Z;
  total_net_pay : Z;
  employee_count : Z;
  processing_started_at : option DateTime.t;
  processing_completed_at : option DateTime.t;
  approved_by : option Z;
  approved_date : option Date.t;
  locked : bool;
  notes : string }.

Definition set_status (v : Status) (p : t) : t :=
  mk (period_name p) (start_date p) (end_date p) (payment_date p) v
     (total_gross_pay p) (total_deductions p) (total_net_pay p)
     (employee_count p) (processing_started_at p)
     (processing_completed_at p) (approved_by p) (approved_date p)
     (locked p) (notes p).

Definition set_processing_started_at (v : option DateTime.t) (p : t) : t :=
  mk (period_name p) (start_date p) (end_date p) (payment_date p) (status p)
     (total_gross_pay p) (total_deductions p) (total_net_pay p)
     (employee_count p) v (processing_completed_at p) (approved_by p)
     (approved_date p) (locked p) (notes p).

Definition set_approved_by (v : option Z) (p : t) : t :=
  mk (period_name p) (start_date p) (end_date p) (payment_date p) (status p)
     (total_gross_pay p) (total_deductions p) (total_net_pay p)
     (employee_count p) (processing_started_at p)
     (processing_completed_at p) v (approved_date p) (locked p) (notes p).

Definition set_approved_date (v : option Date.t) (p : t) : t :=
  mk (period_name p) (start_date p) (end_date p) (payment_date p) (status p)
     (total_gross_pay p) (total_deductions p) (total_net_pay p)
     (employee_count p) (processing_started_at p)
     (processing_completed_at p) (approved_by p) v (locked p) (notes p).
End PayrollPeriod.

Module PayrollCalculation.
Record t := mk {
  employee : Z;
  payroll_period : Z;
  basic_salary : Z;
  total_earnings : Z;
  total_allowances : Z;
  total_overtime : Z;
  total_bonuses : Z;
  gross_pay : Z;
  total_statutory_deductions : Z;
  total_voluntary_deductions : Z;
  total_loan_deductions : Z;
  total_deductions : Z;
  taxable_income : Z;
  tax_amount : Z;
  pension_employee : Z;
  pension_employer : Z;
  net_pay : Z;
  employer_cost : Z }.
End PayrollCalculation.

Module PayrollCalculationDetail.
Inductive ItemType := EARNING | DEDUCTION.

#[global] Instance ItemType_eq_dec : EqDecision ItemType.
Proof. solve_decision. Defined.

Record t := mk {
  payroll_calculation : Z;
  item_type : ItemType;
  description : string;
  amount : Z;
  is_taxable : bool;
  is_pensionable : bool }.
End PayrollCalculationDetail.

(** ** The database *)

Record Database := mkDatabase {
  employees : list Employee.t;
  departments : gmap Z Department.t;
  leave_types : list LeaveType.t;
  leave_balances : gmap (Z * Z * Z) EmployeeLeaveBalance.t;
  leave_applications : gmap Z LeaveApplication.t;
  payroll_periods : gmap Z PayrollPeriod.t;
  payroll_calculations : gmap Z PayrollCalculation.t;
  payroll_calculation_details : gmap Z PayrollCalculationDetail.t }.

(** [row.save()] for a row that is already stored: the row replaces the one
    under its key. *)
Definition save_leave_application (pk : Z) (a : LeaveApplication.t)
    (db : Database) : Database :=
  mkDatabase (employees db) (departments db) (leave_types db)
    (leave_balances db) (<[pk := a]> (leave_applications db))
    (payroll_periods db) (payroll_calculations db)
    (payroll_calculation_details db).

Definition save_leave_balance (key : Z * Z * Z) (b : EmployeeLeaveBalance.t)
    (db : Database) : Database :=
  mkDatabase (employees db) (departments db) (leave_types db)
    (<[key := b]> (leave_balances db)) (leave_applications db)
    (payroll_periods db) (payroll_calculations db)
    (payroll_calculation_details db).

Definition save_payroll_period (pk : Z) (p : PayrollPeriod.t)
    (db : Database) : Database :=
  mkDatabase (employees db) (departments db) (leave_types db)
    (leave_balances db) (leave_applications db)
    (<[pk := p]> (payroll_periods db)) (payroll_calculations db)
    (payroll_calculation_details db).

Definition set_leave_balances (m : gmap (Z * Z * Z) EmployeeLeaveBalance.t)
    (db : Database) : Database :=
  mkDatabase (employees db) (departments db) (leave_types db) m
    (leave_applications db) (payroll_periods db) (payroll_calculations db)
    (payroll_calculation_details db).

Definition set_payroll_calculations (m : gmap Z PayrollCalculation.t)
    (db : Database) : Database :=
  mkDatabase (employees db) (departments db) (leave_types db)
    (leave_balances db) (leave_applications db) (payroll_periods db) m
    (payroll_calculation_details db).

(** ** Responses of the REST actions ([rest_framework.response.Response]) *)

Inductive ErrorBody :=
  | Error (message : string)
  | InsufficientLeaveBalance (available : Z).

Inductive Response (A : Type) :=
  | HTTP_200_OK (body : A)
  | HTTP_400_BAD_REQUEST (error : ErrorBody)
  | HTTP_404_NOT_FOUND
  | HTTP_500_INTERNAL_SERVER_ERROR.

Arguments HTTP_200_OK {A} body.
Arguments HTTP_400_BAD_REQUEST {A} error.
Arguments HTTP_404_NOT_FOUND {A}.
Arguments HTTP_500_INTERNAL_SERVER_ERROR {A}.

(** ** Leave actions of the REST interface ([workforce/viewsets.py]) *)

Module LeaveApplicationViewSet.
Import LeaveApplication.

Definition submit (now : DateTime.t) (request : Request.t) (pk : Z)
    (db : Database) : Response LeaveApplication.t * Database :=
  match leave_applications db !! pk with
  | None => (HTTP_404_NOT_FOUND, db)
  | Some leave_app =>
    if decide (status leave_app ≠ DRAFT) then
      (HTTP_400_BAD_REQUEST (Error "Can only submit draft applications"), db)
    else
      let balance := leave_balances db !! balance_key leave_app in
      let shortfall :=
        match balance with
        | Some balance =>
          let available := EmployeeLeaveBalance.closing_balance balance
                           - EmployeeLeaveBalance.pending_days balance in
          if decide (available < working_days leave_app)
          then Some available else None
        | None => None
        end in
      match shortfall with
      | Some available =>
        (HTTP_400_BAD_REQUEST (InsufficientLeaveBalance available), db)
      | None =>
        let leave_app := set_status SUBMITTED leave_app in
        let leave_app := set_submitted_date (Some now) leave_app in
        let db := save_leave_application pk leave_app db in
        let db :=
          match balance with
          | Some balance =>
            let balance :=
              EmployeeLeaveBalance.set_pending_days
                (EmployeeLeaveBalance.pending_days balance
                 + working_days leave_app) balance in
            save_leave_balance (balance_key leave_app) balance db
          | None => db
          end in
        (HTTP_200_OK leave_app, db)
      end
  end.

Definition approve (now : DateTime.t) (request : Request.t) (pk : Z)
    (db : Database) : Response LeaveApplication.t * Database :=
  match leave_applications db !! pk with
  | None => (HTTP_404_NOT_FOUND, db)
  | Some leave_app =>
    if decide (status leave_app ∉ [SUBMITTED; PENDING_APPROVAL]) then
      (HTTP_400_BAD_REQUEST (Error "Invalid status for approval"), db)
    else
      let leave_app := set_status APPROVED leave_app in
      let leave_app := set_approved_date (Some now) leave_app in
      let db := save_leave_application pk leave_app db in
      (HTTP_200_OK leave_app, db)
  end.

Definition reject (now : DateTime.t) (request : Request.t) (pk : Z)
    (db : Database) : Response LeaveApplication.t * Database :=
  match leave_applications db !! pk with
  | None => (HTTP_404_NOT_FOUND, db)
  | Some leave_app =>
    if decide (status leave_app ∉ [SUBMITTED; PENDING_APPROVAL]) then
      (HTTP_400_BAD_REQUEST (Error "Invalid status for rejection"), db)
    else
      let leave_app := set_status REJECTED leave_app in
      let leave_app := set_rejected_date (Some now) leave_app in
      let leave_app :=
        set_rejection_reason
          (default EmptyString (Request.data request !! "reason"))
          leave_app in
      let db := save_leave_application pk leave_app db in
      let balance := leave_balances db !! balance_key leave_app in
      let db :=
        match balance with
        | Some balance =>
          let balance :=
            EmployeeLeaveBalance.set_pending_days
              (EmployeeLeaveBalance.pending_days balance
               - working_days leave_app) balance in
          save_leave_balance (balance_key leave_app) balance db
        | None => db
        end in
      (HTTP_200_OK leave_app, db)
  end.
End LeaveApplicationViewSet.

Module EmployeeLeaveBalanceViewSet.
Import EmployeeLeaveBalance.

(** The body of the response of [accrue_monthly]. *)
Record Accrued := mkAccrued {
  accrued_count : Z;
  employees_count : Z;
  leave_types_count : Z }.

(** One turn of the inner loop of [accrue_monthly]: [get_or_create] the
    balance of the pair for the current year, add the monthly rate,
    recompute the closing balance, stamp the accrual date and save. *)
Definition accrue_pair (now : DateTime.t) (employee : Employee.t)
    (acc : gmap (Z * Z * Z) EmployeeLeaveBalance.t * Z)
    (leave_type : LeaveType.t)
    : gmap (Z * Z * Z) EmployeeLeaveBalance.t * Z :=
  let '(balances, accrued_count) := acc in
  let current_year := DateTime.year now in
  let key := (Employee.id employee, LeaveType.id leave_type, current_year) in
  let balance :=
    match balances !! key with
    | Some balance => balance
    | None =>
      create (Employee.id employee) (LeaveType.id leave_type) current_year
    end in
  let balance :=
    set_accrued_days
      (accrued_days balance + LeaveType.accrual_rate leave_type) balance in
  let balance :=
    set_closing_balance
      (opening_balance balance + accrued_days balance
       + carried_forward_days balance - taken_days balance) balance in
  let balance :=
    set_last_accrual_date (Some (DateTime.date now)) balance in
  (<[key := balance]> balances, accrued_count + 1).

Definition accrue_employee (now : DateTime.t)
    (leave_types : list LeaveType.t)
    (acc : gmap (Z * Z * Z) EmployeeLeaveBalance.t * Z)
    (employee : Employee.t)
    : gmap (Z * Z * Z) EmployeeLeaveBalance.t * Z :=
  fold_left (accrue_pair now employee) leave_types acc.

Definition accrue_monthly (now : DateTime.t) (request : Request.t)
    (db : Database) : Response Accrued * Database :=
  let employees :=
    List.filter
      (fun e => bool_decide (Employee.employment_status e = Employee.ACTIVE))
      (employees db) in
  let leave_types := List.filter LeaveType.is_active (leave_types db) in
  let '(balances, accrued_count) :=
    fold_left (accrue_employee now leave_types) employees
      (leave_balances db, 0) in
  (HTTP_200_OK
     (mkAccrued accrued_count (Z.of_nat (length employees))
        (Z.of_nat (length leave_types))),
   set_leave_balances balances db).
End EmployeeLeaveBalanceViewSet.

(** ** Payroll actions of the REST interface *)

Module PayrollPeriodViewSet.
Import PayrollPeriod.

(** The body of the response of [process]. *)
Record Started := mkStarted { message : string; period : string }.

Definition process (now : DateTime.t) (request : Request.t) (pk : Z)
    (db : Database) : Response Started * Database :=
  match payroll_periods db !! pk with
  | None => (HTTP_404_NOT_FOUND, db)
  | Some period =>
    if decide (status period ∉ [OPEN; PROCESSING]) then
      (HTTP_400_BAD_REQUEST (Error "Period is not open for processing"), db)
    else
      let period := set_status PROCESSING period in
      let period := set_processing_started_at (Some now) period in
      let db := save_payroll_period pk period db in
      (* the calculation itself is left to do in the source *)
      (HTTP_200_OK
         (mkStarted "Payroll processing started" (period_name period)),
       db)
  end.

Definition approve (now : DateTime.t) (request : Request.t) (pk : Z)
    (db : Database) : Response PayrollPeriod.t * Database :=
  match payroll_periods db !! pk with
  | None => (HTTP_404_NOT_FOUND, db)
  | Some period =>
    if decide (status period ≠ CALCULATED) then
      (HTTP_400_BAD_REQUEST
         (Error "Period must be calculated before approval"), db)
    else
      let period := set_status APPROVED period in
      let period := set_approved_by (Some (Request.user request)) period in
      let period := set_approved_date (Some (DateTime.date now)) period in
      let db := save_payroll_period pk period db in
      (HTTP_200_OK period, db)
  end.
End PayrollPeriodViewSet.

(** The detail lines of one calculation with a given item type:
    [PayrollCalculationDetail.objects.filter(payroll_calculation=...)
     .filter(item_type=...)]. *)
Definition details_of (calculation : Z)
    (item_type : PayrollCalculationDetail.ItemType) (db : Database)
    : gmap Z PayrollCalculationDetail.t :=
  filter
    (fun kv : Z * PayrollCalculationDetail.t =>
       PayrollCalculationDetail.payroll_calculation kv.2 = calculation
       ∧ PayrollCalculationDetail.item_type kv.2 = item_type)
    (payroll_calculation_details db).

Module PayrollCalculationViewSet.
Record EmployeeInfo := mkEmployeeInfo {
  employee_no : string;
  name : string * string * string;  (* the parts [get_full_name] joins *)
  department : string }.

Record Summary := mkSummary {
  gross_pay : Z;
  total_deductions : Z;
  net_pay : Z }.

Record Breakdown := mkBreakdown {
  employee : EmployeeInfo;
  period : string;
  earnings : gmap Z (string * Z);
  deductions : gmap Z (string * Z);
  summary : Summary }.

(** One line of the breakdown.  Lines stay keyed by the primary key of their
    detail row (the order of presentation is not modelled) and amounts stay
    decimals (the source converts them to floats for the JSON body). *)
Definition line (d : PayrollCalculationDetail.t) : string * Z :=
  (PayrollCalculationDetail.description d, PayrollCalculationDetail.amount d).

(** [breakdown] follows the foreign keys of the calculation; a missing
    department ([department] is nullable) raises in the source, which the
    framework answers with status 500. *)
Definition breakdown (request : Request.t) (pk : Z) (db : Database)
    : Response Breakdown * Database :=
  match payroll_calculations db !! pk with
  | None => (HTTP_404_NOT_FOUND, db)
  | Some calculation =>
    let earnings := details_of pk PayrollCalculationDetail.EARNING db in
    let deductions := details_of pk PayrollCalculationDetail.DEDUCTION db in
    let employee :=
      List.find
        (fun e => bool_decide
           (Employee.id e = PayrollCalculation.employee calculation))
        (employees db) in
    let department :=
      e ← employee; d ← Employee.department e; departments db !! d in
    let period :=
      payroll_periods db !! PayrollCalculation.payroll_period calculation in
    match employee, department, period with
    | Some e, Some d, Some p =>
      (HTTP_200_OK
         (mkBreakdown
            (mkEmployeeInfo (Employee.employee_no e)
               (Employee.first_name e, Employee.middle_name e,
                Employee.last_name e)
               (Department.name d))
            (PayrollPeriod.period_name p)
            (line <$> earnings)
            (line <$> deductions)
            (mkSummary (PayrollCalculation.gross_pay calculation)
               (PayrollCalculation.total_deductions calculation)
               (PayrollCalculation.net_pay calculation))),
       db)
    | _, _, _ => (HTTP_500_INTERNAL_SERVER_ERROR, db)
    end
  end.
End PayrollCalculationViewSet.

(** ** Form views ([workforce/views.py]) *)

Inductive MessageLevel := MSG_ERROR | MSG_SUCCESS.

(** What [payroll_period_detail] hands to its template next to the period
    and its calculations (whose order of presentation is not modelled). *)
Record PeriodSummary := mkPeriodSummary {
  employee_count : Z;
  total_gross : Z;
  total_deductions : Z;
  total_net : Z;
  total_tax : Z }.

Inductive TemplateContext :=
  | LeaveRejectContext (page_title : string) (application : LeaveApplication.t)
  | PayrollPeriodContext (page_title : string) (period : PayrollPeriod.t)
      (calculations : gmap Z PayrollCalculation.t) (summary : PeriodSummary)
  | PayslipContext (calculation : PayrollCalculation.t)
      (earnings deductions : gmap Z PayrollCalculationDetail.t).
  (* the payslip's page title, built from the employee number behind the
     foreign key, is left to the template layer *)

(** The bodies of the [JsonResponse]s in the sources: an error, or the
    outcome of a quick action with the flag it reports. *)
Inductive JsonBody :=
  | JsonError (error : string)
  | JsonOutcome (success : bool) (message : string)
      (flag : option (string * bool)).

(** The responses of the form views: the 404 page raised by
    [get_object_or_404], the error page of an exception that nothing
    catches, a redirect to a URL carrying one flash message, a rendered
    template, or a [JsonResponse] with its status. *)
Inductive HttpResponse :=
  | Http404
  | HttpServerError
  | HttpRedirect (to : string) (level : MessageLevel) (message : string)
  | HttpRender (template : string) (context : TemplateContext)
  | JsonResponse (body : JsonBody) (status : Z).

(** ** Route names ([workforce/urls.py])

    The module sets [app_name = 'hr_payroll'], which puts every name of its
    [urlpatterns] into that namespace: a route is found under
    ['hr_payroll:<name>'] and under no bare name. *)
Definition app_name : string := "hr_payroll".

(** The named [path(...)] entries of [urlpatterns], route first. *)
Definition urlpatterns : list (string * string) :=
  [ (EmptyString, "hr_dashboard");
    ("payroll-dashboard/", "payroll_dashboard");
    ("employees/", "employee_list");
    ("employees/create/", "employee_create");
    ("employees/<int:employee_id>/", "employee_detail");
    ("employees/<int:employee_id>/edit/", "employee_edit");
    ("attendance/", "attendance_list");
    ("attendance/mark/", "attendance_mark");
    ("leave/", "leave_application_list");
    ("leave/create/", "leave_application_create");
    ("leave/<int:application_id>/approve/", "leave_application_approve");
    ("leave/<int:application_id>/reject/", "leave_application_reject");
    ("leave/balances/", "leave_balance_view");
    ("payroll/", "payroll_period_list");
    ("payroll/<int:period_id>/", "payroll_period_detail");
    ("payroll/calculation/<int:calculation_id>/",
     "payroll_calculation_detail");
    ("reports/payslip/<int:calculation_id>/pdf/", "download_payslip_pdf");
    ("reports/employees/excel/", "download_employee_list_excel");
    ("reports/payroll/<int:period_id>/excel/",
     "download_payroll_register_excel");
    ("reports/attendance/excel/", "download_attendance_report_excel");
    ("reports/pdf/payslip/<int:calculation_id>/", "payslip-pdf");
    ("reports/pdf/employees/", "employee-report-pdf");
    ("reports/pdf/payroll-register/<int:period_id>/", "payroll-register-pdf");
    ("reports/pdf/attendance/", "attendance-report-pdf");
    ("reports/pdf/leave/", "leave-report-pdf");
    ("reports/excel/payroll-register/<int:period_id>/",
     "payroll-register-excel");
    ("reports/excel/employees/", "employee-list-excel");
    ("reports/excel/attendance/", "attendance-report-excel");
    ("reports/excel/leave-balance/", "leave-balance-excel");
    ("reports/excel/payroll-comparison/", "payroll-comparison-excel");
    ("api/reports/generate/", "api-generate-report");
    ("api/reports/available/", "api-available-reports");
    ("api/reports/batch-payslips/", "api-batch-payslips") ].

(** Whether [fragment] occurs in [s]. *)
Definition occurs (fragment s : string) : bool :=
  match String.index 0 fragment s with
  | Some _ => true
  | None => false
  end.

(** [reverse(viewname)] without arguments: the route registered under
    [viewname], which has to carry the namespace; a route with a parameter
    does not reverse without its argument.  The result is the route below
    the place where the project mounts this module. *)
Definition reverse (viewname : string) : option string :=
  fst <$>
    List.find
      (fun entry : string * string =>
         bool_decide (viewname = app_name ++ ":" ++ entry.2)
         && negb (occurs "<" entry.1))
      urlpatterns.

(** [redirect(to)] after one flash message was put on the request: [to] is
    first tried as a route name; when it does not reverse, it is taken for a
    URL if it contains a slash or a dot, and [NoReverseMatch] is raised
    otherwise. *)
Definition redirect (to : string) (level : MessageLevel) (message : string)
    : HttpResponse :=
  match reverse to with
  | Some url => HttpRedirect url level message
  | None =>
    if occurs "/" to || occurs "." to then HttpRedirect to level message
    else HttpServerError
  end.

(** [get_object_or_404(Model, id=...)] over a table. *)
Definition get_object_or_404 {A : Type} (table : gmap Z A) (id : Z)
    : HttpResponse + A :=
  match table !! id with
  | Some row => inr row
  | None => inl Http404
  end.

(** [queryset.aggregate(Sum(field))[...] or 0]. *)
Definition aggregate_sum {A : Type} (field : A -> Z) (rows : gmap Z A) : Z :=
  map_fold (fun _ row total => field row + total) 0 rows.

(** Both leave views end in [redirect('leave_application_list')], the bare
    name of the route; what they saved before stays saved. *)
Definition leave_application_approve (now : DateTime.t) (request : Request.t)
    (application_id : Z) (db : Database) : HttpResponse * Database :=
  match get_object_or_404 (leave_applications db) application_id with
  | inl not_found => (not_found, db)
  | inr application =>
    if decide (LeaveApplication.status application
               ∉ [LeaveApplication.SUBMITTED;
                  LeaveApplication.PENDING_APPROVAL]) then
      (redirect "leave_application_list" MSG_ERROR
         "This application cannot be approved.", db)
    else
      let application :=
        LeaveApplication.set_status LeaveApplication.APPROVED application in
      let application :=
        LeaveApplication.set_approved_date (Some now) application in
      let db := save_leave_application application_id application db in
      let balance :=
        leave_balances db !! LeaveApplication.balance_key application in
      let db :=
        match balance with
        | Some balance =>
          let balance :=
            EmployeeLeaveBalance.set_taken_days
              (EmployeeLeaveBalance.taken_days balance
               + LeaveApplication.working_days application) balance in
          let balance :=
            EmployeeLeaveBalance.set_pending_days
              (EmployeeLeaveBalance.pending_days balance
               - LeaveApplication.working_days application) balance in
          let balance :=
            EmployeeLeaveBalance.set_closing_balance
              (EmployeeLeaveBalance.opening_balance balance
               + EmployeeLeaveBalance.accrued_days balance
               + EmployeeLeaveBalance.carried_forward_days balance
               - EmployeeLeaveBalance.taken_days balance) balance in
          save_leave_balance (LeaveApplication.balance_key application)
            balance db
        | None => db
        end in
      (redirect "leave_application_list" MSG_SUCCESS
         "Leave application approved!", db)
  end.

(** [rejection_reason] is a text column that does not accept NULL: saving
    the application when the form carried no [reason] raises in the
    database layer and nothing is written. *)
Definition leave_application_reject (now : DateTime.t) (request : Request.t)
    (application_id : Z) (db : Database) : HttpResponse * Database :=
  match get_object_or_404 (leave_applications db) application_id with
  | inl not_found => (not_found, db)
  | inr application =>
    match Request.method request with
    | POST =>
      match Request.data request !! "reason" with
      | None => (HttpServerError, db)
      | Some reason =>
        let application :=
          LeaveApplication.set_status LeaveApplication.REJECTED application in
        let application :=
          LeaveApplication.set_rejected_date (Some now) application in
        let application :=
          LeaveApplication.set_rejection_reason reason application in
        let db := save_leave_application application_id application db in
        let balance :=
          leave_balances db !! LeaveApplication.balance_key application in
        let db :=
          match balance with
          | Some balance =>
            let balance :=
              EmployeeLeaveBalance.set_pending_days
                (EmployeeLeaveBalance.pending_days balance
                 - LeaveApplication.working_days application) balance in
            save_leave_balance (LeaveApplication.balance_key application)
              balance db
          | None => db
          end in
        (redirect "leave_application_list" MSG_SUCCESS
           "Leave application rejected.", db)
      end
    | _ =>
      (HttpRender "hr_payroll/leave_reject.html"
         (LeaveRejectContext "Reject Leave Application" application), db)
    end
  end.

Definition payroll_period_detail (request : Request.t) (period_id : Z)
    (db : Database) : HttpResponse * Database :=
  match get_object_or_404 (payroll_periods db) period_id with
  | inl not_found => (not_found, db)
  | inr period =>
    let calculations :=
      filter
        (fun kv : Z * PayrollCalculation.t =>
           PayrollCalculation.payroll_period kv.2 = period_id)
        (payroll_calculations db) in
    let summary :=
      mkPeriodSummary
        (Z.of_nat (size calculations))
        (aggregate_sum PayrollCalculation.gross_pay calculations)
        (aggregate_sum PayrollCalculation.total_deductions calculations)
        (aggregate_sum PayrollCalculation.net_pay calculations)
        (aggregate_sum PayrollCalculation.tax_amount calculations) in
    (HttpRender "hr_payroll/payroll_period_detail.html"
       (PayrollPeriodContext
          ("Payroll: " ++ PayrollPeriod.period_name period)
          period calculations summary), db)
  end.

Definition payroll_calculation_detail (request : Request.t)
    (calculation_id : Z) (db : Database) : HttpResponse * Database :=
  match get_object_or_404 (payroll_calculations db) calculation_id with
  | inl not_found => (not_found, db)
  | inr calculation =>
    let earnings :=
      details_of calculation_id PayrollCalculationDetail.EARNING db in
    let deductions :=
      details_of calculation_id PayrollCalculationDetail.DEDUCTION db in
    (HttpRender "hr_payroll/payslip_view.html"
       (PayslipContext calculation earnings deductions), db)
  end.

(** ** Administration of payroll calculations ([workforce/admin.py])

    [PayrollCalculation] rows are written only through the admin site: the
    REST view set is read-only and [process] computes nothing.  The admin
    form offers every amount of the row for editing, the aggregate fields
    included.  [PayrollCalculationDetailInline] shows the detail lines of
    the calculation with [item_type], [description] and [amount] read-only,
    leaves [is_taxable] and [is_pensionable] editable, offers no deletion
    ([can_delete = False]) and no blank line of its own ([extra = 0]).  The
    table carries the constraint its [Meta] declares,
    [unique_together = ['employee', 'payroll_period']], which the form
    validation and the database both check on every write. *)

Module PayrollCalculationAdmin.
Import PayrollCalculation.

(** Two rows fall under the same [unique_together] pair. *)
Definition clashes (row other : PayrollCalculation.t) : Prop :=
  employee row = employee other ∧ payroll_period row = payroll_period other.

#[global] Instance clashes_dec row other : Decision (clashes row other).
Proof. unfold clashes. apply _. Defined.

(** The check made when [row] is written under [pk]: no other stored row
    has its pair. *)
Definition validate_unique (pk : Z) (row : PayrollCalculation.t)
    (table : gmap Z PayrollCalculation.t) : Prop :=
  map_Forall (fun j other => j ≠ pk → ¬ clashes row other) table.

#[global] Instance validate_unique_dec pk row table :
  Decision (validate_unique pk row table).
Proof. unfold validate_unique. apply _. Defined.

(** The amounts of the form, each a [DecimalField(max_digits=12,
    decimal_places=2)]. *)
Definition amounts (row : PayrollCalculation.t) : list Z :=
  [ basic_salary row; total_earnings row; total_allowances row;
    total_overtime row; total_bonuses row; gross_pay row;
    total_statutory_deductions row; total_voluntary_deductions row;
    total_loan_deductions row; total_deductions row; taxable_income row;
    tax_amount row; pension_employee row; pension_employer row;
    net_pay row; employer_cost row ].

(** The checks of the form on its own fields: the employee (a raw id) and
    the payroll period (a choice) are stored rows, and every amount has at
    most twelve digits. *)
Definition clean_fields (row : PayrollCalculation.t) (db : Database) : Prop :=
  Exists (fun e => Employee.id e = employee row) (employees db)
  ∧ is_Some (payroll_periods db !! payroll_period row)
  ∧ Forall (fun v => Z.abs v < 10 ^ 12) (amounts row).

#[global] Instance clean_fields_dec row db : Decision (clean_fields row db).
Proof. unfold clean_fields. apply _. Defined.

(** One line of the inline as posted: a stored line with its two editable
    flags, or a line added in the browser, for which the form has the two
    flags and nothing else. *)
Inductive InlineForm :=
  | StoredLine (id : Z) (is_taxable is_pensionable : bool)
  | BlankLine (is_taxable is_pensionable : bool).

#[global] Instance InlineForm_eq_dec : EqDecision InlineForm.
Proof. solve_decision. Defined.

(** A stored line is accepted when it is a line of the calculation on the
    form.  An added line whose flags were left alone counts as unchanged and
    is skipped; one with a flag set would be inserted without its amount,
    which the column refuses ([IntegrityError], the request is rolled
    back). *)
Definition inline_valid (pk : Z)
    (details : gmap Z PayrollCalculationDetail.t) (form : InlineForm)
    : Prop :=
  match form with
  | StoredLine id _ _ =>
    match details !! id with
    | Some d => PayrollCalculationDetail.payroll_calculation d = pk
    | None => False
    end
  | BlankLine is_taxable is_pensionable =>
    is_taxable = false ∧ is_pensionable = false
  end.

#[global] Instance inline_valid_dec pk details form :
  Decision (inline_valid pk details form).
Proof. destruct form; simpl; [case_match|]; apply _. Defined.

Definition set_flags (is_taxable is_pensionable : bool)
    (d : PayrollCalculationDetail.t) : PayrollCalculationDetail.t :=
  PayrollCalculationDetail.mk
    (PayrollCalculationDetail.payroll_calculation d)
    (PayrollCalculationDetail.item_type d)
    (PayrollCalculationDetail.description d)
    (PayrollCalculationDetail.amount d) is_taxable is_pensionable.

(** Saving one line of the inline. *)
Definition save_line (details : gmap Z PayrollCalculationDetail.t)
    (form : InlineForm) : gmap Z PayrollCalculationDetail.t :=
  match form with
  | StoredLine id is_taxable is_pensionable =>
    match details !! id with
    | Some d => <[id := set_flags is_taxable is_pensionable d]> details
    | None => details
    end
  | BlankLine _ _ => details
  end.

Definition save_formset (inline : list InlineForm)
    (details : gmap Z PayrollCalculationDetail.t)
    : gmap Z PayrollCalculationDetail.t :=
  fold_left save_line inline details.

(** Adding a row under a key the database has not used; [None] is the
    refusal (a form error, or [IntegrityError]).  A calculation that is
    being added has no stored line, so the inline accepts nothing but
    untouched added lines, and no line is written. *)
Definition add_view (pk : Z) (row : PayrollCalculation.t)
    (inline : list InlineForm) (db : Database) : option Database :=
  if decide (payroll_calculations db !! pk = None
             ∧ clean_fields row db
             ∧ validate_unique pk row (payroll_calculations db)
             ∧ Forall (fun form => form = BlankLine false false) inline)
  then Some (set_payroll_calculations
               (<[pk := row]> (payroll_calculations db)) db)
  else None.

(** Saving the edited form of a stored row, and with it the flags of the
    detail lines posted in the inline. *)
Definition change_view (pk : Z) (row : PayrollCalculation.t)
    (inline : list InlineForm) (db : Database) : option Database :=
  if decide (is_Some (payroll_calculations db !! pk)
             ∧ clean_fields row db
             ∧ validate_unique pk row (payroll_calculations db)
             ∧ Forall (inline_valid pk (payroll_calculation_details db))
                 inline)
  then Some (mkDatabase (employees db) (departments db) (leave_types db)
               (leave_balances db) (leave_applications db)
               (payroll_periods db)
               (<[pk := row]> (payroll_calculations db))
               (save_formset inline (payroll_calculation_details db)))
  else None.

(** Deleting a row; its detail lines go with it ([on_delete=CASCADE]). *)
Definition delete_view (pk : Z) (db : Database) : Database :=
  mkDatabase (employees db) (departments db) (leave_types db)
    (leave_balances db) (leave_applications db) (payroll_periods db)
    (delete pk (payroll_calculations db))
    (filter
       (fun kv : Z * PayrollCalculationDetail.t =>
          PayrollCalculationDetail.payroll_calculation kv.2 ≠ pk)
       (payroll_calculation_details db)).
End PayrollCalculationAdmin.

(** ** Everything that can happen to the database

    A handler step is one of the handlers above run to completion.  A step
    is a handler step, one write through the calculation admin, or a
    deletion elsewhere that cascades into the calculations (rows disappear,
    none appears or changes). *)

Inductive handler_step : Database -> Database -> Prop :=
  | step_leave_submit now request pk db :
      handler_step db (LeaveApplicationViewSet.submit now request pk db).2
  | step_leave_approve now request pk db :
      handler_step db (LeaveApplicationViewSet.approve now request pk db).2
  | step_leave_reject now request pk db :
      handler_step db (LeaveApplicationViewSet.reject now request pk db).2
  | step_accrue_monthly now request db :
      handler_step db
        (EmployeeLeaveBalanceViewSet.accrue_monthly now request db).2
  | step_period_process now request pk db :
      handler_step db (PayrollPeriodViewSet.process now request pk db).2
  | step_period_approve now request pk db :
      handler_step db (PayrollPeriodViewSet.approve now request pk db).2
  | step_breakdown request pk db :
      handler_step db (PayrollCalculationViewSet.breakdown request pk db).2
  | step_view_leave_approve now request id db :
      handler_step db (leave_application_approve now request id db).2
  | step_view_leave_reject now request id db :
      handler_step db (leave_application_reject now request id db).2
  | step_view_period_detail request id db :
      handler_step db (payroll_period_detail request id db).2
  | step_view_calculation_detail request id db :
      handler_step db (payroll_calculation_detail request id db).2.

Inductive step : Database -> Database -> Prop :=
  | step_handler db db' :
      handler_step db db' -> step db db'
  | step_admin_add pk row inline db db' :
      PayrollCalculationAdmin.add_view pk row inline db = Some db' ->
      step db db'
  | step_admin_change pk row inline db db' :
      PayrollCalculationAdmin.change_view pk row inline db = Some db' ->
      step db db'
  | step_admin_delete pk db :
      step db (PayrollCalculationAdmin.delete_view pk db)
  | step_cascade db db' :
      payroll_calculations db' ⊆ payroll_calculations db -> step db db'.

(** The uniqueness the [Meta] of [PayrollCalculation] asks for. *)
Definition unique_calculations (db : Database) : Prop :=
  forall pk1 pk2 row1 row2,
    payroll_calculations db !! pk1 = Some row1 ->
    payroll_calculations db !! pk2 = Some row2 ->
    PayrollCalculationAdmin.clashes row1 row2 ->
    pk1 = pk2.

(** The sum of the amounts of the detail lines of one calculation with a
    given item type. *)
Definition detail_total (calculation : Z)
    (item_type : PayrollCalculationDetail.ItemType) (db : Database) : Z :=
  aggregate_sum PayrollCalculationDetail.amount
    (details_of calculation item_type db).

(** The equality the data model expects between the detail lines of a
    calculation and its aggregate fields. *)
Definition details_match_aggregates (db : Database) : Prop :=
  forall pk calculation,
    payroll_calculations db !! pk = Some calculation ->
    detail_total pk PayrollCalculationDetail.EARNING db
      = PayrollCalculation.total_earnings calculation
    ∧ detail_total pk PayrollCalculationDetail.DEDUCTION db
      = PayrollCalculation.total_deductions calculation.

(** The closing balance the data model expects. *)
Definition expected_closing_balance (b : EmployeeLeaveBalance.t) : Z :=
  EmployeeLeaveBalance.opening_balance b
  + EmployeeLeaveBalance.accrued_days b
  + EmployeeLeaveBalance.carried_forward_days b
  - EmployeeLeaveBalance.taken_days b
  - EmployeeLeaveBalance.encashed_days b
  - EmployeeLeaveBalance.forfeited_days b.

(** A run of the two transition actions the REST interface exposes on
    payroll periods, each with its own clock reading, request and target. *)
Inductive PeriodAction :=
  | Process (now : DateTime.t) (request : Request.t) (pk : Z)
  | Approve (now : DateTime.t) (request : Request.t) (pk : Z).

Definition run_period_action (db : Database) (a : PeriodAction) : Database :=
  match a with
  | Process now request pk => (PayrollPeriodViewSet.process now request pk db).2
  | Approve now request pk => (PayrollPeriodViewSet.approve now request pk db).2
  end.

Definition run_period_actions (actions : list PeriodAction) (db : Database)
    : Database :=
  fold_left run_period_action actions db.

(** ** Predicates used in the statements *)

(** Every column of a balance other than [pending_days] agrees. *)
Definition same_but_pending_days (b b' : EmployeeLeaveBalance.t) : Prop :=
  EmployeeLeaveBalance.employee b' = EmployeeLeaveBalance.employee b
  ∧ EmployeeLeaveBalance.leave_type b' = EmployeeLeaveBalance.leave_type b
  ∧ EmployeeLeaveBalance.year b' = EmployeeLeaveBalance.year b
  ∧ EmployeeLeaveBalance.opening_balance b'
    = EmployeeLeaveBalance.opening_balance b
  ∧ EmployeeLeaveBalance.accrued_days b' = EmployeeLeaveBalance.accrued_days b
  ∧ EmployeeLeaveBalance.carried_forward_days b'
    = EmployeeLeaveBalance.carried_forward_days b
  ∧ EmployeeLeaveBalance.adjustment_days b'
    = EmployeeLeaveBalance.adjustment_days b
  ∧ EmployeeLeaveBalance.taken_days b' = EmployeeLeaveBalance.taken_days b
  ∧ EmployeeLeaveBalance.encashed_days b'
    = EmployeeLeaveBalance.encashed_days b
  ∧ EmployeeLeaveBalance.forfeited_days b'
    = EmployeeLeaveBalance.forfeited_days b
  ∧ EmployeeLeaveBalance.closing_balance b'
    = EmployeeLeaveBalance.closing_balance b
  ∧ EmployeeLeaveBalance.last_accrual_date b'
    = EmployeeLeaveBalance.last_accrual_date b
  ∧ EmployeeLeaveBalance.next_accrual_date b'
    = EmployeeLeaveBalance.next_accrual_date b.

(** What a rejection leaves behind in the database [db'] for the application
    [leave_app] stored under [pk] in [db]. *)
Definition rejection_recorded (pk : Z) (leave_app : LeaveApplication.t)
    (reason : string) (db db' : Database) : Prop :=
  (exists rejected,
     leave_applications db' !! pk = Some rejected
     ∧ LeaveApplication.status rejected = LeaveApplication.REJECTED
     ∧ LeaveApplication.rejection_reason rejected = reason)
  ∧ (forall balance,
       leave_balances db !! LeaveApplication.balance_key leave_app
         = Some balance ->
       exists balance',
         leave_balances db' !! LeaveApplication.balance_key leave_app
           = Some balance'
         ∧ EmployeeLeaveBalance.pending_days balance'
           = EmployeeLeaveBalance.pending_days balance
             - LeaveApplication.working_days leave_app
         ∧ EmployeeLeaveBalance.taken_days balance'
           = EmployeeLeaveBalance.taken_days balance
         ∧ EmployeeLeaveBalance.closing_balance balance'
           = EmployeeLeaveBalance.closing_balance balance).

(** What both recomputations assign: the opening balance plus what accrued
    and was carried forward, less what was taken. *)
Definition recomputed (b : EmployeeLeaveBalance.t) : Prop :=
  EmployeeLeaveBalance.closing_balance b
  = EmployeeLeaveBalance.opening_balance b
    + EmployeeLeaveBalance.accrued_days b
    + EmployeeLeaveBalance.carried_forward_days b
    - EmployeeLeaveBalance.taken_days b.

Definition recomputed_at (key : Z * Z * Z)
    (balances : gmap (Z * Z * Z) EmployeeLeaveBalance.t) : Prop :=
  exists b, balances !! key = Some b ∧ recomputed b.

(** The key of the balance row the monthly accrual touches for an employee
    and a leave type. *)
Definition pair_key (now : DateTime.t) (e : Employee.t) (lt : LeaveType.t)
    : Z * Z * Z :=
  (Employee.id e, LeaveType.id lt, DateTime.year now).


(** The decimals of the leave tables are within the digits of their
    columns. *)
Definition decimals_in_range (db : Database) : Prop :=
  map_Forall (fun _ b => EmployeeLeaveBalance.in_range b) (leave_balances db)
  ∧ Forall LeaveType.in_range (leave_types db).

#[global] Instance decimals_in_range_dec db : Decision (decimals_in_range db).
Proof. unfold decimals_in_range. apply _. Defined.

(** Every column of a detail line other than its two flags agrees. *)
Definition same_but_flags (d d' : PayrollCalculationDetail.t) : Prop :=
  PayrollCalculationDetail.payroll_calculation d'
  = PayrollCalculationDetail.payroll_calculation d
  ∧ PayrollCalculationDetail.item_type d'
    = PayrollCalculationDetail.item_type d
  ∧ PayrollCalculationDetail.description d'
    = PayrollCalculationDetail.description d
  ∧ PayrollCalculationDetail.amount d' = PayrollCalculationDetail.amount d.

(** Both tables hold lines under the same keys, and the lines under a key
    agree up to their flags. *)
Definition same_lines
    (details details' : gmap Z PayrollCalculationDetail.t) : Prop :=
  forall id, option_Forall2 same_but_flags (details !! id) (details' !! id).

(** A period that has not got past processing. *)
Definition not_yet_calculated (pk : Z) (db : Database) : Prop :=
  exists period,
    payroll_periods db !! pk = Some period
    ∧ (PayrollPeriod.status period = PayrollPeriod.OPEN
       ∨ PayrollPeriod.status period = PayrollPeriod.PROCESSING).

(** ** Concrete rows and databases used to exercise the handlers *)

Module Sample.
Definition now : DateTime.t := DateTime.mk (Date.mk 2024 2 20) 36000.

Definition request : Request.t := Request.mk 7 POST ∅.

Definition request_with_reason : Request.t :=
  Request.mk 7 POST {[ "reason" := "Understaffed that week" ]}.

(** Five days of leave (5.00 working days) in March 2024. *)
Definition application (status : LeaveApplication.Status)
    : LeaveApplication.t :=
  LeaveApplication.mk 11 3 (Date.mk 2024 3 4) (Date.mk 2024 3 8) 500 500
    "Family matters" status None None None EmptyString.

(** 21.00 days accrued, 5.00 of them pending. *)
Definition balance : EmployeeLeaveBalance.t :=
  EmployeeLeaveBalance.mk 11 3 2024 0 2100 0 0 0 500 0 0 2100 None None.

(** 3.00 days closing, nothing pending: too little for five days. *)
Definition short_balance : EmployeeLeaveBalance.t :=
  EmployeeLeaveBalance.mk 11 3 2024 0 300 0 0 0 0 0 0 300 None None.

(** As [balance], with 2.00 days encashed and 1.00 forfeited. *)
Definition encashed_balance : EmployeeLeaveBalance.t :=
  EmployeeLeaveBalance.mk 11 3 2024 0 2100 0 0 0 500 200 100 1800 None None.

Definition key : Z * Z * Z := (11, 3, 2024).

Definition leave_db (status : LeaveApplication.Status)
    (balances : gmap (Z * Z * Z) EmployeeLeaveBalance.t) : Database :=
  mkDatabase [] ∅ [] balances {[ 1 := application status ]} ∅ ∅ ∅.

Definition employee : Employee.t :=
  Employee.mk 11 "E-011" "Amina" EmptyString "Odhiambo" Employee.ACTIVE
    None.

Definition annual_leave : LeaveType.t := LeaveType.mk 3 "Annual" 175 true.

Definition accrual_db : Database :=
  mkDatabase [employee] ∅ [annual_leave] {[ key := encashed_balance ]}
    ∅ ∅ ∅ ∅.

Definition period (status : PayrollPeriod.Status) : PayrollPeriod.t :=
  PayrollPeriod.mk "March 2024" (Date.mk 2024 3 1) (Date.mk 2024 3 31)
    (Date.mk 2024 3 28) status 0 0 0 0 None None None None false
    EmptyString.

Definition period_db (status : PayrollPeriod.Status) : Database :=
  mkDatabase [] ∅ [] ∅ ∅ {[ 5 := period status ]} ∅ ∅.

(** A calculation entered with 1000.00 of earnings and 150.00 of
    deductions. *)
Definition calculation : PayrollCalculation.t :=
  PayrollCalculation.mk 11 5 80000 100000 20000 0 0 100000
    15000 0 0 15000 100000 10000 5000 5000 85000 105000.

Definition empty_db : Database := mkDatabase [] ∅ [] ∅ ∅ ∅ ∅ ∅.

(** One employee and one open period, no calculation yet. *)
Definition payroll_db : Database :=
  mkDatabase [employee] ∅ [] ∅ ∅ {[ 5 := period PayrollPeriod.OPEN ]} ∅ ∅.

(** The basic pay behind [calculation] as a detail line of calculation 1,
    and the inline line that marks it taxable and pensionable. *)
Definition basic_pay_line : PayrollCalculationDetail.t :=
  PayrollCalculationDetail.mk 1 PayrollCalculationDetail.EARNING
    "Basic pay" 80000 false false.

Definition itemised_db : Database :=
  mkDatabase [employee] ∅ [] ∅ ∅ {[ 5 := period PayrollPeriod.OPEN ]}
    {[ 1 := calculation ]} {[ 40 := basic_pay_line ]}.
End Sample.

(** ** Further handlers of the same files

    The handlers below only touch the table of their own model, so they are
    functions of that table (and of the database where they read it). *)

(** [EmployeeLeaveBalanceSerializer.get_available_balance]
    ([workforce/serializers.py]): the balance the REST interface reports as
    available. *)
Module EmployeeLeaveBalanceSerializer.
Definition get_available_balance (obj : EmployeeLeaveBalance.t) : Z :=
  EmployeeLeaveBalance.closing_balance obj
  - EmployeeLeaveBalance.pending_days obj.
End EmployeeLeaveBalanceSerializer.

(** [LeaveApplicationViewSet.pending_approvals]: the applications waiting
    for a decision. *)
Module LeaveApplicationQueries.
Definition pending_approvals (request : Request.t) (db : Database)
    : Response (gmap Z LeaveApplication.t) :=
  HTTP_200_OK
    (filter
       (fun kv : Z * LeaveApplication.t =>
          LeaveApplication.status kv.2
          ∈ [LeaveApplication.SUBMITTED; LeaveApplication.PENDING_APPROVAL])
       (leave_applications db)).
End LeaveApplicationQueries.

(** [EmployeeViewSet.leave_balance]: the balance rows of one employee for
    the current year.  The rows are read for the serializer; one whose
    decimals left the digits of their columns raises on the way. *)
Module EmployeeViewSet.



End EmployeeViewSet.

(** [DepartmentViewSet.employees] and [DepartmentViewSet.payroll_summary]:
    both fetch the department and then only read. *)
Module DepartmentViewSet.
Definition employees {A : Type}
    (found : Z -> Department.t -> Database -> Response A)
    (request : Request.t) (pk : Z) (db : Database) : Response A :=
  match departments db !! pk with
  | None => HTTP_404_NOT_FOUND
  | Some department => found pk department db
  end.

End DepartmentViewSet.

(** [PayrollPeriodViewSet.summary]. *)
Module PayrollPeriodQueries.
(** [get_status_display()]: the label of the status choice. *)
Definition get_status_display (s : PayrollPeriod.Status) : string :=
  match s with
  | PayrollPeriod.OPEN => "Open"
  | PayrollPeriod.PROCESSING => "Processing"
  | PayrollPeriod.CALCULATED => "Calculated"
  | PayrollPeriod.APPROVED => "Approved"
  | PayrollPeriod.PAID => "Paid"
  | PayrollPeriod.CLOSED => "Closed"
  end.

(** [queryset.aggregate(Sum(field))]: the sum over the rows, and [None]
    when there is no row. *)
Definition aggregate_Sum {A : Type} (field : A -> Z) (rows : gmap Z A)
    : option Z :=
  if bool_decide (size rows = 0%nat) then None
  else Some (map_fold (fun _ row total => field row + total) 0 rows).

(** [value or 0]. *)
Definition or_0 (value : option Z) : Z := default 0 value.

Record Summary := mkSummary {
  period : string;
  status : string;
  employee_count : Z;
  total_gross_pay : Z;
  total_deductions : Z;
  total_net_pay : Z;
  total_tax : Z;
  total_pension : option Z * option Z }.

Definition summary (request : Request.t) (pk : Z) (db : Database)
    : Response Summary :=
  match payroll_periods db !! pk with
  | None => HTTP_404_NOT_FOUND
  | Some period =>
    let calculations :=
      filter
        (fun kv : Z * PayrollCalculation.t =>
           PayrollCalculation.payroll_period kv.2 = pk)
        (payroll_calculations db) in
    HTTP_200_OK
      (mkSummary
         (PayrollPeriod.period_name period)
         (get_status_display (PayrollPeriod.status period))
         (Z.of_nat (size calculations))
         (or_0 (aggregate_Sum PayrollCalculation.gross_pay calculations))
         (or_0 (aggregate_Sum PayrollCalculation.total_deductions
                  calculations))
         (or_0 (aggregate_Sum PayrollCalculation.net_pay calculations))
         (or_0 (aggregate_Sum PayrollCalculation.tax_amount calculations))
         (aggregate_Sum PayrollCalculation.pension_employee calculations,
          aggregate_Sum PayrollCalculation.pension_employer calculations))
  end.
End PayrollPeriodQueries.

(** Overtime requests and their two decisions
    ([OvertimeRequestViewSet.approve], [OvertimeRequestViewSet.reject]). *)
Module OvertimeRequest.
Inductive ApprovalStatus := PENDING | APPROVED | REJECTED.

#[global] Instance ApprovalStatus_eq_dec : EqDecision ApprovalStatus.
Proof. solve_decision. Defined.

Record t := mk {
  employee : Z;
  overtime_date : Date.t;
  start_time : Z;
  end_time : Z;
  estimated_hours : Z;
  reason : string;
  department : Z;
  requested_by : option Z;
  approved_by : option Z;
  approval_status : ApprovalStatus;
  approval_notes : string;
  actual_hours : option Z }.

Definition set_approval_status (v : ApprovalStatus) (r : t) : t :=
  mk (employee r) (overtime_date r) (start_time r) (end_time r)
     (estimated_hours r) (reason r) (department r) (requested_by r)
     (approved_by r) v (approval_notes r) (actual_hours r).

Definition set_approved_by (v : option Z) (r : t) : t :=
  mk (employee r) (overtime_date r) (start_time r) (end_time r)
     (estimated_hours r) (reason r) (department r) (requested_by r)
     v (approval_status r) (approval_notes r) (actual_hours r).

Definition set_approval_notes (v : string) (r : t) : t :=
  mk (employee r) (overtime_date r) (start_time r) (end_time r)
     (estimated_hours r) (reason r) (department r) (requested_by r)
     (approved_by r) (approval_status r) v (actual_hours r).
End OvertimeRequest.

Module OvertimeRequestViewSet.
Import OvertimeRequest.

Definition approve (request : Request.t) (pk : Z)
    (overtime_requests : gmap Z OvertimeRequest.t)
    : Response OvertimeRequest.t * gmap Z OvertimeRequest.t :=
  match overtime_requests !! pk with
  | None => (HTTP_404_NOT_FOUND, overtime_requests)
  | Some overtime_request =>
    if decide (approval_status overtime_request ≠ PENDING) then
      (HTTP_400_BAD_REQUEST (Error "Request is not pending"),
       overtime_requests)
    else
      let overtime_request := set_approval_status APPROVED overtime_request in
      let overtime_request :=
        set_approved_by (Some (Request.user request)) overtime_request in
      (HTTP_200_OK overtime_request,
       <[pk := overtime_request]> overtime_requests)
  end.

Definition reject (request : Request.t) (pk : Z)
    (overtime_requests : gmap Z OvertimeRequest.t)
    : Response OvertimeRequest.t * gmap Z OvertimeRequest.t :=
  match overtime_requests !! pk with
  | None => (HTTP_404_NOT_FOUND, overtime_requests)
  | Some overtime_request =>
    if decide (approval_status overtime_request ≠ PENDING) then
      (HTTP_400_BAD_REQUEST (Error "Request is not pending"),
       overtime_requests)
    else
      let overtime_request := set_approval_status REJECTED overtime_request in
      let overtime_request :=
        set_approved_by (Some (Request.user request)) overtime_request in
      let overtime_request :=
        set_approval_notes
          (default EmptyString (Request.data request !! "notes"))
          overtime_request in
      (HTTP_200_OK overtime_request,
       <[pk := overtime_request]> overtime_requests)
  end.

(** A run of rulings, each with its own request and target. *)
Inductive Ruling :=
  | Approve (request : Request.t) (pk : Z)
  | Reject (request : Request.t) (pk : Z).

Definition rule_one (overtime_requests : gmap Z OvertimeRequest.t)
    (r : Ruling) : gmap Z OvertimeRequest.t :=
  match r with
  | Approve request pk => (approve request pk overtime_requests).2
  | Reject request pk => (reject request pk overtime_requests).2
  end.

Definition rule_all (rulings : list Ruling)
    (overtime_requests : gmap Z OvertimeRequest.t)
    : gmap Z OvertimeRequest.t :=
  fold_left rule_one rulings overtime_requests.
End OvertimeRequestViewSet.

(** Payslips and their two delivery actions ([PayslipViewSet.download],
    [PayslipViewSet.email]). *)
Module Payslip.
Record t := mk {
  payroll_calculation : Z;
  employee : Z;
  payroll_period : Z;
  payslip_number : string;
  generation_date : DateTime.t;
  email_sent : bool;
  email_sent_date : option DateTime.t;
  downloaded : bool;
  download_date : option DateTime.t }.

Definition set_email_sent (v : bool) (p : t) : t :=
  mk (payroll_calculation p) (employee p) (payroll_period p)
     (payslip_number p) (generation_date p) v (email_sent_date p)
     (downloaded p) (download_date p).

Definition set_email_sent_date (v : option DateTime.t) (p : t) : t :=
  mk (payroll_calculation p) (employee p) (payroll_period p)
     (payslip_number p) (generation_date p) (email_sent p) v
     (downloaded p) (download_date p).

Definition set_downloaded (v : bool) (p : t) : t :=
  mk (payroll_calculation p) (employee p) (payroll_period p)
     (payslip_number p) (generation_date p) (email_sent p)
     (email_sent_date p) v (download_date p).

Definition set_download_date (v : option DateTime.t) (p : t) : t :=
  mk (payroll_calculation p) (employee p) (payroll_period p)
     (payslip_number p) (generation_date p) (email_sent p)
     (email_sent_date p) (downloaded p) v.
End Payslip.

Module PayslipViewSet.
Import Payslip.

Record Downloaded := mkDownloaded {
  download_message : string;
  download_payslip_number : string }.

Record Emailed := mkEmailed {
  email_message : string;
  email_address : string }.

Definition download (now : DateTime.t) (request : Request.t) (pk : Z)
    (payslips : gmap Z Payslip.t) : Response Downloaded * gmap Z Payslip.t :=
  match payslips !! pk with
  | None => (HTTP_404_NOT_FOUND, payslips)
  | Some payslip =>
    let '(payslip, payslips) :=
      if negb (downloaded payslip) then
        let payslip := set_downloaded true payslip in
        let payslip := set_download_date (Some now) payslip in
        (payslip, <[pk := payslip]> payslips)
      else (payslip, payslips) in
    (HTTP_200_OK
       (mkDownloaded "PDF generation not implemented yet"
          (payslip_number payslip)),
     payslips)
  end.

(** [official_email] is that column of the employee table, by employee id;
    the response reads it through the payslip's foreign key after the
    payslip has been saved. *)
Definition email (now : DateTime.t) (request : Request.t) (pk : Z)
    (official_email : gmap Z string) (payslips : gmap Z Payslip.t)
    : Response Emailed * gmap Z Payslip.t :=
  match payslips !! pk with
  | None => (HTTP_404_NOT_FOUND, payslips)
  | Some payslip =>
    let payslip := set_email_sent true payslip in
    let payslip := set_email_sent_date (Some now) payslip in
    let payslips := <[pk := payslip]> payslips in
    match official_email !! employee payslip with
    | Some address =>
      (HTTP_200_OK (mkEmailed "Payslip emailed successfully" address),
       payslips)
    | None => (HTTP_500_INTERNAL_SERVER_ERROR, payslips)
    end
  end.

(** A run of delivery actions on the payslips. *)
Inductive Delivery :=
  | Download (now : DateTime.t) (request : Request.t) (pk : Z)
  | Email (now : DateTime.t) (request : Request.t) (pk : Z).

Definition deliver_one (official_email : gmap Z string)
    (payslips : gmap Z Payslip.t) (d : Delivery) : gmap Z Payslip.t :=
  match d with
  | Download now request pk => (download now request pk payslips).2
  | Email now request pk => (email now request pk official_email payslips).2
  end.

Definition deliver_all (official_email : gmap Z string)
    (deliveries : list Delivery) (payslips : gmap Z Payslip.t)
    : gmap Z Payslip.t :=
  fold_left (deliver_one official_email) deliveries payslips.
End PayslipViewSet.

(** ** The remaining views that fetch one row by the id in their URL

    Each of these views starts with its lookup.  What it does with the row
    it found is a matter of templates, forms and report generators; it
    enters the definition as a function [found] (or [generate]) of what the
    view holds at that point.  A view that only reads returns the database
    it was given. *)






(** [workforce/views_reports.py]: the class-based report views catch
    [DoesNotExist] themselves and answer with a JSON body. *)
Module PayslipPDFView.
Definition get (generate : PayrollCalculation.t -> Database -> HttpResponse)
    (request : Request.t) (calculation_id : Z) (db : Database)
    : HttpResponse * Database :=
  match payroll_calculations db !! calculation_id with
  | Some calculation => (generate calculation db, db)
  | None =>
    (JsonResponse (JsonError "Payroll calculation not found") 404, db)
  end.
End PayslipPDFView.

Module PayrollRegisterPDFView.
Definition get (generate : PayrollPeriod.t -> Database -> HttpResponse)
    (request : Request.t) (period_id : Z) (db : Database)
    : HttpResponse * Database :=
  match payroll_periods db !! period_id with
  | Some period => (generate period db, db)
  | None => (JsonResponse (JsonError "Payroll period not found") 404, db)
  end.
End PayrollRegisterPDFView.

Module PayrollRegisterExcelView.
Definition get (generate : PayrollPeriod.t -> Database -> HttpResponse)
    (request : Request.t) (period_id : Z) (db : Database)
    : HttpResponse * Database :=
  match payroll_periods db !! period_id with
  | Some period => (generate period db, db)
  | None => (JsonResponse (JsonError "Payroll period not found") 404, db)
  end.
End PayrollRegisterExcelView.

(** [accounts/views.py].  The views are modelled for a request that passed
    [login_required] and [admin_required]. *)
Module Accounts.

(** Modelled from the spec: [accounts/models.py] is not among the sources.
    The spec has a user model with role flags and a first-login flow; the
    columns below are the ones the views read and write. *)
Module User.
Record t := mk {
  is_active : bool;
  is_first_login : bool;
  is_lecturer : bool;
  is_student : bool }.


End User.

(** Modelled from the spec: the student row of a user with the student
    role; [student] is its foreign key to the user. *)
Module Student.
Record t := mk { student : Z }.
End Student.

Record Database := mkDatabase {
  users : gmap Z User.t;
  students : gmap Z Student.t }.










End Accounts.

(** ** Further predicates used in the statements *)

(** An application waits for a decision. *)
Definition awaiting (a : LeaveApplication.t) : Prop :=
  LeaveApplication.status a
  ∈ [LeaveApplication.SUBMITTED; LeaveApplication.PENDING_APPROVAL].

#[global] Instance awaiting_dec a : Decision (awaiting a).
Proof. unfold awaiting. apply _. Defined.

(** What one application adds to the days that wait for a decision on the
    balance row under [key]. *)
Definition contribution (key : Z * Z * Z) (a : LeaveApplication.t) : Z :=
  if decide (LeaveApplication.balance_key a = key ∧ awaiting a)
  then LeaveApplication.working_days a else 0.

(** The working days of the applications that wait for a decision and draw
    on the balance row under [key]. *)
Definition awaiting_days (key : Z * Z * Z) (db : Database) : Z :=
  aggregate_sum LeaveApplication.working_days
    (filter
       (fun kv : Z * LeaveApplication.t =>
          LeaveApplication.balance_key kv.2 = key ∧ awaiting kv.2)
       (leave_applications db)).

(** Every balance row holds as pending exactly the days that wait for a
    decision. *)
Definition pending_days_consistent (db : Database) : Prop :=
  forall key balance,
    leave_balances db !! key = Some balance ->
    EmployeeLeaveBalance.pending_days balance = awaiting_days key db.


(** Every column of a balance the monthly accrual does not assign agrees. *)
Definition same_but_accrual (b b' : EmployeeLeaveBalance.t) : Prop :=
  EmployeeLeaveBalance.employee b' = EmployeeLeaveBalance.employee b
  ∧ EmployeeLeaveBalance.leave_type b' = EmployeeLeaveBalance.leave_type b
  ∧ EmployeeLeaveBalance.year b' = EmployeeLeaveBalance.year b
  ∧ EmployeeLeaveBalance.opening_balance b'
    = EmployeeLeaveBalance.opening_balance b
  ∧ EmployeeLeaveBalance.carried_forward_days b'
    = EmployeeLeaveBalance.carried_forward_days b
  ∧ EmployeeLeaveBalance.adjustment_days b'
    = EmployeeLeaveBalance.adjustment_days b
  ∧ EmployeeLeaveBalance.taken_days b' = EmployeeLeaveBalance.taken_days b
  ∧ EmployeeLeaveBalance.pending_days b' = EmployeeLeaveBalance.pending_days b
  ∧ EmployeeLeaveBalance.encashed_days b'
    = EmployeeLeaveBalance.encashed_days b
  ∧ EmployeeLeaveBalance.forfeited_days b'
    = EmployeeLeaveBalance.forfeited_days b
  ∧ EmployeeLeaveBalance.next_accrual_date b'
    = EmployeeLeaveBalance.next_accrual_date b.

(** A row that is stored stays stored, with only the accrual's own columns
    changed. *)
Definition kept (m m' : gmap (Z * Z * Z) EmployeeLeaveBalance.t) : Prop :=
  forall key b,
    m !! key = Some b ->
    exists b', m' !! key = Some b' ∧ same_but_accrual b b'.

(** The accrued days stored under a key, none when there is no row. *)
Definition accrued_at (k : Z * Z * Z)
    (m : gmap (Z * Z * Z) EmployeeLeaveBalance.t) : Z :=
  match m !! k with
  | Some b => EmployeeLeaveBalance.accrued_days b
  | None => 0
  end.

(** The columns of a payroll period neither [process] nor [approve]
    assigns. *)
Definition same_period_figures (p p' : PayrollPeriod.t) : Prop :=
  PayrollPeriod.period_name p' = PayrollPeriod.period_name p
  ∧ PayrollPeriod.start_date p' = PayrollPeriod.start_date p
  ∧ PayrollPeriod.end_date p' = PayrollPeriod.end_date p
  ∧ PayrollPeriod.payment_date p' = PayrollPeriod.payment_date p
  ∧ PayrollPeriod.total_gross_pay p' = PayrollPeriod.total_gross_pay p
  ∧ PayrollPeriod.total_deductions p' = PayrollPeriod.total_deductions p
  ∧ PayrollPeriod.total_net_pay p' = PayrollPeriod.total_net_pay p
  ∧ PayrollPeriod.employee_count p' = PayrollPeriod.employee_count p
  ∧ PayrollPeriod.processing_completed_at p'
    = PayrollPeriod.processing_completed_at p
  ∧ PayrollPeriod.locked p' = PayrollPeriod.locked p
  ∧ PayrollPeriod.notes p' = PayrollPeriod.notes p.

(** ** Further concrete rows *)

Module Sample2.
Definition second_leave : LeaveType.t := LeaveType.mk 4 "Sick" 100 true.

Definition dormant_leave : LeaveType.t := LeaveType.mk 5 "Study" 50 false.

Definition second_employee : Employee.t :=
  Employee.mk 12 "E-012" "Brian" "K" "Mutua" Employee.ACTIVE (Some 2).

Definition former_employee : Employee.t :=
  Employee.mk 13 "E-013" "Carol" EmptyString "Njeri" Employee.RESIGNED None.

(** Three employees, two of them active; three leave types, two of them
    active; one balance row, of employee 11 for annual leave. *)
Definition staff_db : Database :=
  mkDatabase [Sample.employee; second_employee; former_employee]
    {[ 2 := Department.mk "Registry" ]}
    [Sample.annual_leave; second_leave; dormant_leave]
    {[ Sample.key := Sample.balance ]} ∅ ∅ ∅ ∅.

(** A submitted application whose five days are in the pending days of its
    balance row. *)
Definition awaiting_db : Database :=
  Sample.leave_db LeaveApplication.SUBMITTED
    {[ Sample.key := Sample.balance ]}.

(** A draft application next to a balance row with nothing pending. *)
Definition idle_balance : EmployeeLeaveBalance.t :=
  EmployeeLeaveBalance.mk 11 3 2024 0 2100 0 0 0 0 0 0 2100 None None.

Definition draft_db : Database :=
  Sample.leave_db LeaveApplication.DRAFT {[ Sample.key := idle_balance ]}.

(** What submit stores for the draft of [draft_db]. *)
Definition submitted : LeaveApplication.t :=
  LeaveApplication.set_submitted_date (Some Sample.now)
    (Sample.application LeaveApplication.SUBMITTED).

Definition locked_period (status : PayrollPeriod.Status) : PayrollPeriod.t :=
  PayrollPeriod.mk "April 2024" (Date.mk 2024 4 1) (Date.mk 2024 4 30)
    (Date.mk 2024 4 28) status 0 0 0 0 None None None None true
    EmptyString.

Definition locked_db (status : PayrollPeriod.Status) : Database :=
  mkDatabase [] ∅ [] ∅ ∅ {[ 6 := locked_period status ]} ∅ ∅.

(** The period of [Sample.period_db] with the calculation of employee 11;
    employee 12 has none yet. *)
Definition paid_db : Database :=
  mkDatabase [Sample.employee; second_employee] ∅ [] ∅ ∅
    {[ 5 := Sample.period PayrollPeriod.CALCULATED ]}
    {[ 1 := Sample.calculation ]} ∅.

Definition second_calculation : PayrollCalculation.t :=
  PayrollCalculation.mk 12 5 60000 70000 10000 0 0 70000
    9000 0 0 9000 70000 6000 3500 3500 61000 73500.

Definition overtime (status : OvertimeRequest.ApprovalStatus)
    : OvertimeRequest.t :=
  OvertimeRequest.mk 11 (Date.mk 2024 3 9) 61200 72000 300
    "Quarter close" 2 (Some 11) None status EmptyString None.

Definition request_with_notes : Request.t :=
  Request.mk 9 POST {[ "notes" := "No budget" ]}.

Definition payslip : Payslip.t :=
  Payslip.mk 1 11 5 "PS-2024-03-011" Sample.now false None false None.

Definition later : DateTime.t := DateTime.mk (Date.mk 2024 4 2) 100.

Definition emails : gmap Z string := {[ 11 := "amina@example.org" ]}.


End Sample2.

(** ** Properties of the leave actions *)

(** Reading the tables back after a save. *)
Lemma leave_balances_save_application pk a db :
  leave_balances (save_leave_application pk a db) = leave_balances db.
Proof. reflexivity. Qed.

Lemma leave_applications_save_balance key b db :
  leave_applications (save_leave_balance key b db) = leave_applications db.
Proof. reflexivity. Qed.


Lemma same_but_pending_days_set v b :
  same_but_pending_days b (EmployeeLeaveBalance.set_pending_days v b).
Proof. repeat split. Qed.

Section Submit.
Import LeaveApplication.
Variables (now : DateTime.t) (request : Request.t) (pk : Z) (db : Database).
Variable leave_app : LeaveApplication.t.
Hypothesis stored : leave_applications db !! pk = Some leave_app.
Hypothesis draft : status leave_app = DRAFT.

(** C2: a draft application with a balance row is turned down with the
    insufficient-balance error exactly when [closing_balance - pending_days]
    is below its working days, and then nothing is written; otherwise it
    becomes [submitted], the balance's [pending_days] grow by the working
    days and no other column of the balance, and no other balance row,
    changes. *)
Theorem submit_checks_balance (balance : EmployeeLeaveBalance.t) :
  leave_balances db !! balance_key leave_app = Some balance ->
  let outcome := LeaveApplicationViewSet.submit now request pk db in
  let available := EmployeeLeaveBalance.closing_balance balance
                   - EmployeeLeaveBalance.pending_days balance in
  (outcome.1 = HTTP_400_BAD_REQUEST (InsufficientLeaveBalance available)
     <-> available < working_days leave_app)
  ∧ (available < working_days leave_app -> outcome.2 = db)
  ∧ (¬ available < working_days leave_app ->
     (exists submitted,
        outcome.1 = HTTP_200_OK submitted
        ∧ leave_applications outcome.2 !! pk = Some submitted
        ∧ status submitted = SUBMITTED)
     ∧ (exists balance',
          leave_balances outcome.2 !! balance_key leave_app = Some balance'
          ∧ EmployeeLeaveBalance.pending_days balance'
            = EmployeeLeaveBalance.pending_days balance
              + working_days leave_app
          ∧ same_but_pending_days balance balance')
     ∧ (forall k, k ≠ balance_key leave_app ->
          leave_balances outcome.2 !! k = leave_balances db !! k)).
Proof.
  intros Hbal outcome available. subst outcome.
  unfold LeaveApplicationViewSet.submit.
  rewrite stored. destruct (decide (status leave_app ≠ DRAFT)) as [Hne|_];
    [congruence|].
  rewrite Hbal. fold available.
  destruct (decide (available < working_days leave_app)) as [Hlt|Hge]; simpl.
  - split; [tauto|]. split; [done|]. intros; lia.
  - split; [split; [discriminate|intros; lia]|].
    split; [intros; lia|]. intros _.
    split; [|split].
    + eexists. split; [reflexivity|]. split; [apply lookup_insert_eq|done].
    + eexists. split; [apply lookup_insert_eq|].
      split; [reflexivity|apply same_but_pending_days_set].
    + intros k Hk. by rewrite lookup_insert_ne.
Qed.

(** C10: a draft application without a balance row is never checked
    against a balance: whatever its working days, submit answers 200,
    stores it as [submitted] and leaves the balance table as it was, no row
    added and none changed. *)
Theorem submit_without_balance :
  leave_balances db !! balance_key leave_app = None ->
  let outcome := LeaveApplicationViewSet.submit now request pk db in
  (exists submitted,
     outcome.1 = HTTP_200_OK submitted
     ∧ leave_applications outcome.2 !! pk = Some submitted
     ∧ status submitted = SUBMITTED
     ∧ working_days submitted = working_days leave_app)
  ∧ leave_balances outcome.2 = leave_balances db.
Proof.
  intros Hbal outcome. subst outcome.
  unfold LeaveApplicationViewSet.submit.
  rewrite stored. destruct (decide (status leave_app ≠ DRAFT)) as [Hne|_];
    [congruence|].
  rewrite Hbal. simpl. split; [|done].
  eexists. split; [reflexivity|]. split; [apply lookup_insert_eq|done].
Qed.
End Submit.


Section Reject.
Import LeaveApplication.
Variables (now : DateTime.t) (request : Request.t) (pk : Z) (db : Database).
Variable leave_app : LeaveApplication.t.
Hypothesis stored : leave_applications db !! pk = Some leave_app.
Hypothesis awaiting :
  status leave_app = SUBMITTED ∨ status leave_app = PENDING_APPROVAL.

Lemma awaiting_elem_of :
  ¬ (status leave_app ∉ [SUBMITTED; PENDING_APPROVAL]).
Proof.
  intros Hnot. apply Hnot.
  apply list_elem_of_In.
  pose proof awaiting as H. destruct H as [H | H]; rewrite H; simpl; tauto.
Qed.

(** C4: rejecting an application that is [submitted] or [pending_approval]
    stores it as [rejected] with the reason the request supplied and, when
    its balance row exists, takes its working days off [pending_days] while
    [taken_days] and [closing_balance] stay as they were; this holds for
    the REST action and for the form view on POST alike. *)
Theorem reject_releases_pending_days (reason : string) :
  Request.data request !! "reason" = Some reason ->
  rejection_recorded pk leave_app reason db
    (LeaveApplicationViewSet.reject now request pk db).2
  ∧ (Request.method request = POST ->
     rejection_recorded pk leave_app reason db
       (leave_application_reject now request pk db).2).
Proof.
  intros Hreason. pose proof awaiting_elem_of as Hin. split.
  - unfold LeaveApplicationViewSet.reject. rewrite stored.
    destruct (decide _) as [Hout|_]; [done|].
    rewrite Hreason. cbn [default].
    rewrite leave_balances_save_application.
    change (balance_key (set_rejection_reason _ _))
      with (balance_key leave_app).
    split.
    + destruct (leave_balances db !! balance_key leave_app);
        (eexists; split; [apply lookup_insert_eq|done]).
    + intros balance Hbal. rewrite Hbal.
      eexists; split; [apply lookup_insert_eq|done].
  - intros Hpost. unfold leave_application_reject, get_object_or_404.
    rewrite stored, Hpost, Hreason.
    rewrite leave_balances_save_application.
    change (balance_key (set_rejection_reason _ _))
      with (balance_key leave_app).
    split.
    + destruct (leave_balances db !! balance_key leave_app);
        (eexists; split; [apply lookup_insert_eq|done]).
    + intros balance Hbal. rewrite Hbal.
      eexists; split; [apply lookup_insert_eq|done].
Qed.
End Reject.

Section Approve.
Import LeaveApplication.
Variables (now : DateTime.t) (request : Request.t) (pk : Z) (db : Database).

(** The REST action writes the application and nothing else. *)
Lemma viewset_approve_keeps_balances :
  leave_balances (LeaveApplicationViewSet.approve now request pk db).2
  = leave_balances db.
Proof.
  unfold LeaveApplicationViewSet.approve.
  destruct (leave_applications db !! pk); [|done].
  destruct (decide _); done.
Qed.

Variable application : LeaveApplication.t.
Hypothesis stored : leave_applications db !! pk = Some application.
Hypothesis awaiting :
  status application = SUBMITTED ∨ status application = PENDING_APPROVAL.

(** The form view does all of what approval is meant to do: the
    application becomes [approved] and, when its balance row exists, the
    working days move from [pending_days] to [taken_days] and the closing
    balance is computed afresh. *)
Lemma view_approve_moves_days (balance : EmployeeLeaveBalance.t) :
  leave_balances db !! balance_key application = Some balance ->
  let db' := (leave_application_approve now request pk db).2 in
  (exists approved,
     leave_applications db' !! pk = Some approved
     ∧ status approved = APPROVED)
  ∧ (exists balance',
       leave_balances db' !! balance_key application = Some balance'
       ∧ EmployeeLeaveBalance.taken_days balance'
         = EmployeeLeaveBalance.taken_days balance
           + working_days application
       ∧ EmployeeLeaveBalance.pending_days balance'
         = EmployeeLeaveBalance.pending_days balance
           - working_days application
       ∧ EmployeeLeaveBalance.closing_balance balance'
         = EmployeeLeaveBalance.opening_balance balance'
           + EmployeeLeaveBalance.accrued_days balance'
           + EmployeeLeaveBalance.carried_forward_days balance'
           - EmployeeLeaveBalance.taken_days balance').
Proof.
  intros Hbal db'. subst db'.
  pose proof (awaiting_elem_of application awaiting) as Hin.
  unfold leave_application_approve, get_object_or_404. rewrite stored.
  destruct (decide _) as [Hout|_]; [done|].
  rewrite leave_balances_save_application.
  change (balance_key (set_approved_date _ _))
    with (balance_key application).
  rewrite Hbal. split.
  - eexists. split; [apply lookup_insert_eq|done].
  - eexists. split; [apply lookup_insert_eq|done].
Qed.
End Approve.

(** C1: on a submitted application for 5.00 days whose balance row holds
    5.00 pending and none taken, the REST action [approve] stores the
    application as [approved] but leaves the balance row exactly as it was,
    whereas the form view on the same input moves the days to [taken_days]
    and recomputes the closing balance. *)
Theorem viewset_approve_skips_balance :
  let db := Sample.leave_db LeaveApplication.SUBMITTED
              {[ Sample.key := Sample.balance ]} in
  let api :=
    (LeaveApplicationViewSet.approve Sample.now Sample.request 1 db).2 in
  let form := (leave_application_approve Sample.now Sample.request 1 db).2 in
  (LeaveApplication.status <$> leave_applications api !! 1)
    = Some LeaveApplication.APPROVED
  ∧ leave_balances api !! Sample.key = Some Sample.balance
  ∧ (EmployeeLeaveBalance.taken_days <$> leave_balances api !! Sample.key)
    = Some 0
  ∧ (EmployeeLeaveBalance.pending_days <$> leave_balances api !! Sample.key)
    = Some 500
  ∧ leave_balances form !! Sample.key
    = Some (EmployeeLeaveBalance.mk 11 3 2024 0 2100 0 0 500 0 0 0 1600
              None None).
Proof. vm_compute. repeat split. Qed.

(** ** The closing balance after a recomputation *)

Lemma recomputed_expected b :
  recomputed b ->
  EmployeeLeaveBalance.closing_balance b
  = expected_closing_balance b
    + EmployeeLeaveBalance.encashed_days b
    + EmployeeLeaveBalance.forfeited_days b.
Proof. unfold recomputed, expected_closing_balance. lia. Qed.

Section Accrual.
Import EmployeeLeaveBalanceViewSet.
Variable now : DateTime.t.

Lemma accrue_pair_establishes e lt acc :
  recomputed_at (pair_key now e lt) (accrue_pair now e acc lt).1.
Proof.
  destruct acc as [balances n]. unfold accrue_pair. cbn [fst].
  eexists. split; [apply lookup_insert_eq|].
  unfold recomputed. reflexivity.
Qed.

Lemma accrue_pair_elsewhere e lt acc k :
  k ≠ pair_key now e lt ->
  (accrue_pair now e acc lt).1 !! k = acc.1 !! k.
Proof.
  destruct acc as [balances n]. intros Hk. unfold accrue_pair. cbn [fst].
  by rewrite lookup_insert_ne.
Qed.

Lemma accrue_pair_preserves e lt acc k :
  recomputed_at k acc.1 -> recomputed_at k (accrue_pair now e acc lt).1.
Proof.
  intros Hk. destruct (decide (k = pair_key now e lt)) as [->|Hne].
  - apply accrue_pair_establishes.
  - unfold recomputed_at. by rewrite accrue_pair_elsewhere.
Qed.

Lemma accrue_employee_preserves e lts acc k :
  recomputed_at k acc.1 ->
  recomputed_at k (accrue_employee now lts acc e).1.
Proof.
  unfold accrue_employee. revert acc.
  induction lts as [|lt lts IH]; intros acc Hk; [done|].
  cbn [fold_left]. apply IH. by apply accrue_pair_preserves.
Qed.

Lemma accrue_employee_establishes e lts acc lt :
  In lt lts ->
  recomputed_at (pair_key now e lt) (accrue_employee now lts acc e).1.
Proof.
  unfold accrue_employee. revert acc.
  induction lts as [|lt' lts IH]; intros acc Hin; [destruct Hin|].
  cbn [fold_left]. destruct Hin as [->|Hin].
  - apply (accrue_employee_preserves e lts). apply accrue_pair_establishes.
  - by apply IH.
Qed.

Lemma accrue_all_preserves lts es acc k :
  recomputed_at k acc.1 ->
  recomputed_at k (fold_left (accrue_employee now lts) es acc).1.
Proof.
  revert acc. induction es as [|e es IH]; intros acc Hk; [done|].
  cbn [fold_left]. apply IH. by apply accrue_employee_preserves.
Qed.

Lemma accrue_all_establishes lts es acc e lt :
  In e es -> In lt lts ->
  recomputed_at (pair_key now e lt)
    (fold_left (accrue_employee now lts) es acc).1.
Proof.
  revert acc. induction es as [|e' es IH]; intros acc He Hlt;
    [destruct He|].
  cbn [fold_left]. destruct He as [->|He].
  - apply accrue_all_preserves. by apply accrue_employee_establishes.
  - by apply IH.
Qed.

Lemma accrue_monthly_balances request db :
  leave_balances (accrue_monthly now request db).2
  = (fold_left
       (accrue_employee now (List.filter LeaveType.is_active (leave_types db)))
       (List.filter
          (fun e =>
             bool_decide (Employee.employment_status e = Employee.ACTIVE))
          (employees db))
       (leave_balances db, 0)).1.
Proof.
  unfold accrue_monthly. by destruct (fold_left _ _ _).
Qed.
End Accrual.

(** C3, as amended: after a recomputation, by the approval of a leave
    application through the form view or by the monthly accrual, the
    closing balance of the recomputed row is
    [opening_balance + accrued_days + carried_forward_days - taken_days];
    [encashed_days] and [forfeited_days] are not subtracted, so it exceeds
    the expected closing balance by exactly their sum. *)
Theorem closing_balance_recomputed :
  (forall now request pk db application balance,
     leave_applications db !! pk = Some application ->
     LeaveApplication.status application = LeaveApplication.SUBMITTED
     ∨ LeaveApplication.status application
       = LeaveApplication.PENDING_APPROVAL ->
     leave_balances db !! LeaveApplication.balance_key application
       = Some balance ->
     exists balance',
       leave_balances (leave_application_approve now request pk db).2
         !! LeaveApplication.balance_key application = Some balance'
       ∧ recomputed balance'
       ∧ EmployeeLeaveBalance.closing_balance balance'
         = expected_closing_balance balance'
           + EmployeeLeaveBalance.encashed_days balance'
           + EmployeeLeaveBalance.forfeited_days balance')
  ∧ (forall now request db employee leave_type,
       In employee (employees db) ->
       Employee.employment_status employee = Employee.ACTIVE ->
       In leave_type (leave_types db) ->
       LeaveType.is_active leave_type = true ->
       exists balance',
         leave_balances
           (EmployeeLeaveBalanceViewSet.accrue_monthly now request db).2
           !! pair_key now employee leave_type = Some balance'
         ∧ recomputed balance'
         ∧ EmployeeLeaveBalance.closing_balance balance'
           = expected_closing_balance balance'
             + EmployeeLeaveBalance.encashed_days balance'
             + EmployeeLeaveBalance.forfeited_days balance').
Proof.
  split.
  - intros now request pk db application balance Hst Haw Hbal.
    destruct (view_approve_moves_days now request pk db application
                Hst Haw balance Hbal) as [_ (b' & Hb' & _ & _ & Hrec)].
    exists b'. split; [exact Hb'|].
    split; [exact Hrec|]. by apply recomputed_expected.
  - intros now request db e lt He Hactive Hlt Hon.
    rewrite accrue_monthly_balances.
    destruct (accrue_all_establishes now
                (List.filter LeaveType.is_active (leave_types db))
                (List.filter
                   (fun e => bool_decide
                      (Employee.employment_status e = Employee.ACTIVE))
                   (employees db))
                (leave_balances db, 0) e lt) as (b' & Hb' & Hrec).
    + apply filter_In. split; [exact He|]. by apply bool_decide_eq_true.
    + apply filter_In. by split.
    + exists b'. split; [exact Hb'|].
      split; [exact Hrec|]. by apply recomputed_expected.
Qed.

(** C3, as stated, fails: a row with 2.00 days encashed and 1.00 forfeited
    comes out of the approval with a closing balance of 16.00 where 13.00 is
    expected, and out of the monthly accrual with 22.75 where 19.75 is
    expected. *)
Lemma closing_balance_ignores_encashment :
  (exists balance',
     leave_balances
       (leave_application_approve Sample.now Sample.request 1
          (Sample.leave_db LeaveApplication.SUBMITTED
             {[ Sample.key := Sample.encashed_balance ]})).2
       !! Sample.key = Some balance'
     ∧ EmployeeLeaveBalance.closing_balance balance' = 1600
     ∧ expected_closing_balance balance' = 1300
     ∧ EmployeeLeaveBalance.closing_balance balance'
       ≠ expected_closing_balance balance')
  ∧ (exists balance',
       leave_balances
         (EmployeeLeaveBalanceViewSet.accrue_monthly Sample.now Sample.request
            Sample.accrual_db).2
         !! Sample.key = Some balance'
       ∧ EmployeeLeaveBalance.closing_balance balance' = 2275
       ∧ expected_closing_balance balance' = 1975
       ∧ EmployeeLeaveBalance.closing_balance balance'
         ≠ expected_closing_balance balance').
Proof.
  split.
  - exists (EmployeeLeaveBalance.mk 11 3 2024 0 2100 0 0 500 0 200 100 1600
              None None).
    split; [vm_compute; reflexivity|]. by repeat split.
  - exists (EmployeeLeaveBalance.mk 11 3 2024 0 2275 0 0 0 500 200 100 2275
              (Some (Date.mk 2024 2 20)) None).
    split; [vm_compute; reflexivity|]. by repeat split.
Qed.

(** ** Properties of the payroll period actions *)

Section Period.
Import PayrollPeriod.
Variables (now : DateTime.t) (request : Request.t) (pk : Z) (db : Database).

Lemma process_keeps_calculations :
  payroll_calculations (PayrollPeriodViewSet.process now request pk db).2
  = payroll_calculations db
  ∧ payroll_calculation_details
      (PayrollPeriodViewSet.process now request pk db).2
    = payroll_calculation_details db.
Proof.
  unfold PayrollPeriodViewSet.process.
  destruct (payroll_periods db !! pk); [|done].
  destruct (decide _); done.
Qed.

Variable period : PayrollPeriod.t.
Hypothesis stored : payroll_periods db !! pk = Some period.

Lemma process_open :
  status period = OPEN ∨ status period = PROCESSING ->
  exists period',
    payroll_periods (PayrollPeriodViewSet.process now request pk db).2 !! pk
      = Some period'
    ∧ status period' = PROCESSING.
Proof.
  intros Hst. unfold PayrollPeriodViewSet.process. rewrite stored.
  destruct (decide _) as [Hout|_].
  - exfalso. apply Hout, list_elem_of_In.
    destruct Hst as [H|H]; rewrite H; simpl; tauto.
  - eexists. split; [apply lookup_insert_eq|done].
Qed.

Lemma approve_refused :
  status period ≠ CALCULATED ->
  PayrollPeriodViewSet.approve now request pk db
  = (HTTP_400_BAD_REQUEST
       (Error "Period must be calculated before approval"), db).
Proof.
  intros Hst. unfold PayrollPeriodViewSet.approve. rewrite stored.
  by destruct (decide _).
Qed.

(** C6: approving a stored payroll period succeeds exactly when its status
    is [calculated]; it is then stored as [approved] with the requesting
    user and the current date, and otherwise the answer is the 400 error
    and the database, hence every field of the period, is as before. *)
Theorem period_approve_iff_calculated :
  let outcome := PayrollPeriodViewSet.approve now request pk db in
  ((exists body, outcome.1 = HTTP_200_OK body) <-> status period = CALCULATED)
  ∧ (status period = CALCULATED ->
     exists approved,
       outcome.1 = HTTP_200_OK approved
       ∧ payroll_periods outcome.2 !! pk = Some approved
       ∧ status approved = APPROVED
       ∧ approved_by approved = Some (Request.user request)
       ∧ approved_date approved = Some (DateTime.date now))
  ∧ (status period ≠ CALCULATED ->
     outcome.1 = HTTP_400_BAD_REQUEST
                   (Error "Period must be calculated before approval")
     ∧ outcome.2 = db
     ∧ payroll_periods outcome.2 !! pk = Some period).
Proof.
  intros outcome. subst outcome.
  destruct (decide (status period = CALCULATED)) as [Hc|Hn].
  - unfold PayrollPeriodViewSet.approve. rewrite stored.
    destruct (decide _) as [Hne|_]; [done|]. cbn [fst snd].
    split; [split; [done|eauto]|].
    split; [|done]. intros _. eexists.
    split; [reflexivity|]. split; [apply lookup_insert_eq|done].
  - rewrite (approve_refused Hn). cbn [fst snd].
    split; [split; [intros [body Hb]; discriminate|done]|].
    split; [done|]. intros _. by repeat split.
Qed.
End Period.

(** One action leaves a period that has not got past processing in that
    condition, whichever period the action is aimed at. *)
Lemma run_period_action_invariant pk db a :
  not_yet_calculated pk db -> not_yet_calculated pk (run_period_action db a).
Proof.
  intros (period & Hp & Hst).
  destruct a as [now request pk'|now request pk']; cbn [run_period_action].
  - destruct (decide (pk' = pk)) as [->|Hne].
    + destruct (process_open now request pk db period Hp Hst)
        as (period' & Hp' & Hst').
      exists period'. split; [exact Hp'|by right].
    + exists period. split; [|exact Hst].
      unfold PayrollPeriodViewSet.process.
      destruct (payroll_periods db !! pk'); [|done].
      destruct (decide _); [done|].
      cbn [snd save_payroll_period payroll_periods].
      by rewrite lookup_insert_ne.
  - destruct (decide (pk' = pk)) as [->|Hne].
    + rewrite (approve_refused now request pk db period Hp).
      * exists period. by split.
      * destruct Hst as [H|H]; rewrite H; discriminate.
    + exists period. split; [|exact Hst].
      unfold PayrollPeriodViewSet.approve.
      destruct (payroll_periods db !! pk'); [|done].
      destruct (decide _); [done|].
      cbn [snd save_payroll_period payroll_periods].
      by rewrite lookup_insert_ne.
Qed.

Lemma run_period_actions_invariant pk actions db :
  not_yet_calculated pk db ->
  not_yet_calculated pk (run_period_actions actions db).
Proof.
  unfold run_period_actions. revert db.
  induction actions as [|a actions IH]; intros db Hdb; [done|].
  cbn [fold_left]. apply IH. by apply run_period_action_invariant.
Qed.

(** C5: however the exposed [process] and [approve] actions are invoked, a
    payroll period that is [open] stays stored and is [open] or [processing],
    never [calculated], [approved], [paid] or [closed]: [process] moves it to
    [processing] and neither creates a calculation nor a detail line, and
    [approve] answers every status other than [calculated] with an error
    that writes nothing. *)
Theorem open_period_never_calculated actions pk db period :
  payroll_periods db !! pk = Some period ->
  PayrollPeriod.status period = PayrollPeriod.OPEN ->
  (exists period',
     payroll_periods (run_period_actions actions db) !! pk = Some period'
     ∧ (PayrollPeriod.status period' = PayrollPeriod.OPEN
        ∨ PayrollPeriod.status period' = PayrollPeriod.PROCESSING)
     ∧ PayrollPeriod.status period'
       ∉ [PayrollPeriod.CALCULATED; PayrollPeriod.APPROVED;
          PayrollPeriod.PAID; PayrollPeriod.CLOSED])
  ∧ (forall now request,
       (exists period',
          payroll_periods (PayrollPeriodViewSet.process now request pk db).2
            !! pk = Some period'
          ∧ PayrollPeriod.status period' = PayrollPeriod.PROCESSING)
       ∧ payroll_calculations
           (PayrollPeriodViewSet.process now request pk db).2
         = payroll_calculations db
       ∧ payroll_calculation_details
           (PayrollPeriodViewSet.process now request pk db).2
         = payroll_calculation_details db)
  ∧ (forall now request pk' db' other,
       payroll_periods db' !! pk' = Some other ->
       PayrollPeriod.status other ≠ PayrollPeriod.CALCULATED ->
       PayrollPeriodViewSet.approve now request pk' db'
       = (HTTP_400_BAD_REQUEST
            (Error "Period must be calculated before approval"), db')).
Proof.
  intros Hp Hopen. split; [|split].
  - destruct (run_period_actions_invariant pk actions db)
      as (period' & Hp' & Hst').
    { exists period. split; [exact Hp|by left]. }
    exists period'. split; [exact Hp'|]. split; [exact Hst'|].
    rewrite list_elem_of_In. simpl.
    destruct Hst' as [H|H]; rewrite H; intuition discriminate.
  - intros now request. split.
    + apply (process_open now request pk db period Hp). by left.
    + apply process_keeps_calculations.
  - intros now request pk' db' other Hother Hst.
    by apply (approve_refused now request pk' db' other).
Qed.

(** ** Payroll calculations: uniqueness and aggregates *)

Lemma clashes_sym row other :
  PayrollCalculationAdmin.clashes row other ->
  PayrollCalculationAdmin.clashes other row.
Proof. unfold PayrollCalculationAdmin.clashes. intuition congruence. Qed.

(** No handler writes a calculation or a detail line. *)
Lemma handler_step_keeps_calculations db db' :
  handler_step db db' ->
  payroll_calculations db' = payroll_calculations db
  ∧ payroll_calculation_details db' = payroll_calculation_details db.
Proof.
  destruct 1.
  - unfold LeaveApplicationViewSet.submit. repeat case_match; done.
  - unfold LeaveApplicationViewSet.approve. repeat case_match; done.
  - unfold LeaveApplicationViewSet.reject. repeat case_match; done.
  - unfold EmployeeLeaveBalanceViewSet.accrue_monthly.
    by destruct (fold_left _ _ _).
  - apply process_keeps_calculations.
  - unfold PayrollPeriodViewSet.approve. repeat case_match; done.
  - unfold PayrollCalculationViewSet.breakdown. repeat case_match; done.
  - unfold leave_application_approve. repeat case_match; done.
  - unfold leave_application_reject. repeat case_match; done.
  - unfold payroll_period_detail. repeat case_match; done.
  - unfold payroll_calculation_detail. repeat case_match; done.
Qed.

(** Writing a validated row keeps the pairs unique. *)
Lemma insert_validated_unique pk row db :
  PayrollCalculationAdmin.validate_unique pk row (payroll_calculations db) ->
  unique_calculations db ->
  unique_calculations
    (set_payroll_calculations (<[pk := row]> (payroll_calculations db)) db).
Proof.
  intros Hvalid Huniq pk1 pk2 row1 row2.
  cbn [set_payroll_calculations payroll_calculations].
  destruct (decide (pk1 = pk)) as [->|H1], (decide (pk2 = pk)) as [->|H2];
    [done|..].
  - rewrite lookup_insert_eq, lookup_insert_ne by done.
    intros [= <-] Hrow2 Hclash. destruct (Hvalid pk2 row2 Hrow2 H2 Hclash).
  - rewrite lookup_insert_eq, lookup_insert_ne by done.
    intros Hrow1 [= <-] Hclash.
    destruct (Hvalid pk1 row1 Hrow1 H1 (clashes_sym _ _ Hclash)).
  - rewrite !lookup_insert_ne by done. apply Huniq.
Qed.

Lemma step_keeps_unique db db' :
  step db db' -> unique_calculations db -> unique_calculations db'.
Proof.
  intros Hstep Huniq. destruct Hstep as
    [db db' Hh|pk row inline db db' Hadd|pk row inline db db' Hchange
    |pk db|db db' Hsub].
  - apply handler_step_keeps_calculations in Hh as [Hcalc _].
    unfold unique_calculations. rewrite Hcalc. exact Huniq.
  - unfold PayrollCalculationAdmin.add_view in Hadd.
    destruct (decide _) as [(_ & _ & Hvalid & _)|_]; [|done].
    injection Hadd as <-. by apply insert_validated_unique.
  - unfold PayrollCalculationAdmin.change_view in Hchange.
    destruct (decide _) as [(_ & _ & Hvalid & _)|_]; [|done].
    injection Hchange as <-.
    by apply (insert_validated_unique pk row db) in Huniq.
  - intros pk1 pk2 row1 row2.
    cbn [PayrollCalculationAdmin.delete_view payroll_calculations].
    intros H1%lookup_delete_Some H2%lookup_delete_Some.
    apply Huniq; tauto.
  - intros pk1 pk2 row1 row2 H1 H2.
    apply Huniq; by eapply lookup_weaken.
Qed.

(** C7: starting from a database without calculations, whatever handlers
    run, whatever is added, changed or deleted through the calculation
    admin and whatever deletions cascade, no two stored calculations share
    their employee and their payroll period; an attempt to add or to save a
    second row for a pair that another row already has is refused. *)
Theorem calculations_stay_unique :
  (forall db db',
     payroll_calculations db = ∅ -> rtc step db db' ->
     unique_calculations db')
  ∧ (forall db db',
       unique_calculations db -> step db db' -> unique_calculations db')
  ∧ (forall pk row inline db pk' other,
       payroll_calculations db !! pk' = Some other ->
       pk' ≠ pk ->
       PayrollCalculationAdmin.clashes row other ->
       PayrollCalculationAdmin.add_view pk row inline db = None
       ∧ PayrollCalculationAdmin.change_view pk row inline db = None).
Proof.
  assert (forall db db', rtc step db db' ->
            unique_calculations db -> unique_calculations db') as Hrtc.
  { induction 1 as [|db db1 db2 Hstep _ IH]; [done|].
    intros Huniq. apply IH. by eapply step_keeps_unique. }
  split; [|split].
  - intros db db' Hempty Hrun. apply (Hrtc db db' Hrun).
    intros pk1 pk2 row1 row2. rewrite Hempty, lookup_empty. done.
  - intros db db' Huniq Hstep. by eapply step_keeps_unique.
  - intros pk row inline db pk' other Hother Hne Hclash.
    unfold PayrollCalculationAdmin.add_view,
      PayrollCalculationAdmin.change_view.
    split; (destruct (decide _) as [(_ & _ & Hvalid & _)|_]; [|done];
            destruct (Hvalid pk' other Hother Hne Hclash)).
Qed.

(** Sums over a table when one row is added, removed or replaced. *)
Lemma aggregate_sum_insert {A} (f : A -> Z) (m : gmap Z A) i x :
  m !! i = None ->
  aggregate_sum f (<[i := x]> m) = f x + aggregate_sum f m.
Proof.
  intros Hi. unfold aggregate_sum.
  rewrite map_fold_insert_L; [done| |done].
  intros. lia.
Qed.

Lemma aggregate_sum_filter_insert {A} (f : A -> Z) (P : Z * A -> Prop)
    `{!forall x, Decision (P x)} (m : gmap Z A) i x :
  m !! i = None ->
  aggregate_sum f (filter P (<[i := x]> m))
  = (if decide (P (i, x)) then f x else 0) + aggregate_sum f (filter P m).
Proof.
  intros Hi. rewrite map_filter_insert. destruct (decide (P (i, x))).
  - rewrite aggregate_sum_insert; [done|].
    rewrite map_lookup_filter, Hi. done.
  - by rewrite delete_id.
Qed.

Lemma aggregate_sum_filter_replace {A} (f : A -> Z) (P : Z * A -> Prop)
    `{!forall x, Decision (P x)} (m : gmap Z A) i old new :
  m !! i = Some old ->
  aggregate_sum f (filter P (<[i := new]> m))
  = aggregate_sum f (filter P m)
    - (if decide (P (i, old)) then f old else 0)
    + (if decide (P (i, new)) then f new else 0).
Proof.
  intros Hi.
  rewrite <-(insert_delete_id m i old Hi) at 2.
  rewrite <-(insert_delete_eq m i new).
  rewrite !aggregate_sum_filter_insert by apply lookup_delete_eq.
  lia.
Qed.

Lemma detail_total_same_details calculation item_type db db' :
  payroll_calculation_details db' = payroll_calculation_details db ->
  detail_total calculation item_type db'
  = detail_total calculation item_type db.
Proof. intros H. unfold detail_total, details_of. by rewrite H. Qed.

Lemma detail_total_delete_view pk pk' item_type db :
  pk' ≠ pk ->
  detail_total pk' item_type (PayrollCalculationAdmin.delete_view pk db)
  = detail_total pk' item_type db.
Proof.
  intros Hne. unfold detail_total, details_of.
  cbn [PayrollCalculationAdmin.delete_view payroll_calculation_details].
  rewrite map_filter_filter_l; [done|].
  intros i d _ [Hcalc _]. cbn [snd] in *. congruence.
Qed.

(** The inline of the change form: the lines stay, up to their flags, and
    so do the sums of their amounts. *)
Lemma same_lines_refl details : same_lines details details.
Proof.
  intros id. destruct (details !! id); constructor.
  by unfold same_but_flags.
Qed.

Lemma same_lines_trans d1 d2 d3 :
  same_lines d1 d2 -> same_lines d2 d3 -> same_lines d1 d3.
Proof.
  intros H12 H23 id. specialize (H12 id). specialize (H23 id).
  destruct H12 as [x y Hxy|]; inversion H23 as [y' z Hyz|]; subst;
    constructor.
  unfold same_but_flags in *. intuition congruence.
Qed.

Lemma save_line_same_lines details form :
  same_lines details (PayrollCalculationAdmin.save_line details form).
Proof.
  destruct form as [id t p|t p]; [|apply same_lines_refl].
  cbn [PayrollCalculationAdmin.save_line].
  destruct (details !! id) as [d|] eqn:Hd; [|apply same_lines_refl].
  intros id'. destruct (decide (id' = id)) as [->|Hne].
  - rewrite Hd, lookup_insert_eq. constructor. by unfold same_but_flags.
  - rewrite lookup_insert_ne by done. apply same_lines_refl.
Qed.

Lemma save_formset_same_lines inline details :
  same_lines details (PayrollCalculationAdmin.save_formset inline details).
Proof.
  unfold PayrollCalculationAdmin.save_formset.
  revert details. induction inline as [|form inline IH]; intros details.
  - apply same_lines_refl.
  - cbn [fold_left]. eapply same_lines_trans; [|apply IH].
    apply save_line_same_lines.
Qed.

Lemma save_line_total calculation item_type details form :
  aggregate_sum PayrollCalculationDetail.amount
    (filter
       (fun kv : Z * PayrollCalculationDetail.t =>
          PayrollCalculationDetail.payroll_calculation kv.2 = calculation
          ∧ PayrollCalculationDetail.item_type kv.2 = item_type)
       (PayrollCalculationAdmin.save_line details form))
  = aggregate_sum PayrollCalculationDetail.amount
      (filter
         (fun kv : Z * PayrollCalculationDetail.t =>
            PayrollCalculationDetail.payroll_calculation kv.2 = calculation
            ∧ PayrollCalculationDetail.item_type kv.2 = item_type)
         details).
Proof.
  destruct form as [id t p|t p]; [|done].
  cbn [PayrollCalculationAdmin.save_line].
  destruct (details !! id) as [d|] eqn:Hd; [|done].
  rewrite (aggregate_sum_filter_replace _ _ _ id d _ Hd).
  cbn [snd PayrollCalculationAdmin.set_flags
         PayrollCalculationDetail.payroll_calculation
         PayrollCalculationDetail.item_type PayrollCalculationDetail.amount].
  destruct (decide _); lia.
Qed.

Lemma save_formset_total calculation item_type inline details :
  aggregate_sum PayrollCalculationDetail.amount
    (filter
       (fun kv : Z * PayrollCalculationDetail.t =>
          PayrollCalculationDetail.payroll_calculation kv.2 = calculation
          ∧ PayrollCalculationDetail.item_type kv.2 = item_type)
       (PayrollCalculationAdmin.save_formset inline details))
  = aggregate_sum PayrollCalculationDetail.amount
      (filter
         (fun kv : Z * PayrollCalculationDetail.t =>
            PayrollCalculationDetail.payroll_calculation kv.2 = calculation
            ∧ PayrollCalculationDetail.item_type kv.2 = item_type)
         details).
Proof.
  unfold PayrollCalculationAdmin.save_formset.
  revert details. induction inline as [|form inline IH]; intros details.
  - done.
  - cbn [fold_left]. rewrite IH. apply save_line_total.
Qed.

(** What the admin forms refuse: a calculation for an employee and a period
    that are not stored, an added inline line with a flag set, and an inline
    line that belongs to no stored line of the calculation. *)
Lemma admin_forms_refuse :
  PayrollCalculationAdmin.add_view 1 Sample.calculation [] Sample.empty_db
  = None
  ∧ PayrollCalculationAdmin.add_view 1 Sample.calculation
      [PayrollCalculationAdmin.BlankLine true false] Sample.payroll_db
    = None
  ∧ PayrollCalculationAdmin.change_view 1 Sample.calculation
      [PayrollCalculationAdmin.StoredLine 41 true true] Sample.itemised_db
    = None.
Proof. repeat split; vm_compute; reflexivity. Qed.

(** C8, as amended: nothing in the code ties the sums of the detail lines
    of a calculation to its aggregate fields.  The admin's add and change
    forms store the row, [total_earnings] and [total_deductions] included,
    as entered.  The add form writes no detail line; the change form writes
    of the detail lines only the flags [is_taxable] and [is_pensionable],
    so under either form the lines stay and the sums of their amounts are
    what they were.  The handlers, none of which writes a calculation or a
    detail line, and the deletion of a calculation preserve the equality
    where it holds; [breakdown] reports the lines by item type next to the
    stored [gross_pay], [total_deductions] and [net_pay] without comparing
    them. *)
Theorem aggregates_stored_as_entered :
  (forall db db',
     handler_step db db' ->
     details_match_aggregates db -> details_match_aggregates db')
  ∧ (forall pk db,
       details_match_aggregates db ->
       details_match_aggregates (PayrollCalculationAdmin.delete_view pk db))
  ∧ (forall pk row inline db db',
       PayrollCalculationAdmin.add_view pk row inline db = Some db' ->
       payroll_calculations db' !! pk = Some row
       ∧ payroll_calculation_details db' = payroll_calculation_details db)
  ∧ (forall pk row inline db db',
       PayrollCalculationAdmin.change_view pk row inline db = Some db' ->
       payroll_calculations db' !! pk = Some row
       ∧ same_lines (payroll_calculation_details db)
           (payroll_calculation_details db')
       ∧ forall calculation item_type,
           detail_total calculation item_type db'
           = detail_total calculation item_type db)
  ∧ (forall request pk db body,
       (PayrollCalculationViewSet.breakdown request pk db).1
         = HTTP_200_OK body ->
       exists calculation,
         payroll_calculations db !! pk = Some calculation
         ∧ PayrollCalculationViewSet.earnings body
           = PayrollCalculationViewSet.line
             <$> details_of pk PayrollCalculationDetail.EARNING db
         ∧ PayrollCalculationViewSet.deductions body
           = PayrollCalculationViewSet.line
             <$> details_of pk PayrollCalculationDetail.DEDUCTION db
         ∧ PayrollCalculationViewSet.summary body
           = PayrollCalculationViewSet.mkSummary
               (PayrollCalculation.gross_pay calculation)
               (PayrollCalculation.total_deductions calculation)
               (PayrollCalculation.net_pay calculation)).
Proof.
  split; [|split; [|split; [|split]]].
  - intros db db' Hstep Hmatch pk calculation.
    apply handler_step_keeps_calculations in Hstep as [Hcalc Hdet].
    rewrite Hcalc, !(detail_total_same_details _ _ db db' Hdet).
    apply Hmatch.
  - intros pk db Hmatch pk' calculation.
    cbn [PayrollCalculationAdmin.delete_view payroll_calculations].
    intros [Hne Hpk']%lookup_delete_Some.
    rewrite !detail_total_delete_view by done. by apply Hmatch.
  - intros pk row inline db db' Hadd.
    unfold PayrollCalculationAdmin.add_view in Hadd.
    destruct (decide _); [|done]. injection Hadd as <-.
    split; [apply lookup_insert_eq|done].
  - intros pk row inline db db' Hchange.
    unfold PayrollCalculationAdmin.change_view in Hchange.
    destruct (decide _); [|done]. injection Hchange as <-.
    cbn [payroll_calculations payroll_calculation_details].
    split; [apply lookup_insert_eq|].
    split; [apply save_formset_same_lines|].
    intros calculation item_type. unfold detail_total, details_of.
    cbn [payroll_calculation_details]. apply save_formset_total.
  - intros request pk db body.
    unfold PayrollCalculationViewSet.breakdown.
    destruct (payroll_calculations db !! pk) as [calculation|]; [|done].
    repeat case_match; try done.
    cbn [fst]. intros [= <-]. by exists calculation.
Qed.

(** C8, as stated, fails: in a database with one employee and one payroll
    period and no calculation, where the equality holds, the admin adds a
    calculation for them with 1000.00 of earnings and no detail line, and
    the equality is gone. *)
Lemma admin_add_breaks_aggregates :
  details_match_aggregates Sample.payroll_db
  ∧ exists db',
      PayrollCalculationAdmin.add_view 1 Sample.calculation []
        Sample.payroll_db = Some db'
      ∧ payroll_calculations db' !! 1 = Some Sample.calculation
      ∧ detail_total 1 PayrollCalculationDetail.EARNING db' = 0
      ∧ PayrollCalculation.total_earnings Sample.calculation = 100000
      ∧ ¬ details_match_aggregates db'.
Proof.
  split.
  - intros pk calculation Hpk. unfold Sample.payroll_db in Hpk.
    cbn [payroll_calculations] in Hpk. by rewrite lookup_empty in Hpk.
  - exists (set_payroll_calculations
              (<[1 := Sample.calculation]>
                 (payroll_calculations Sample.payroll_db))
              Sample.payroll_db).
    split; [vm_compute; reflexivity|].
    assert (detail_total 1 PayrollCalculationDetail.EARNING
              (set_payroll_calculations
                 (<[1 := Sample.calculation]>
                    (payroll_calculations Sample.payroll_db))
                 Sample.payroll_db) = 0) as Htotal.
    { unfold detail_total, details_of, aggregate_sum.
      cbn [set_payroll_calculations payroll_calculation_details
             Sample.payroll_db].
      by rewrite map_filter_empty, map_fold_empty. }
    split; [apply lookup_insert_eq|].
    split; [exact Htotal|]. split; [reflexivity|].
    intros Hmatch.
    destruct (Hmatch 1 Sample.calculation (lookup_insert_eq _ _ _))
      as [Hearn _].
    rewrite Htotal in Hearn. discriminate Hearn.
Qed.

(** ** Lookups that find nothing *)





(** ** The theorems at work on the sample data *)

Lemma submit_checks_balance_witness :
  let db := Sample.leave_db LeaveApplication.DRAFT
              {[ Sample.key := Sample.short_balance ]} in
  let db_ok := Sample.leave_db LeaveApplication.DRAFT
                 {[ Sample.key := Sample.balance ]} in
  (leave_applications db !! 1
     = Some (Sample.application LeaveApplication.DRAFT)
   ∧ leave_balances db !! Sample.key = Some Sample.short_balance
   ∧ (LeaveApplicationViewSet.submit Sample.now Sample.request 1 db).1
     = HTTP_400_BAD_REQUEST (InsufficientLeaveBalance 300)
   ∧ (LeaveApplicationViewSet.submit Sample.now Sample.request 1 db).2 = db)
  ∧ (leave_balances db_ok !! Sample.key = Some Sample.balance
     ∧ exists balance',
         leave_balances
           (LeaveApplicationViewSet.submit Sample.now Sample.request 1 db_ok).2
           !! Sample.key = Some balance'
         ∧ EmployeeLeaveBalance.pending_days balance' = 500 + 500
         ∧ same_but_pending_days Sample.balance balance').
Proof.
  intros db db_ok. split.
  - destruct (submit_checks_balance Sample.now Sample.request 1 db
                (Sample.application LeaveApplication.DRAFT)
                eq_refl eq_refl Sample.short_balance eq_refl)
      as (Hiff & Hfail & _).
    split; [reflexivity|]. split; [reflexivity|].
    split; [apply Hiff|apply Hfail]; vm_compute; reflexivity.
  - destruct (submit_checks_balance Sample.now Sample.request 1 db_ok
                (Sample.application LeaveApplication.DRAFT)
                eq_refl eq_refl Sample.balance eq_refl)
      as (_ & _ & Hok).
    split; [reflexivity|].
    destruct Hok as (_ & Hbal & _).
    + vm_compute. discriminate.
    + exact Hbal.
Defined.

Lemma submit_without_balance_witness :
  let db := Sample.leave_db LeaveApplication.DRAFT ∅ in
  leave_applications db !! 1 = Some (Sample.application LeaveApplication.DRAFT)
  ∧ leave_balances db !! Sample.key = None
  ∧ (exists submitted,
       (LeaveApplicationViewSet.submit Sample.now Sample.request 1 db).1
       = HTTP_200_OK submitted)
  ∧ leave_balances
      (LeaveApplicationViewSet.submit Sample.now Sample.request 1 db).2
    = leave_balances db.
Proof.
  intros db.
  destruct (submit_without_balance Sample.now Sample.request 1 db
              (Sample.application LeaveApplication.DRAFT)
              eq_refl eq_refl eq_refl)
    as ((submitted & Hresp & _) & Hbal).
  split; [reflexivity|]. split; [reflexivity|].
  split; [exists submitted; exact Hresp|exact Hbal].
Defined.

Lemma reject_releases_pending_days_witness :
  let db := Sample.leave_db LeaveApplication.SUBMITTED
              {[ Sample.key := Sample.balance ]} in
  Request.data Sample.request_with_reason !! "reason"
    = Some "Understaffed that week"
  ∧ rejection_recorded 1 (Sample.application LeaveApplication.SUBMITTED)
      "Understaffed that week" db
      (LeaveApplicationViewSet.reject Sample.now Sample.request_with_reason
         1 db).2
  ∧ rejection_recorded 1 (Sample.application LeaveApplication.SUBMITTED)
      "Understaffed that week" db
      (leave_application_reject Sample.now Sample.request_with_reason 1 db).2.
Proof.
  intros db.
  destruct (reject_releases_pending_days Sample.now
              Sample.request_with_reason 1 db
              (Sample.application LeaveApplication.SUBMITTED)
              eq_refl (or_introl eq_refl) "Understaffed that week" eq_refl)
    as [Hapi Hform].
  split; [reflexivity|]. split; [exact Hapi|]. apply Hform. reflexivity.
Defined.

Lemma closing_balance_recomputed_witness :
  let db := Sample.leave_db LeaveApplication.SUBMITTED
              {[ Sample.key := Sample.encashed_balance ]} in
  (exists balance',
     leave_balances
       (leave_application_approve Sample.now Sample.request 1 db).2
       !! Sample.key = Some balance'
     ∧ recomputed balance')
  ∧ (In Sample.employee (employees Sample.accrual_db)
     ∧ In Sample.annual_leave (leave_types Sample.accrual_db)
     ∧ exists balance',
         leave_balances
           (EmployeeLeaveBalanceViewSet.accrue_monthly Sample.now
              Sample.request Sample.accrual_db).2
           !! Sample.key = Some balance'
         ∧ recomputed balance').
Proof.
  intros db. destruct closing_balance_recomputed as [Happrove Haccrue]. split.
  - destruct (Happrove Sample.now Sample.request 1 db
                (Sample.application LeaveApplication.SUBMITTED)
                Sample.encashed_balance eq_refl (or_introl eq_refl) eq_refl)
      as (balance' & Hlookup & Hrec & _).
    exists balance'. split; [exact Hlookup|exact Hrec].
  - assert (In Sample.employee (employees Sample.accrual_db)) as He
      by (left; reflexivity).
    assert (In Sample.annual_leave (leave_types Sample.accrual_db)) as Hlt
      by (left; reflexivity).
    split; [exact He|]. split; [exact Hlt|].
    destruct (Haccrue Sample.now Sample.request Sample.accrual_db
                Sample.employee Sample.annual_leave He eq_refl Hlt eq_refl)
      as (balance' & Hlookup & Hrec & _).
    exists balance'. split; [exact Hlookup|exact Hrec].
Defined.

Lemma open_period_never_calculated_witness :
  let actions :=
    [Approve Sample.now Sample.request 5;
     Process Sample.now Sample.request 5;
     Approve Sample.now Sample.request 5;
     Process Sample.now Sample.request 5] in
  payroll_periods (Sample.period_db PayrollPeriod.OPEN) !! 5
    = Some (Sample.period PayrollPeriod.OPEN)
  ∧ exists period',
      payroll_periods
        (run_period_actions actions (Sample.period_db PayrollPeriod.OPEN))
        !! 5 = Some period'
      ∧ PayrollPeriod.status period'
        ∉ [PayrollPeriod.CALCULATED; PayrollPeriod.APPROVED;
           PayrollPeriod.PAID; PayrollPeriod.CLOSED].
Proof.
  intros actions.
  destruct (open_period_never_calculated actions 5
              (Sample.period_db PayrollPeriod.OPEN)
              (Sample.period PayrollPeriod.OPEN) eq_refl eq_refl)
    as [(period' & Hlookup & _ & Hnot) _].
  split; [reflexivity|]. exists period'. split; [exact Hlookup|exact Hnot].
Defined.

Lemma period_approve_iff_calculated_witness :
  (payroll_periods (Sample.period_db PayrollPeriod.CALCULATED) !! 5
     = Some (Sample.period PayrollPeriod.CALCULATED)
   ∧ exists approved,
       payroll_periods
         (PayrollPeriodViewSet.approve Sample.now Sample.request 5
            (Sample.period_db PayrollPeriod.CALCULATED)).2 !! 5
       = Some approved
       ∧ PayrollPeriod.status approved = PayrollPeriod.APPROVED
       ∧ PayrollPeriod.approved_by approved = Some 7)
  ∧ (PayrollPeriodViewSet.approve Sample.now Sample.request 5
       (Sample.period_db PayrollPeriod.PROCESSING)).2
    = Sample.period_db PayrollPeriod.PROCESSING.
Proof.
  split.
  - destruct (period_approve_iff_calculated Sample.now Sample.request 5
                (Sample.period_db PayrollPeriod.CALCULATED)
                (Sample.period PayrollPeriod.CALCULATED) eq_refl)
      as (_ & Hok & _).
    split; [reflexivity|].
    destruct (Hok eq_refl) as (approved & _ & Hlookup & Hst & Hby & _).
    exists approved. split; [exact Hlookup|]. split; [exact Hst|exact Hby].
  - destruct (period_approve_iff_calculated Sample.now Sample.request 5
                (Sample.period_db PayrollPeriod.PROCESSING)
                (Sample.period PayrollPeriod.PROCESSING) eq_refl)
      as (_ & _ & Hrefused).
    destruct Hrefused as (_ & Hdb & _); [discriminate|exact Hdb].
Defined.

Lemma calculations_stay_unique_witness :
  payroll_calculations Sample.payroll_db = ∅
  ∧ exists db',
      PayrollCalculationAdmin.add_view 1 Sample.calculation []
        Sample.payroll_db = Some db'
      ∧ unique_calculations db'
      ∧ PayrollCalculationAdmin.add_view 2 Sample.calculation [] db' = None.
Proof.
  destruct calculations_stay_unique as (Hreach & _ & Hrefuse).
  split; [reflexivity|].
  exists (set_payroll_calculations
            (<[1 := Sample.calculation]>
               (payroll_calculations Sample.payroll_db))
            Sample.payroll_db).
  assert (PayrollCalculationAdmin.add_view 1 Sample.calculation []
            Sample.payroll_db
          = Some (set_payroll_calculations
                    (<[1 := Sample.calculation]>
                       (payroll_calculations Sample.payroll_db))
                    Sample.payroll_db)) as Hadd
    by (vm_compute; reflexivity).
  split; [exact Hadd|]. split.
  - apply (Hreach Sample.payroll_db _ eq_refl).
    apply rtc_once. exact (step_admin_add 1 Sample.calculation [] _ _ Hadd).
  - apply (Hrefuse 2 Sample.calculation [] _ 1 Sample.calculation).
    + reflexivity.
    + discriminate.
    + split; reflexivity.
Defined.

Lemma aggregates_stored_as_entered_witness :
  (exists db',
     PayrollCalculationAdmin.add_view 1 Sample.calculation []
       Sample.payroll_db = Some db'
     ∧ payroll_calculations db' !! 1 = Some Sample.calculation
     ∧ payroll_calculation_details db'
       = payroll_calculation_details Sample.payroll_db)
  ∧ (exists db',
       PayrollCalculationAdmin.change_view 1 Sample.calculation
         [PayrollCalculationAdmin.StoredLine 40 true true]
         Sample.itemised_db = Some db'
       ∧ payroll_calculation_details db' !! 40
         = Some (PayrollCalculationAdmin.set_flags true true
                   Sample.basic_pay_line)
       ∧ detail_total 1 PayrollCalculationDetail.EARNING db'
         = detail_total 1 PayrollCalculationDetail.EARNING
             Sample.itemised_db)
  ∧ details_match_aggregates
      (PayrollPeriodViewSet.process Sample.now Sample.request 5
         Sample.payroll_db).2.
Proof.
  destruct aggregates_stored_as_entered
    as (Hhandler & _ & Hadd & Hchange & _).
  split; [|split].
  - exists (set_payroll_calculations
              (<[1 := Sample.calculation]>
                 (payroll_calculations Sample.payroll_db))
              Sample.payroll_db).
    assert (PayrollCalculationAdmin.add_view 1 Sample.calculation []
              Sample.payroll_db
            = Some (set_payroll_calculations
                      (<[1 := Sample.calculation]>
                         (payroll_calculations Sample.payroll_db))
                      Sample.payroll_db)) as Hsample
      by (vm_compute; reflexivity).
    split; [exact Hsample|].
    exact (Hadd 1 Sample.calculation [] _ _ Hsample).
  - pose (db' :=
      mkDatabase (employees Sample.itemised_db)
        (departments Sample.itemised_db) (leave_types Sample.itemised_db)
        (leave_balances Sample.itemised_db)
        (leave_applications Sample.itemised_db)
        (payroll_periods Sample.itemised_db)
        (<[1 := Sample.calculation]>
           (payroll_calculations Sample.itemised_db))
        (PayrollCalculationAdmin.save_formset
           [PayrollCalculationAdmin.StoredLine 40 true true]
           (payroll_calculation_details Sample.itemised_db))).
    exists db'.
    assert (PayrollCalculationAdmin.change_view 1 Sample.calculation
              [PayrollCalculationAdmin.StoredLine 40 true true]
              Sample.itemised_db = Some db') as Hsample
      by (vm_compute; reflexivity).
    split; [exact Hsample|]. split; [vm_compute; reflexivity|].
    destruct (Hchange 1 Sample.calculation _ _ _ Hsample)
      as (_ & _ & Htotal).
    apply Htotal.
  - apply (Hhandler Sample.payroll_db); [apply step_period_process|].
    intros pk calculation Hpk. discriminate Hpk.
Defined.


(** ** Further properties: the leave workflow as a whole *)

Lemma set_pending_days_back w b :
  EmployeeLeaveBalance.set_pending_days
    (EmployeeLeaveBalance.pending_days
       (EmployeeLeaveBalance.set_pending_days
          (EmployeeLeaveBalance.pending_days b + w) b) - w)
    (EmployeeLeaveBalance.set_pending_days
       (EmployeeLeaveBalance.pending_days b + w) b)
  = b.
Proof.
  destruct b. unfold EmployeeLeaveBalance.set_pending_days. cbn.
  f_equal. lia.
Qed.

(** What an accepted submission has done. *)
Lemma submit_ok_inv now request pk db submitted :
  (LeaveApplicationViewSet.submit now request pk db).1
    = HTTP_200_OK submitted ->
  exists leave_app,
    leave_applications db !! pk = Some leave_app
    ∧ LeaveApplication.status leave_app = LeaveApplication.DRAFT
    ∧ submitted
      = LeaveApplication.set_submitted_date (Some now)
          (LeaveApplication.set_status LeaveApplication.SUBMITTED leave_app)
    ∧ leave_applications
        (LeaveApplicationViewSet.submit now request pk db).2
      = <[pk := submitted]> (leave_applications db)
    ∧ match leave_balances db !! LeaveApplication.balance_key leave_app with
      | Some balance =>
        LeaveApplication.working_days leave_app
          <= EmployeeLeaveBalance.closing_balance balance
             - EmployeeLeaveBalance.pending_days balance
        ∧ leave_balances
            (LeaveApplicationViewSet.submit now request pk db).2
          = <[LeaveApplication.balance_key leave_app :=
                EmployeeLeaveBalance.set_pending_days
                  (EmployeeLeaveBalance.pending_days balance
                   + LeaveApplication.working_days leave_app) balance]>
              (leave_balances db)
      | None =>
        leave_balances (LeaveApplicationViewSet.submit now request pk db).2
        = leave_balances db
      end.
Proof.
  unfold LeaveApplicationViewSet.submit.
  destruct (leave_applications db !! pk) as [leave_app|] eqn:Hstored;
    [|discriminate].
  destruct (decide _) as [Hne|Hdraft]; [discriminate|].
  apply dec_stable in Hdraft.
  destruct (leave_balances db !! LeaveApplication.balance_key leave_app)
    as [balance|] eqn:Hbal.
  - destruct (decide _) as [Hlt|Hge]; [discriminate|].
    cbn. intros [= <-]. exists leave_app.
    rewrite Hbal. repeat split; try done. lia.
  - cbn. intros [= <-]. exists leave_app. rewrite Hbal. by repeat split.
Qed.

(** X1: an application that has been submitted cannot be submitted again:
    the second submit is answered with the draft-only error and writes
    nothing, so its days are never added to the pending days twice. *)
Theorem submit_again_refused now now' request request' pk db submitted :
  (LeaveApplicationViewSet.submit now request pk db).1
    = HTTP_200_OK submitted ->
  let db1 := (LeaveApplicationViewSet.submit now request pk db).2 in
  LeaveApplicationViewSet.submit now' request' pk db1
  = (HTTP_400_BAD_REQUEST (Error "Can only submit draft applications"), db1).
Proof.
  intros Hok db1.
  destruct (submit_ok_inv _ _ _ _ _ Hok)
    as (leave_app & _ & _ & -> & Happs & _).
  subst db1. unfold LeaveApplicationViewSet.submit at 1.
  rewrite Happs, lookup_insert_eq.
  destruct (decide _) as [_|Hdraft]; [done|].
  by apply dec_stable in Hdraft.
Qed.

Lemma awaiting_days_replace key db db' pk old new :
  leave_applications db !! pk = Some old ->
  leave_applications db' = <[pk := new]> (leave_applications db) ->
  awaiting_days key db'
  = awaiting_days key db - contribution key old + contribution key new.
Proof.
  intros Hold Hnew. unfold awaiting_days. rewrite Hnew.
  by rewrite (aggregate_sum_filter_replace _ _ _ pk old new Hold).
Qed.

Lemma contribution_elsewhere key a :
  LeaveApplication.balance_key a ≠ key -> contribution key a = 0.
Proof. intros Hne. unfold contribution. destruct (decide _); tauto. Qed.

Lemma contribution_awaiting a :
  awaiting a ->
  contribution (LeaveApplication.balance_key a) a
  = LeaveApplication.working_days a.
Proof. intros Ha. unfold contribution. destruct (decide _); tauto. Qed.

Lemma contribution_settled key a :
  ¬ awaiting a -> contribution key a = 0.
Proof. intros Ha. unfold contribution. destruct (decide _); tauto. Qed.

(** The consistency of the pending days when one application is replaced
    and its balance row, if there is one, is adjusted by the difference of
    its contributions. *)
Lemma consistent_after_replace db db' pk old new :
  pending_days_consistent db ->
  leave_applications db !! pk = Some old ->
  leave_applications db' = <[pk := new]> (leave_applications db) ->
  LeaveApplication.balance_key new = LeaveApplication.balance_key old ->
  match leave_balances db !! LeaveApplication.balance_key old with
  | Some b =>
    exists b',
      leave_balances db'
      = <[LeaveApplication.balance_key old := b']> (leave_balances db)
      ∧ EmployeeLeaveBalance.pending_days b'
        = EmployeeLeaveBalance.pending_days b
          - contribution (LeaveApplication.balance_key old) old
          + contribution (LeaveApplication.balance_key old) new
  | None => leave_balances db' = leave_balances db
  end ->
  pending_days_consistent db'.
Proof.
  intros Hcons Hold Hnew Hkey Hbal key b' Hb'.
  rewrite (awaiting_days_replace key db db' pk old new Hold Hnew).
  destruct (decide (key = LeaveApplication.balance_key old)) as [->|Hne].
  - destruct (leave_balances db !! LeaveApplication.balance_key old)
      as [b|] eqn:Hb.
    + destruct Hbal as (b'' & Hbalances & Hpending).
      rewrite Hbalances, lookup_insert_eq in Hb'. injection Hb' as <-.
      rewrite Hpending, (Hcons _ _ Hb). lia.
    + rewrite Hbal, Hb in Hb'. discriminate.
  - rewrite !contribution_elsewhere by congruence.
    assert (leave_balances db !! key = Some b') as Hb.
    { destruct (leave_balances db !! LeaveApplication.balance_key old).
      - destruct Hbal as (b'' & Hbalances & _).
        by rewrite Hbalances, lookup_insert_ne in Hb'.
      - by rewrite Hbal in Hb'. }
    rewrite (Hcons _ _ Hb). lia.
Qed.

(** The tables after each decision on a stored application. *)
Lemma reject_awaiting_tables now request pk db leave_app :
  leave_applications db !! pk = Some leave_app ->
  awaiting leave_app ->
  let outcome := LeaveApplicationViewSet.reject now request pk db in
  exists rejected,
    outcome.1 = HTTP_200_OK rejected
    ∧ LeaveApplication.status rejected = LeaveApplication.REJECTED
    ∧ LeaveApplication.balance_key rejected
      = LeaveApplication.balance_key leave_app
    ∧ leave_applications outcome.2
      = <[pk := rejected]> (leave_applications db)
    ∧ match leave_balances db !! LeaveApplication.balance_key leave_app with
      | Some balance =>
        leave_balances outcome.2
        = <[LeaveApplication.balance_key leave_app :=
              EmployeeLeaveBalance.set_pending_days
                (EmployeeLeaveBalance.pending_days balance
                 - LeaveApplication.working_days leave_app) balance]>
            (leave_balances db)
      | None => leave_balances outcome.2 = leave_balances db
      end.
Proof.
  intros Hstored Hawait outcome. subst outcome.
  unfold LeaveApplicationViewSet.reject. rewrite Hstored.
  destruct (decide _) as [Hout|_]; [done|].
  rewrite leave_balances_save_application.
  change (LeaveApplication.balance_key
            (LeaveApplication.set_rejection_reason _ _))
    with (LeaveApplication.balance_key leave_app).
  eexists. split; [reflexivity|].
  destruct (leave_balances db !! LeaveApplication.balance_key leave_app);
    by repeat split.
Qed.


Lemma view_approve_awaiting_tables now request pk db application :
  leave_applications db !! pk = Some application ->
  awaiting application ->
  let outcome := leave_application_approve now request pk db in
  exists approved,
    LeaveApplication.status approved = LeaveApplication.APPROVED
    ∧ LeaveApplication.balance_key approved
      = LeaveApplication.balance_key application
    ∧ leave_applications outcome.2
      = <[pk := approved]> (leave_applications db)
    ∧ match leave_balances db !! LeaveApplication.balance_key application
      with
      | Some balance =>
        exists balance',
          leave_balances outcome.2
          = <[LeaveApplication.balance_key application := balance']>
              (leave_balances db)
          ∧ EmployeeLeaveBalance.pending_days balance'
            = EmployeeLeaveBalance.pending_days balance
              - LeaveApplication.working_days application
          ∧ EmployeeLeaveBalance.taken_days balance'
            = EmployeeLeaveBalance.taken_days balance
              + LeaveApplication.working_days application
          ∧ EmployeeLeaveBalance.closing_balance balance'
            = EmployeeLeaveBalance.opening_balance balance
              + EmployeeLeaveBalance.accrued_days balance
              + EmployeeLeaveBalance.carried_forward_days balance
              - (EmployeeLeaveBalance.taken_days balance
                 + LeaveApplication.working_days application)
      | None => leave_balances outcome.2 = leave_balances db
      end.
Proof.
  intros Hstored Hawait outcome. subst outcome.
  unfold leave_application_approve, get_object_or_404. rewrite Hstored.
  destruct (decide _) as [Hout|_]; [done|].
  rewrite leave_balances_save_application.
  change (LeaveApplication.balance_key
            (LeaveApplication.set_approved_date _ _))
    with (LeaveApplication.balance_key application).
  exists (LeaveApplication.set_approved_date (Some now)
            (LeaveApplication.set_status LeaveApplication.APPROVED
               application)).
  destruct (leave_balances db !! LeaveApplication.balance_key application).
  - repeat split; try done. eexists. split; [reflexivity|]. by repeat split.
  - by repeat split.
Qed.

(** X2: submitting a draft and then rejecting it through the REST action
    gives the days back: the application ends as [rejected] and the whole
    table of balances is what it was before the submission. *)
Theorem submit_then_reject_restores_balances
    now now' request request' pk db submitted :
  (LeaveApplicationViewSet.submit now request pk db).1
    = HTTP_200_OK submitted ->
  let db1 := (LeaveApplicationViewSet.submit now request pk db).2 in
  let outcome := LeaveApplicationViewSet.reject now' request' pk db1 in
  (exists rejected,
     outcome.1 = HTTP_200_OK rejected
     ∧ leave_applications outcome.2 !! pk = Some rejected
     ∧ LeaveApplication.status rejected = LeaveApplication.REJECTED)
  ∧ leave_balances outcome.2 = leave_balances db.
Proof.
  intros Hok db1 outcome.
  destruct (submit_ok_inv _ _ _ _ _ Hok)
    as (leave_app & _ & _ & Hsub & Happs & Hbal).
  assert (leave_applications db1 !! pk = Some submitted) as Hstored1.
  { subst db1. by rewrite Happs, lookup_insert_eq. }
  assert (awaiting submitted) as Hawait.
  { rewrite Hsub. unfold awaiting. cbn. by left. }
  destruct (reject_awaiting_tables now' request' pk db1 submitted
              Hstored1 Hawait)
    as (rejected & Hresp & Hst & _ & Happs' & Hbal').
  fold outcome in Hresp, Happs', Hbal'. split.
  - exists rejected. split; [done|]. split; [|done].
    by rewrite Happs', lookup_insert_eq.
  - assert (LeaveApplication.balance_key submitted
            = LeaveApplication.balance_key leave_app) as Hkey
      by (by rewrite Hsub).
    assert (LeaveApplication.working_days submitted
            = LeaveApplication.working_days leave_app) as Hwd
      by (by rewrite Hsub).
    rewrite Hkey, Hwd in Hbal'. fold db1 in Hbal.
    destruct (leave_balances db !! LeaveApplication.balance_key leave_app)
      as [balance|] eqn:Hb.
    + destruct Hbal as [_ Hbal]. rewrite Hbal, lookup_insert_eq in Hbal'.
      rewrite Hbal', insert_insert_eq, set_pending_days_back.
      by apply insert_id.
    + rewrite Hbal, Hb in Hbal'. by rewrite Hbal'.
Qed.

(** X3: submitting a draft and then approving it through the form view
    moves its days from nowhere to taken: the balance row ends with the
    pending days it had before the submission, its taken days grown by the
    working days and the closing balance recomputed from them; every other
    balance row is untouched. *)
Theorem submit_then_view_approve_takes_days
    now now' request request' pk db submitted balance :
  (LeaveApplicationViewSet.submit now request pk db).1
    = HTTP_200_OK submitted ->
  leave_balances db !! LeaveApplication.balance_key submitted
    = Some balance ->
  let db1 := (LeaveApplicationViewSet.submit now request pk db).2 in
  let db2 := (leave_application_approve now' request' pk db1).2 in
  (exists approved,
     leave_applications db2 !! pk = Some approved
     ∧ LeaveApplication.status approved = LeaveApplication.APPROVED)
  ∧ (exists balance',
       leave_balances db2 !! LeaveApplication.balance_key submitted
         = Some balance'
       ∧ EmployeeLeaveBalance.pending_days balance'
         = EmployeeLeaveBalance.pending_days balance
       ∧ EmployeeLeaveBalance.taken_days balance'
         = EmployeeLeaveBalance.taken_days balance
           + LeaveApplication.working_days submitted
       ∧ EmployeeLeaveBalance.closing_balance balance'
         = EmployeeLeaveBalance.opening_balance balance
           + EmployeeLeaveBalance.accrued_days balance
           + EmployeeLeaveBalance.carried_forward_days balance
           - (EmployeeLeaveBalance.taken_days balance
              + LeaveApplication.working_days submitted))
  ∧ (forall key, key ≠ LeaveApplication.balance_key submitted ->
       leave_balances db2 !! key = leave_balances db !! key).
Proof.
  intros Hok Hb db1 db2.
  destruct (submit_ok_inv _ _ _ _ _ Hok)
    as (leave_app & _ & _ & Hsub & Happs & Hbal).
  assert (LeaveApplication.balance_key submitted
          = LeaveApplication.balance_key leave_app) as Hkey
    by (by rewrite Hsub).
  assert (LeaveApplication.working_days submitted
          = LeaveApplication.working_days leave_app) as Hwd
    by (by rewrite Hsub).
  rewrite Hkey in Hb |- *. rewrite Hb in Hbal. destruct Hbal as [_ Hbal].
  fold db1 in Happs, Hbal.
  assert (leave_applications db1 !! pk = Some submitted) as Hstored1
    by (by rewrite Happs, lookup_insert_eq).
  assert (awaiting submitted) as Hawait.
  { rewrite Hsub. unfold awaiting. cbn. by left. }
  destruct (view_approve_awaiting_tables now' request' pk db1 submitted
              Hstored1 Hawait)
    as (approved & Hst & _ & Happs' & Hbal').
  fold db2 in Happs', Hbal'. rewrite Hkey, Hwd in Hbal'.
  rewrite Hbal, lookup_insert_eq in Hbal'.
  destruct Hbal' as (balance' & Hbalances & Hpending & Htaken & Hclosing).
  split; [|split].
  - exists approved. by rewrite Happs', lookup_insert_eq.
  - exists balance'. rewrite Hbalances, lookup_insert_eq.
    split; [done|]. cbn in Hpending, Htaken, Hclosing.
    rewrite Hwd. repeat split; lia.
  - intros key Hne. by rewrite Hbalances, !lookup_insert_ne.
Qed.

(** X4: an accepted submission never overdraws: the available balance the
    REST interface reports for the row ([closing_balance - pending_days])
    drops by exactly the working days and is not negative afterwards. *)
Theorem submit_keeps_available_balance
    now request pk db submitted balance :
  (LeaveApplicationViewSet.submit now request pk db).1
    = HTTP_200_OK submitted ->
  leave_balances db !! LeaveApplication.balance_key submitted
    = Some balance ->
  exists balance',
    leave_balances (LeaveApplicationViewSet.submit now request pk db).2
      !! LeaveApplication.balance_key submitted = Some balance'
    ∧ EmployeeLeaveBalanceSerializer.get_available_balance balance'
      = EmployeeLeaveBalanceSerializer.get_available_balance balance
        - LeaveApplication.working_days submitted
    ∧ 0 <= EmployeeLeaveBalanceSerializer.get_available_balance balance'.
Proof.
  intros Hok Hb.
  destruct (submit_ok_inv _ _ _ _ _ Hok)
    as (leave_app & _ & _ & Hsub & _ & Hbal).
  assert (LeaveApplication.balance_key submitted
          = LeaveApplication.balance_key leave_app) as Hkey
    by (by rewrite Hsub).
  assert (LeaveApplication.working_days submitted
          = LeaveApplication.working_days leave_app) as Hwd
    by (by rewrite Hsub).
  rewrite Hkey in Hb |- *. rewrite Hb in Hbal. destruct Hbal as [Hle Hbal].
  eexists. rewrite Hbal, lookup_insert_eq. split; [done|].
  unfold EmployeeLeaveBalanceSerializer.get_available_balance.
  destruct balance. cbn in *. lia.
Qed.

(** X5: a decision is final for the REST interface and for the approving
    form view: on an application that is [approved], [rejected],
    [cancelled], [on_leave] or [completed], submit, approve and reject
    answer their 400 error and none of them writes anything.  The form view
    writes nothing either; it ends in the error page, because the bare route
    name it redirects to does not reverse under the namespace of
    [urls.py], which the namespaced name would. *)
Theorem decided_application_is_final now request pk db leave_app :
  leave_applications db !! pk = Some leave_app ->
  LeaveApplication.status leave_app
    ∈ [LeaveApplication.APPROVED; LeaveApplication.REJECTED;
       LeaveApplication.CANCELLED; LeaveApplication.ON_LEAVE;
       LeaveApplication.COMPLETED] ->
  LeaveApplicationViewSet.submit now request pk db
  = (HTTP_400_BAD_REQUEST (Error "Can only submit draft applications"), db)
  ∧ LeaveApplicationViewSet.approve now request pk db
    = (HTTP_400_BAD_REQUEST (Error "Invalid status for approval"), db)
  ∧ LeaveApplicationViewSet.reject now request pk db
    = (HTTP_400_BAD_REQUEST (Error "Invalid status for rejection"), db)
  ∧ leave_application_approve now request pk db = (HttpServerError, db)
  ∧ reverse "leave_application_list" = None
  ∧ reverse "hr_payroll:leave_application_list" = Some "leave/".
Proof.
  intros Hstored Hst.
  unfold LeaveApplicationViewSet.submit, LeaveApplicationViewSet.approve,
    LeaveApplicationViewSet.reject, leave_application_approve,
    get_object_or_404.
  rewrite Hstored.
  assert (LeaveApplication.status leave_app ≠ LeaveApplication.DRAFT) as Hnd.
  { intros Heq. rewrite Heq in Hst. apply list_elem_of_In in Hst.
    cbn in Hst. intuition discriminate. }
  assert (LeaveApplication.status leave_app
          ∉ [LeaveApplication.SUBMITTED; LeaveApplication.PENDING_APPROVAL])
    as Hna.
  { intros Hin. apply list_elem_of_In in Hin, Hst. cbn in Hin, Hst.
    destruct Hin as [Heq|[Heq|[]]]; rewrite <-Heq in Hst;
      intuition discriminate. }
  repeat split; by destruct (decide _).
Qed.


(** X7: if every balance row holds as pending exactly the working days of
    the applications that wait for a decision on it, this is still so after
    a submit, after a reject through the REST action and after an approve
    through the form view, whatever their arguments and outcome. *)
Theorem pending_days_stay_consistent now request pk db :
  pending_days_consistent db ->
  pending_days_consistent
    (LeaveApplicationViewSet.submit now request pk db).2
  ∧ pending_days_consistent
      (LeaveApplicationViewSet.reject now request pk db).2
  ∧ pending_days_consistent (leave_application_approve now request pk db).2.
Proof.
  intros Hcons. split; [|split].
  - destruct (LeaveApplicationViewSet.submit now request pk db).1
      as [submitted| | |] eqn:Hresp.
    2-4: (revert Hresp; unfold LeaveApplicationViewSet.submit;
          repeat case_match; try done; intros; discriminate).
    destruct (submit_ok_inv _ _ _ _ _ Hresp)
      as (leave_app & Hstored & Hdraft & Hsub & Happs & Hbal).
    assert (¬ awaiting leave_app) as Hold.
    { unfold awaiting. rewrite Hdraft. intros Hin%list_elem_of_In.
      cbn in Hin. intuition discriminate. }
    assert (awaiting submitted) as Hnew.
    { rewrite Hsub. unfold awaiting. cbn. by left. }
    assert (LeaveApplication.balance_key submitted
            = LeaveApplication.balance_key leave_app) as Hkey
      by (by rewrite Hsub).
    apply (consistent_after_replace db _ pk leave_app submitted
             Hcons Hstored Happs Hkey).
    destruct (leave_balances db !! LeaveApplication.balance_key leave_app);
      [|done].
    destruct Hbal as [_ Hbal]. eexists. split; [exact Hbal|].
    rewrite (contribution_settled _ _ Hold), <-Hkey,
      (contribution_awaiting _ Hnew).
    rewrite Hsub. cbn. lia.
  - destruct (leave_applications db !! pk) as [leave_app|] eqn:Hstored.
    2: { unfold LeaveApplicationViewSet.reject. by rewrite Hstored. }
    destruct (decide (awaiting leave_app)) as [Hawait|Hsettled].
    2: { unfold LeaveApplicationViewSet.reject. rewrite Hstored.
         by destruct (decide _). }
    destruct (reject_awaiting_tables now request pk db leave_app
                Hstored Hawait)
      as (rejected & _ & Hst & Hkey & Happs & Hbal).
    assert (¬ awaiting rejected) as Hnew.
    { unfold awaiting. rewrite Hst. intros Hin%list_elem_of_In.
      cbn in Hin. intuition discriminate. }
    apply (consistent_after_replace db _ pk leave_app rejected
             Hcons Hstored Happs Hkey).
    destruct (leave_balances db !! LeaveApplication.balance_key leave_app);
      [|done].
    eexists. split; [exact Hbal|].
    rewrite (contribution_settled _ _ Hnew),
      (contribution_awaiting _ Hawait). cbn. lia.
  - destruct (leave_applications db !! pk) as [application|] eqn:Hstored.
    2: { unfold leave_application_approve, get_object_or_404.
         by rewrite Hstored. }
    destruct (decide (awaiting application)) as [Hawait|Hsettled].
    2: { unfold leave_application_approve, get_object_or_404.
         rewrite Hstored. by destruct (decide _). }
    destruct (view_approve_awaiting_tables now request pk db application
                Hstored Hawait)
      as (approved & Hst & Hkey & Happs & Hbal).
    assert (¬ awaiting approved) as Hnew.
    { unfold awaiting. rewrite Hst. intros Hin%list_elem_of_In.
      cbn in Hin. intuition discriminate. }
    apply (consistent_after_replace db _ pk application approved
             Hcons Hstored Happs Hkey).
    destruct (leave_balances db !! LeaveApplication.balance_key application);
      [|done].
    destruct Hbal as (balance' & Hbalances & Hpending & _).
    exists balance'. split; [exact Hbalances|].
    rewrite (contribution_settled _ _ Hnew),
      (contribution_awaiting _ Hawait). lia.
Qed.

(** X8: the list of pending approvals is exactly the set of applications
    the REST approve and reject actions accept: an application is listed if
    and only if approving it answers 200, and if and only if rejecting it
    answers 200. *)
Theorem pending_approvals_are_the_decidable now request request' pk db :
  exists listed,
    LeaveApplicationQueries.pending_approvals request' db
      = HTTP_200_OK listed
    ∧ (is_Some (listed !! pk) <->
       exists approved,
         (LeaveApplicationViewSet.approve now request pk db).1
         = HTTP_200_OK approved)
    ∧ (is_Some (listed !! pk) <->
       exists rejected,
         (LeaveApplicationViewSet.reject now request pk db).1
         = HTTP_200_OK rejected).
Proof.
  eexists. split; [reflexivity|].
  unfold LeaveApplicationViewSet.approve, LeaveApplicationViewSet.reject.
  destruct (leave_applications db !! pk) as [leave_app|] eqn:Hstored.
  - destruct (decide _) as [Hout|Hin]; cbn [fst].
    + split; (split; [|intros [? ?]; discriminate]);
        intros [a [Hl Ha]%map_lookup_filter_Some]; cbn in Ha;
        rewrite Hstored in Hl; by simplify_eq.
    + apply dec_stable in Hin.
      split; (split; [eauto|]); intros _; exists leave_app;
        by apply map_lookup_filter_Some.
  - cbn [fst].
    split; (split; [|intros [? ?]; discriminate]);
      intros [a [Ha _]%map_lookup_filter_Some]; congruence.
Qed.

(** ** Further properties: the monthly accrual *)

Section AccrualRun.
Import EmployeeLeaveBalanceViewSet.
Variable now : DateTime.t.

Lemma accrue_pair_count e acc lt :
  (accrue_pair now e acc lt).2 = acc.2 + 1.
Proof. by destruct acc. Qed.

Lemma accrue_employee_count e lts acc :
  (accrue_employee now lts acc e).2 = acc.2 + Z.of_nat (length lts).
Proof.
  unfold accrue_employee. revert acc.
  induction lts as [|lt lts IH]; intros acc; cbn [fold_left length].
  - lia.
  - rewrite IH, accrue_pair_count. lia.
Qed.

Lemma accrue_all_count lts es acc :
  (fold_left (accrue_employee now lts) es acc).2
  = acc.2 + Z.of_nat (length es) * Z.of_nat (length lts).
Proof.
  revert acc. induction es as [|e es IH]; intros acc; cbn [fold_left length].
  - lia.
  - rewrite IH, accrue_employee_count. lia.
Qed.

Lemma kept_refl m : kept m m.
Proof. intros key b Hb. exists b. split; [done|]. by repeat split. Qed.

Lemma kept_trans m1 m2 m3 : kept m1 m2 -> kept m2 m3 -> kept m1 m3.
Proof.
  intros H12 H23 key b Hb.
  destruct (H12 key b Hb) as (b2 & Hb2 & Hsame2).
  destruct (H23 key b2 Hb2) as (b3 & Hb3 & Hsame3).
  exists b3. split; [done|].
  unfold same_but_accrual in *. intuition congruence.
Qed.

Lemma accrue_pair_kept e acc lt : kept acc.1 (accrue_pair now e acc lt).1.
Proof.
  destruct acc as [m n]. intros key b Hb. unfold accrue_pair. cbn [fst].
  destruct (decide (key = (Employee.id e, LeaveType.id lt, DateTime.year now)))
    as [->|Hne].
  - rewrite lookup_insert_eq. cbn [fst] in Hb. rewrite Hb.
    eexists. split; [reflexivity|]. by repeat split.
  - rewrite lookup_insert_ne by done. exists b. split; [done|].
    by repeat split.
Qed.

Lemma accrue_employee_kept e lts acc :
  kept acc.1 (accrue_employee now lts acc e).1.
Proof.
  unfold accrue_employee. revert acc.
  induction lts as [|lt lts IH]; intros acc; cbn [fold_left].
  - apply kept_refl.
  - eapply kept_trans; [apply accrue_pair_kept|apply IH].
Qed.

Lemma accrue_all_kept lts es acc :
  kept acc.1 (fold_left (accrue_employee now lts) es acc).1.
Proof.
  revert acc. induction es as [|e es IH]; intros acc; cbn [fold_left].
  - apply kept_refl.
  - eapply kept_trans; [apply accrue_employee_kept|apply IH].
Qed.

Lemma accrue_employee_elsewhere e lts acc k :
  (forall lt, In lt lts -> k ≠ pair_key now e lt) ->
  (accrue_employee now lts acc e).1 !! k = acc.1 !! k.
Proof.
  unfold accrue_employee. revert acc.
  induction lts as [|lt lts IH]; intros acc Hk; cbn [fold_left]; [done|].
  rewrite IH by (intros; apply Hk; by right).
  apply accrue_pair_elsewhere, Hk. by left.
Qed.

Lemma accrue_all_elsewhere lts es acc k :
  (forall e lt, In e es -> In lt lts -> k ≠ pair_key now e lt) ->
  (fold_left (accrue_employee now lts) es acc).1 !! k = acc.1 !! k.
Proof.
  revert acc. induction es as [|e es IH]; intros acc Hk; cbn [fold_left];
    [done|].
  rewrite IH by (intros; apply Hk; [by right|done]).
  apply accrue_employee_elsewhere. intros lt Hlt. apply Hk; [by left|done].
Qed.

Lemma pair_key_inj e lt e' lt' :
  pair_key now e lt = pair_key now e' lt' <->
  Employee.id e = Employee.id e' ∧ LeaveType.id lt = LeaveType.id lt'.
Proof. unfold pair_key. split; [intros [= -> ->]|intros [-> ->]]; done. Qed.

Lemma accrue_pair_accrued e acc lt :
  accrued_at (pair_key now e lt) (accrue_pair now e acc lt).1
  = accrued_at (pair_key now e lt) acc.1 + LeaveType.accrual_rate lt.
Proof.
  destruct acc as [m n]. unfold accrued_at, accrue_pair, pair_key.
  cbn [fst]. rewrite lookup_insert_eq.
  by destruct (m !! (Employee.id e, LeaveType.id lt, DateTime.year now)).
Qed.

Lemma accrued_at_elsewhere k m m' :
  m' !! k = m !! k -> accrued_at k m' = accrued_at k m.
Proof. unfold accrued_at. by intros ->. Qed.

Lemma accrue_employee_accrued e lts acc lt :
  List.NoDup (List.map LeaveType.id lts) ->
  In lt lts ->
  accrued_at (pair_key now e lt) (accrue_employee now lts acc e).1
  = accrued_at (pair_key now e lt) acc.1 + LeaveType.accrual_rate lt.
Proof.
  unfold accrue_employee. revert acc.
  induction lts as [|lt' lts IH]; intros acc Hnodup Hin; [destruct Hin|].
  cbn [List.map] in Hnodup. apply NoDup_cons_iff in Hnodup as [Hfresh Hnodup].
  cbn [fold_left]. destruct Hin as [->|Hin].
  - rewrite (accrued_at_elsewhere _ (accrue_pair now e acc lt).1).
    + apply accrue_pair_accrued.
    + apply (accrue_employee_elsewhere e lts). intros lt2 Hlt2.
      rewrite pair_key_inj. intros [_ Hid]. apply Hfresh.
      rewrite Hid. by apply in_map.
  - rewrite IH by done. f_equal. apply accrued_at_elsewhere.
    apply accrue_pair_elsewhere. rewrite pair_key_inj. intros [_ Hid].
    apply Hfresh. rewrite <-Hid. by apply in_map.
Qed.

Lemma accrue_all_accrued lts es acc e lt :
  List.NoDup (List.map Employee.id es) ->
  List.NoDup (List.map LeaveType.id lts) ->
  In e es -> In lt lts ->
  accrued_at (pair_key now e lt)
    (fold_left (accrue_employee now lts) es acc).1
  = accrued_at (pair_key now e lt) acc.1 + LeaveType.accrual_rate lt.
Proof.
  revert acc. induction es as [|e' es IH]; intros acc Hes Hlts He Hlt;
    [destruct He|].
  cbn [List.map] in Hes. apply NoDup_cons_iff in Hes as [Hfresh Hes].
  cbn [fold_left]. destruct He as [->|He].
  - rewrite (accrued_at_elsewhere _ (accrue_employee now lts acc e).1).
    + by apply accrue_employee_accrued.
    + apply accrue_all_elsewhere. intros e2 lt2 He2 _.
      rewrite pair_key_inj. intros [Hid _]. apply Hfresh.
      rewrite Hid. by apply in_map.
  - rewrite IH by done. f_equal. apply accrued_at_elsewhere.
    apply accrue_employee_elsewhere. intros lt2 _.
    rewrite pair_key_inj. intros [Hid _]. apply Hfresh.
    rewrite <-Hid. by apply in_map.
Qed.
End AccrualRun.

Lemma accrue_monthly_response now request db :
  (EmployeeLeaveBalanceViewSet.accrue_monthly now request db).1
  = HTTP_200_OK
      (EmployeeLeaveBalanceViewSet.mkAccrued
         (fold_left
            (EmployeeLeaveBalanceViewSet.accrue_employee now
               (List.filter LeaveType.is_active (leave_types db)))
            (List.filter
               (fun e =>
                  bool_decide
                    (Employee.employment_status e = Employee.ACTIVE))
               (employees db))
            (leave_balances db, 0)).2
         (Z.of_nat
            (length
               (List.filter
                  (fun e =>
                     bool_decide
                       (Employee.employment_status e = Employee.ACTIVE))
                  (employees db))))
         (Z.of_nat
            (length (List.filter LeaveType.is_active (leave_types db))))).
Proof.
  unfold EmployeeLeaveBalanceViewSet.accrue_monthly.
  by destruct (fold_left _ _ _).
Qed.

Lemma accrue_monthly_other_tables now request db :
  employees (EmployeeLeaveBalanceViewSet.accrue_monthly now request db).2
  = employees db
  ∧ leave_types (EmployeeLeaveBalanceViewSet.accrue_monthly now request db).2
    = leave_types db
  ∧ leave_applications
      (EmployeeLeaveBalanceViewSet.accrue_monthly now request db).2
    = leave_applications db.
Proof.
  unfold EmployeeLeaveBalanceViewSet.accrue_monthly.
  by destruct (fold_left _ _ _).
Qed.

(** X9: the monthly accrual reports as accrued the number of active
    employees times the number of active leave types, next to these two
    numbers themselves. *)
Theorem accrue_monthly_counts now request db :
  let active_employees :=
    List.filter
      (fun e => bool_decide (Employee.employment_status e = Employee.ACTIVE))
      (employees db) in
  let active_leave_types :=
    List.filter LeaveType.is_active (leave_types db) in
  (EmployeeLeaveBalanceViewSet.accrue_monthly now request db).1
  = HTTP_200_OK
      (EmployeeLeaveBalanceViewSet.mkAccrued
         (Z.of_nat (length active_employees)
          * Z.of_nat (length active_leave_types))
         (Z.of_nat (length active_employees))
         (Z.of_nat (length active_leave_types))).
Proof.
  intros es lts. rewrite accrue_monthly_response.
  fold es lts. rewrite accrue_all_count. cbn [snd]. do 2 f_equal.
Qed.

(** X10: the monthly accrual never removes a balance row and never touches
    its opening, carried-forward, adjustment, taken, pending, encashed or
    forfeited days: every stored row is still stored afterwards and differs
    at most in [accrued_days], [closing_balance] and [last_accrual_date]. *)
Theorem accrue_monthly_keeps_rows now request db key balance :
  leave_balances db !! key = Some balance ->
  exists balance',
    leave_balances
      (EmployeeLeaveBalanceViewSet.accrue_monthly now request db).2 !! key
    = Some balance'
    ∧ same_but_accrual balance balance'.
Proof.
  intros Hb. rewrite accrue_monthly_balances.
  by apply (accrue_all_kept now _ _ (leave_balances db, 0)).
Qed.

(** X11: the monthly accrual leaves alone whatever is not the row of an
    active employee and an active leave type for the current year: the
    lookup of any other key (another year, an employee who is not active, a
    leave type that is not active) gives what it gave before. *)
Theorem accrue_monthly_skips_others now request db key :
  (forall employee leave_type,
     In employee (employees db) ->
     Employee.employment_status employee = Employee.ACTIVE ->
     In leave_type (leave_types db) ->
     LeaveType.is_active leave_type = true ->
     key ≠ pair_key now employee leave_type) ->
  leave_balances
    (EmployeeLeaveBalanceViewSet.accrue_monthly now request db).2 !! key
  = leave_balances db !! key.
Proof.
  intros Hkey. rewrite accrue_monthly_balances.
  rewrite accrue_all_elsewhere; [done|].
  intros e lt [He Hactive]%filter_In [Hlt Hon]%filter_In.
  apply Hkey; try done. by apply bool_decide_eq_true in Hactive.
Qed.

Lemma accrue_monthly_accrued now request db employee leave_type :
  List.NoDup
    (List.map Employee.id
       (List.filter
          (fun e =>
             bool_decide (Employee.employment_status e = Employee.ACTIVE))
          (employees db))) ->
  List.NoDup
    (List.map LeaveType.id
       (List.filter LeaveType.is_active (leave_types db))) ->
  In employee (employees db) ->
  Employee.employment_status employee = Employee.ACTIVE ->
  In leave_type (leave_types db) ->
  LeaveType.is_active leave_type = true ->
  accrued_at (pair_key now employee leave_type)
    (leave_balances
       (EmployeeLeaveBalanceViewSet.accrue_monthly now request db).2)
  = accrued_at (pair_key now employee leave_type) (leave_balances db)
    + LeaveType.accrual_rate leave_type.
Proof.
  intros Hes Hlts He Hactive Hlt Hon. rewrite accrue_monthly_balances.
  rewrite accrue_all_accrued; try done.
  - apply filter_In. split; [done|]. by apply bool_decide_eq_true.
  - by apply filter_In.
Qed.

(** X12: when no two active employees and no two active leave types share
    an id, one run of the monthly accrual adds the leave type's rate exactly
    once to the accrued days of each active pair, starting from zero where
    the row did not exist, and the closing balance stored is the one
    recomputed from the new accrued days. *)
Theorem accrue_monthly_adds_rate now request db employee leave_type :
  List.NoDup
    (List.map Employee.id
       (List.filter
          (fun e =>
             bool_decide (Employee.employment_status e = Employee.ACTIVE))
          (employees db))) ->
  List.NoDup
    (List.map LeaveType.id
       (List.filter LeaveType.is_active (leave_types db))) ->
  In employee (employees db) ->
  Employee.employment_status employee = Employee.ACTIVE ->
  In leave_type (leave_types db) ->
  LeaveType.is_active leave_type = true ->
  exists balance',
    leave_balances
      (EmployeeLeaveBalanceViewSet.accrue_monthly now request db).2
      !! pair_key now employee leave_type = Some balance'
    ∧ EmployeeLeaveBalance.accrued_days balance'
      = accrued_at (pair_key now employee leave_type) (leave_balances db)
        + LeaveType.accrual_rate leave_type
    ∧ recomputed balance'.
Proof.
  intros Hes Hlts He Hactive Hlt Hon.
  pose proof (accrue_monthly_accrued now request db employee leave_type
                Hes Hlts He Hactive Hlt Hon) as Hacc.
  destruct (accrue_all_establishes now
              (List.filter LeaveType.is_active (leave_types db))
              (List.filter
                 (fun e => bool_decide
                    (Employee.employment_status e = Employee.ACTIVE))
                 (employees db))
              (leave_balances db, 0) employee leave_type)
    as (balance' & Hb' & Hrec).
  { apply filter_In. split; [done|]. by apply bool_decide_eq_true. }
  { by apply filter_In. }
  rewrite <-(accrue_monthly_balances now request db) in Hb'.
  exists balance'. split; [done|]. split; [|done].
  unfold accrued_at at 1 in Hacc. by rewrite Hb' in Hacc.
Qed.

(** X13: the monthly accrual does not look at [last_accrual_date]: run a
    second time in the same year, be it within the same month, it adds the
    rate a second time, as long as the decimals it finds, before the first
    run and after it, are within the digits of their columns. *)
Theorem accrue_monthly_twice_adds_twice
    now now' request request' db employee leave_type :
  DateTime.year now' = DateTime.year now ->
  List.NoDup
    (List.map Employee.id
       (List.filter
          (fun e =>
             bool_decide (Employee.employment_status e = Employee.ACTIVE))
          (employees db))) ->
  List.NoDup
    (List.map LeaveType.id
       (List.filter LeaveType.is_active (leave_types db))) ->
  In employee (employees db) ->
  Employee.employment_status employee = Employee.ACTIVE ->
  In leave_type (leave_types db) ->
  LeaveType.is_active leave_type = true ->
  let db1 := (EmployeeLeaveBalanceViewSet.accrue_monthly now request db).2 in
  let db2 :=
    (EmployeeLeaveBalanceViewSet.accrue_monthly now' request' db1).2 in
  decimals_in_range db ->
  decimals_in_range db1 ->
  accrued_at (pair_key now employee leave_type) (leave_balances db2)
  = accrued_at (pair_key now employee leave_type) (leave_balances db)
    + 2 * LeaveType.accrual_rate leave_type.
Proof.
  intros Hyear Hes Hlts He Hactive Hlt Hon db1 db2 _ _.
  destruct (accrue_monthly_other_tables now request db) as (Hes1 & Hlts1 & _).
  fold db1 in Hes1, Hlts1.
  assert (pair_key now employee leave_type
          = pair_key now' employee leave_type) as Hkey
    by (unfold pair_key; by rewrite Hyear).
  rewrite Hkey at 1. subst db2.
  rewrite accrue_monthly_accrued; rewrite ?Hes1, ?Hlts1; try done.
  rewrite <-Hkey. subst db1.
  rewrite accrue_monthly_accrued by done. lia.
Qed.




(** ** Further properties: payroll periods *)

Lemma process_cases now request pk db period :
  payroll_periods db !! pk = Some period ->
  (PayrollPeriod.status period
     ∈ [PayrollPeriod.OPEN; PayrollPeriod.PROCESSING]
   ∧ PayrollPeriodViewSet.process now request pk db
     = (HTTP_200_OK
          (PayrollPeriodViewSet.mkStarted "Payroll processing started"
             (PayrollPeriod.period_name period)),
        save_payroll_period pk
          (PayrollPeriod.set_processing_started_at (Some now)
             (PayrollPeriod.set_status PayrollPeriod.PROCESSING period))
          db))
  ∨ ((PayrollPeriod.status period
        ∉ [PayrollPeriod.OPEN; PayrollPeriod.PROCESSING])
     ∧ PayrollPeriodViewSet.process now request pk db
       = (HTTP_400_BAD_REQUEST (Error "Period is not open for processing"),
          db)).
Proof.
  intros Hstored. unfold PayrollPeriodViewSet.process. rewrite Hstored.
  destruct (decide _) as [Hout|Hin]; [by right|left].
  by apply dec_stable in Hin.
Qed.

Lemma approve_cases now request pk db period :
  payroll_periods db !! pk = Some period ->
  (PayrollPeriod.status period = PayrollPeriod.CALCULATED
   ∧ PayrollPeriodViewSet.approve now request pk db
     = (HTTP_200_OK
          (PayrollPeriod.set_approved_date (Some (DateTime.date now))
             (PayrollPeriod.set_approved_by (Some (Request.user request))
                (PayrollPeriod.set_status PayrollPeriod.APPROVED period))),
        save_payroll_period pk
          (PayrollPeriod.set_approved_date (Some (DateTime.date now))
             (PayrollPeriod.set_approved_by (Some (Request.user request))
                (PayrollPeriod.set_status PayrollPeriod.APPROVED period)))
          db))
  ∨ (PayrollPeriod.status period ≠ PayrollPeriod.CALCULATED
     ∧ PayrollPeriodViewSet.approve now request pk db
       = (HTTP_400_BAD_REQUEST
            (Error "Period must be calculated before approval"), db)).
Proof.
  intros Hstored. unfold PayrollPeriodViewSet.approve. rewrite Hstored.
  destruct (decide _) as [Hout|Hin]; [by right|left].
  by apply dec_stable in Hin.
Qed.

Lemma run_period_action_elsewhere db a pk :
  (match a with Process _ _ pk' | Approve _ _ pk' => pk' end) ≠ pk ->
  payroll_periods (run_period_action db a) !! pk = payroll_periods db !! pk.
Proof.
  intros Hne. destruct a as [now request pk'|now request pk'];
    cbn [run_period_action].
  - unfold PayrollPeriodViewSet.process.
    destruct (payroll_periods db !! pk'); [|done].
    destruct (decide _); [done|].
    cbn [snd save_payroll_period payroll_periods].
    by rewrite lookup_insert_ne.
  - unfold PayrollPeriodViewSet.approve.
    destruct (payroll_periods db !! pk'); [|done].
    destruct (decide _); [done|].
    cbn [snd save_payroll_period payroll_periods].
    by rewrite lookup_insert_ne.
Qed.

Lemma run_period_action_missing db a pk :
  payroll_periods db !! pk = None ->
  payroll_periods (run_period_action db a) !! pk = None.
Proof.
  intros Hnone.
  destruct (decide ((match a with Process _ _ pk' | Approve _ _ pk' => pk' end)
                    = pk)) as [Heq|Hne].
  - destruct a as [now request pk'|now request pk'];
      cbn [run_period_action]; subst pk'.
    + unfold PayrollPeriodViewSet.process. by rewrite Hnone.
    + unfold PayrollPeriodViewSet.approve. by rewrite Hnone.
  - by rewrite run_period_action_elsewhere.
Qed.

(** X15: the two transition actions know three moves only.  Whatever the
    action and its target, a period stored afterwards was stored before, and
    its status is what it was, or went from [open] or [processing] to
    [processing], or went from [calculated] to [approved]; no action
    produces [calculated], [paid] or [closed], and none adds a period. *)
Theorem period_actions_transitions db a pk period' :
  payroll_periods (run_period_action db a) !! pk = Some period' ->
  exists period,
    payroll_periods db !! pk = Some period
    ∧ (period' = period
       ∨ (PayrollPeriod.status period
            ∈ [PayrollPeriod.OPEN; PayrollPeriod.PROCESSING]
          ∧ PayrollPeriod.status period' = PayrollPeriod.PROCESSING)
       ∨ (PayrollPeriod.status period = PayrollPeriod.CALCULATED
          ∧ PayrollPeriod.status period' = PayrollPeriod.APPROVED)).
Proof.
  intros Hafter.
  destruct (payroll_periods db !! pk) as [period|] eqn:Hstored.
  2: { by rewrite run_period_action_missing in Hafter. }
  exists period. split; [done|].
  destruct (decide ((match a with Process _ _ pk' | Approve _ _ pk' => pk' end)
                    = pk)) as [Heq|Hne].
  2: { rewrite run_period_action_elsewhere in Hafter by done.
       left. congruence. }
  destruct a as [now request pk'|now request pk']; cbn [run_period_action] in *;
    subst pk'.
  - destruct (process_cases now request pk db period Hstored)
      as [[Hin Heq]|[_ Heq]]; rewrite Heq in Hafter; cbn in Hafter.
    + rewrite lookup_insert_eq in Hafter. injection Hafter as <-.
      right. left. by split.
    + left. congruence.
  - destruct (approve_cases now request pk db period Hstored)
      as [[Hin Heq]|[_ Heq]]; rewrite Heq in Hafter; cbn in Hafter.
    + rewrite lookup_insert_eq in Hafter. injection Hafter as <-.
      right. right. by split.
    + left. congruence.
Qed.

(** X16: a period that is [approved], [paid] or [closed] is out of reach of
    the two actions: after any run of [process] and [approve] invocations
    its row is exactly what it was. *)
Theorem approved_period_is_final actions pk db period :
  payroll_periods db !! pk = Some period ->
  PayrollPeriod.status period
    ∈ [PayrollPeriod.APPROVED; PayrollPeriod.PAID; PayrollPeriod.CLOSED] ->
  payroll_periods (run_period_actions actions db) !! pk = Some period.
Proof.
  intros Hstored Hst. unfold run_period_actions. revert db Hstored.
  induction actions as [|a actions IH]; intros db Hstored; [done|].
  cbn [fold_left]. apply IH.
  destruct (decide ((match a with Process _ _ pk' | Approve _ _ pk' => pk' end)
                    = pk)) as [Heq|Hne].
  2: { by rewrite run_period_action_elsewhere. }
  apply list_elem_of_In in Hst. cbn in Hst.
  destruct a as [now request pk'|now request pk']; cbn [run_period_action] in *;
    subst pk'.
  - destruct (process_cases now request pk db period Hstored)
      as [[Hin%list_elem_of_In _]|[_ ->]]; [|done].
    cbn in Hin. exfalso.
    destruct Hin as [Heq|[Heq|[]]]; rewrite <-Heq in Hst;
      intuition discriminate.
  - destruct (approve_cases now request pk db period Hstored)
      as [[Heq _]|[_ ->]]; [|done].
    exfalso. rewrite Heq in Hst. intuition discriminate.
Qed.

(** X17: neither action consults the [locked] flag or touches the figures of
    the period.  Locked or not, a period that is [open] or [processing] is
    processed and a period that is [calculated] is approved, and in both
    cases the name, the dates, the totals, the employee count, the
    completion time, the notes and the flag itself are unchanged. *)
Theorem period_actions_ignore_lock now request pk db period :
  payroll_periods db !! pk = Some period ->
  (PayrollPeriod.status period
     ∈ [PayrollPeriod.OPEN; PayrollPeriod.PROCESSING] ->
   exists started period',
     PayrollPeriodViewSet.process now request pk db
     = (HTTP_200_OK started, save_payroll_period pk period' db)
     ∧ PayrollPeriod.status period' = PayrollPeriod.PROCESSING
     ∧ PayrollPeriod.processing_started_at period' = Some now
     ∧ PayrollPeriod.locked period' = PayrollPeriod.locked period
     ∧ same_period_figures period period')
  ∧ (PayrollPeriod.status period = PayrollPeriod.CALCULATED ->
     exists period',
       PayrollPeriodViewSet.approve now request pk db
       = (HTTP_200_OK period', save_payroll_period pk period' db)
       ∧ PayrollPeriod.status period' = PayrollPeriod.APPROVED
       ∧ PayrollPeriod.locked period' = PayrollPeriod.locked period
       ∧ same_period_figures period period').
Proof.
  intros Hstored. split; intros Hst.
  - destruct (process_cases now request pk db period Hstored)
      as [[_ Heq]|[Hout _]]; [|done].
    eexists _, _. split; [exact Heq|]. by repeat split.
  - destruct (approve_cases now request pk db period Hstored)
      as [[_ Heq]|[Hout _]]; [|done].
    eexists. split; [exact Heq|]. by repeat split.
Qed.

(** ** Further properties: the summary of a payroll period *)

(** [Sum(...) or 0] is the plain sum, zero over no rows. *)
Lemma or_0_aggregate_Sum {A} (field : A -> Z) (rows : gmap Z A) :
  PayrollPeriodQueries.or_0 (PayrollPeriodQueries.aggregate_Sum field rows)
  = aggregate_sum field rows.
Proof.
  unfold PayrollPeriodQueries.or_0, PayrollPeriodQueries.aggregate_Sum,
    aggregate_sum.
  case_bool_decide as Hsize; [|done].
  apply map_size_empty_inv in Hsize as ->. by rewrite map_fold_empty.
Qed.

Lemma aggregate_Sum_insert {A} (field : A -> Z) (rows : gmap Z A) i x :
  rows !! i = None ->
  PayrollPeriodQueries.aggregate_Sum field (<[i := x]> rows)
  = Some (field x + aggregate_sum field rows).
Proof.
  intros Hi. unfold PayrollPeriodQueries.aggregate_Sum.
  rewrite map_size_insert_None by done.
  case_bool_decide; [done|]. f_equal. by apply aggregate_sum_insert.
Qed.

(** X18: the REST summary and the detail page of a payroll period report
    the same employee count and the same totals of gross pay, deductions,
    net pay and tax, although one computes them as [Sum(...) or 0] under
    named aggregates and the other through the default aggregate names. *)
Theorem summary_agrees_with_detail_page request request' pk db period :
  payroll_periods db !! pk = Some period ->
  exists body title calculations figures,
    PayrollPeriodQueries.summary request pk db = HTTP_200_OK body
    ∧ payroll_period_detail request' pk db
      = (HttpRender "hr_payroll/payroll_period_detail.html"
           (PayrollPeriodContext title period calculations figures), db)
    ∧ PayrollPeriodQueries.employee_count body = employee_count figures
    ∧ PayrollPeriodQueries.total_gross_pay body = total_gross figures
    ∧ PayrollPeriodQueries.total_deductions body = total_deductions figures
    ∧ PayrollPeriodQueries.total_net_pay body = total_net figures
    ∧ PayrollPeriodQueries.total_tax body = total_tax figures.
Proof.
  intros Hstored.
  unfold PayrollPeriodQueries.summary, payroll_period_detail,
    get_object_or_404.
  rewrite Hstored. eexists _, _, _, _.
  split; [reflexivity|]. split; [reflexivity|].
  cbn. by rewrite !or_0_aggregate_Sum.
Qed.

(** X19: for a period no calculation refers to, the summary reports no
    employee and zero for gross pay, deductions, net pay and tax, while the
    two pension sums, which have no [or 0], come out as null. *)
Theorem summary_of_empty_period request pk db period :
  payroll_periods db !! pk = Some period ->
  (forall k calculation,
     payroll_calculations db !! k = Some calculation ->
     PayrollCalculation.payroll_period calculation ≠ pk) ->
  PayrollPeriodQueries.summary request pk db
  = HTTP_200_OK
      (PayrollPeriodQueries.mkSummary
         (PayrollPeriod.period_name period)
         (PayrollPeriodQueries.get_status_display
            (PayrollPeriod.status period))
         0 0 0 0 0 (None, None)).
Proof.
  intros Hstored Hnone. unfold PayrollPeriodQueries.summary.
  rewrite Hstored.
  assert (filter
            (fun kv : Z * PayrollCalculation.t =>
               PayrollCalculation.payroll_period kv.2 = pk)
            (payroll_calculations db) = ∅) as ->.
  { apply map_empty. intros k. apply map_lookup_filter_None. right.
    intros calculation Hk. cbn. by apply (Hnone k). }
  done.
Qed.

(** X20: once the admin has added a calculation for a period, the summary
    of that period counts one employee more and each total has grown by the
    corresponding amount of the new row; the pension sums are then numbers,
    the earlier sum (zero if there was none) plus the row's. *)
Theorem summary_after_admin_add request pk db period pk' row inline db' :
  payroll_periods db !! pk = Some period ->
  PayrollCalculation.payroll_period row = pk ->
  PayrollCalculationAdmin.add_view pk' row inline db = Some db' ->
  exists body body',
    PayrollPeriodQueries.summary request pk db = HTTP_200_OK body
    ∧ PayrollPeriodQueries.summary request pk db' = HTTP_200_OK body'
    ∧ PayrollPeriodQueries.employee_count body'
      = PayrollPeriodQueries.employee_count body + 1
    ∧ PayrollPeriodQueries.total_gross_pay body'
      = PayrollPeriodQueries.total_gross_pay body
        + PayrollCalculation.gross_pay row
    ∧ PayrollPeriodQueries.total_deductions body'
      = PayrollPeriodQueries.total_deductions body
        + PayrollCalculation.total_deductions row
    ∧ PayrollPeriodQueries.total_net_pay body'
      = PayrollPeriodQueries.total_net_pay body
        + PayrollCalculation.net_pay row
    ∧ PayrollPeriodQueries.total_tax body'
      = PayrollPeriodQueries.total_tax body
        + PayrollCalculation.tax_amount row
    ∧ PayrollPeriodQueries.total_pension body'
      = (Some (PayrollPeriodQueries.or_0
                 (PayrollPeriodQueries.total_pension body).1
               + PayrollCalculation.pension_employee row),
         Some (PayrollPeriodQueries.or_0
                 (PayrollPeriodQueries.total_pension body).2
               + PayrollCalculation.pension_employer row)).
Proof.
  intros Hstored Hperiod Hadd.
  unfold PayrollCalculationAdmin.add_view in Hadd.
  destruct (decide _) as [[Hfresh _]|_]; [|done]. injection Hadd as <-.
  unfold PayrollPeriodQueries.summary.
  cbn [set_payroll_calculations payroll_periods payroll_calculations].
  rewrite Hstored. eexists _, _.
  split; [reflexivity|]. split; [reflexivity|].
  rewrite map_filter_insert_True by done.
  set (rows := filter _ (payroll_calculations db)).
  assert (rows !! pk' = None) as Hrows.
  { subst rows. by rewrite map_lookup_filter, Hfresh. }
  cbn [PayrollPeriodQueries.employee_count
         PayrollPeriodQueries.total_gross_pay
         PayrollPeriodQueries.total_deductions
         PayrollPeriodQueries.total_net_pay PayrollPeriodQueries.total_tax
         PayrollPeriodQueries.total_pension fst snd].
  rewrite !aggregate_Sum_insert, !or_0_aggregate_Sum by done.
  rewrite map_size_insert_None, Nat2Z.inj_succ by done.
  unfold PayrollPeriodQueries.or_0. cbn [default]. unfold id.
  repeat split; try lia. f_equal; f_equal; lia.
Qed.

(** ** Further properties: overtime requests and payslips *)

Lemma overtime_rule_one_settled table r pk row :
  table !! pk = Some row ->
  OvertimeRequest.approval_status row ≠ OvertimeRequest.PENDING ->
  OvertimeRequestViewSet.rule_one table r !! pk = Some row.
Proof.
  intros Hstored Hsettled.
  destruct r as [request pk'|request pk'];
    cbn [OvertimeRequestViewSet.rule_one];
    unfold OvertimeRequestViewSet.approve, OvertimeRequestViewSet.reject;
    (destruct (table !! pk') as [other|] eqn:Hother; [|done]);
    (destruct (decide _) as [_|Hpending]; [done|]);
    apply dec_stable in Hpending; cbn [snd];
    (rewrite lookup_insert_ne; [done|]); intros ->; congruence.
Qed.

(** A settled request is out of reach of every later ruling. *)
Lemma overtime_ruling_is_final rulings table pk row :
  table !! pk = Some row ->
  OvertimeRequest.approval_status row ≠ OvertimeRequest.PENDING ->
  OvertimeRequestViewSet.rule_all rulings table !! pk = Some row.
Proof.
  intros Hstored Hsettled. unfold OvertimeRequestViewSet.rule_all.
  revert table Hstored.
  induction rulings as [|r rulings IH]; intros table Hstored; [done|].
  cbn [fold_left]. apply IH. by apply overtime_rule_one_settled.
Qed.

(** X21: the first ruling on a pending overtime request stands.  Approve
    answers with the request stored as [approved], reject with the request
    stored as [rejected] under the notes sent (empty when none are sent);
    both record the ruling user in [approved_by]; and whatever approve and
    reject actions follow, on this or on any other request, the row stays
    the one that first ruling stored. *)
Theorem overtime_first_ruling_stands request pk table row rulings :
  table !! pk = Some row ->
  OvertimeRequest.approval_status row = OvertimeRequest.PENDING ->
  (exists settled,
     (OvertimeRequestViewSet.approve request pk table).1
       = HTTP_200_OK settled
     ∧ OvertimeRequestViewSet.rule_all rulings
         (OvertimeRequestViewSet.approve request pk table).2 !! pk
       = Some settled
     ∧ OvertimeRequest.approval_status settled = OvertimeRequest.APPROVED
     ∧ OvertimeRequest.approved_by settled = Some (Request.user request)
     ∧ OvertimeRequest.approval_notes settled
       = OvertimeRequest.approval_notes row)
  ∧ (exists settled,
       (OvertimeRequestViewSet.reject request pk table).1
         = HTTP_200_OK settled
       ∧ OvertimeRequestViewSet.rule_all rulings
           (OvertimeRequestViewSet.reject request pk table).2 !! pk
         = Some settled
       ∧ OvertimeRequest.approval_status settled = OvertimeRequest.REJECTED
       ∧ OvertimeRequest.approved_by settled = Some (Request.user request)
       ∧ OvertimeRequest.approval_notes settled
         = default EmptyString (Request.data request !! "notes")).
Proof.
  intros Hstored Hpending.
  unfold OvertimeRequestViewSet.approve, OvertimeRequestViewSet.reject.
  rewrite Hstored. destruct (decide _) as [Hne|_]; [done|]. cbn [fst snd].
  split; eexists; (split; [reflexivity|]);
    (split; [apply overtime_ruling_is_final;
             [apply lookup_insert_eq|discriminate]|done]).
Qed.

Lemma deliver_one_downloaded emails payslips d pk payslip :
  payslips !! pk = Some payslip ->
  Payslip.downloaded payslip = true ->
  exists payslip',
    PayslipViewSet.deliver_one emails payslips d !! pk = Some payslip'
    ∧ Payslip.downloaded payslip' = true
    ∧ Payslip.download_date payslip' = Payslip.download_date payslip.
Proof.
  intros Hstored Hdown.
  destruct d as [now request pk'|now request pk'];
    cbn [PayslipViewSet.deliver_one];
    unfold PayslipViewSet.download, PayslipViewSet.email;
    destruct (decide (pk' = pk)) as [->|Hne].
  - rewrite Hstored, Hdown. cbn. eauto.
  - destruct (payslips !! pk') as [other|]; [|eauto].
    destruct (negb (Payslip.downloaded other)); cbn; [|eauto].
    rewrite lookup_insert_ne by done. eauto.
  - rewrite Hstored.
    destruct (emails !! _); cbn; rewrite lookup_insert_eq; eauto.
  - destruct (payslips !! pk') as [other|]; [|eauto].
    destruct (emails !! _); cbn; rewrite lookup_insert_ne by done; eauto.
Qed.

(** X22: the download date of a payslip is the time of its first download:
    downloading a payslip that was never downloaded stamps it, and no later
    run of downloads and e-mails, of this or of any other payslip, changes
    the stamp or clears the flag. *)
Theorem first_download_date_is_kept
    now request emails deliveries payslips pk payslip :
  payslips !! pk = Some payslip ->
  Payslip.downloaded payslip = false ->
  exists payslip',
    PayslipViewSet.deliver_all emails deliveries
      (PayslipViewSet.download now request pk payslips).2 !! pk
    = Some payslip'
    ∧ Payslip.downloaded payslip' = true
    ∧ Payslip.download_date payslip' = Some now.
Proof.
  intros Hstored Hfresh.
  assert (exists first,
            (PayslipViewSet.download now request pk payslips).2 !! pk
            = Some first
            ∧ Payslip.downloaded first = true
            ∧ Payslip.download_date first = Some now)
    as (first & Hfirst & Hdown & Hdate).
  { unfold PayslipViewSet.download. rewrite Hstored, Hfresh. cbn.
    rewrite lookup_insert_eq. eauto. }
  rewrite <-Hdate. clear Hdate.
  generalize dependent first.
  generalize (PayslipViewSet.download now request pk payslips).2.
  unfold PayslipViewSet.deliver_all.
  induction deliveries as [|d deliveries IH]; intros table first Hfirst Hdown;
    [eauto|].
  cbn [fold_left].
  destruct (deliver_one_downloaded emails table d pk first Hfirst Hdown)
    as (next & Hnext & Hdown' & Hdate').
  rewrite <-Hdate'. by apply IH.
Qed.

(** X23: the breakdown of a calculation whose employee has no department
    (the column is nullable) is not delivered: the action answers with a
    server error, and writes nothing. *)
Theorem breakdown_needs_a_department request pk db calculation employee :
  payroll_calculations db !! pk = Some calculation ->
  List.find
    (fun e => bool_decide
       (Employee.id e = PayrollCalculation.employee calculation))
    (employees db) = Some employee ->
  Employee.department employee = None ->
  PayrollCalculationViewSet.breakdown request pk db
  = (HTTP_500_INTERNAL_SERVER_ERROR, db).
Proof.
  intros Hstored Hfind Hnone.
  unfold PayrollCalculationViewSet.breakdown.
  rewrite Hstored, Hfind. cbn. by rewrite Hnone.
Qed.

(** ** The further theorems at work on the sample data *)

Lemma sample_submit_accepted :
  (LeaveApplicationViewSet.submit Sample.now Sample.request 1
     Sample2.draft_db).1
  = HTTP_200_OK Sample2.submitted.
Proof. vm_compute. reflexivity. Defined.

Lemma submit_again_refused_witness :
  (LeaveApplicationViewSet.submit Sample.now Sample.request 1
     Sample2.draft_db).1
  = HTTP_200_OK Sample2.submitted
  ∧ (LeaveApplicationViewSet.submit Sample2.later Sample.request 1
       (LeaveApplicationViewSet.submit Sample.now Sample.request 1
          Sample2.draft_db).2).1
    = HTTP_400_BAD_REQUEST (Error "Can only submit draft applications").
Proof.
  split; [exact sample_submit_accepted|].
  by rewrite (submit_again_refused Sample.now Sample2.later Sample.request
                Sample.request 1 Sample2.draft_db Sample2.submitted
                sample_submit_accepted).
Defined.

Lemma submit_then_reject_restores_balances_witness :
  (LeaveApplicationViewSet.submit Sample.now Sample.request 1
     Sample2.draft_db).1
  = HTTP_200_OK Sample2.submitted
  ∧ leave_balances
      (LeaveApplicationViewSet.reject Sample2.later Sample.request 1
         (LeaveApplicationViewSet.submit Sample.now Sample.request 1
            Sample2.draft_db).2).2
    = leave_balances Sample2.draft_db.
Proof.
  split; [exact sample_submit_accepted|].
  apply (submit_then_reject_restores_balances Sample.now Sample2.later
           Sample.request Sample.request 1 Sample2.draft_db
           Sample2.submitted sample_submit_accepted).
Defined.

Lemma submit_then_view_approve_takes_days_witness :
  leave_balances Sample2.draft_db
    !! LeaveApplication.balance_key Sample2.submitted
  = Some Sample2.idle_balance
  ∧ exists balance',
      leave_balances
        (leave_application_approve Sample2.later Sample.request 1
           (LeaveApplicationViewSet.submit Sample.now Sample.request 1
              Sample2.draft_db).2).2
        !! LeaveApplication.balance_key Sample2.submitted
      = Some balance'
      ∧ EmployeeLeaveBalance.pending_days balance' = 0
      ∧ EmployeeLeaveBalance.taken_days balance' = 0 + 500
      ∧ EmployeeLeaveBalance.closing_balance balance'
        = 0 + 2100 + 0 - (0 + 500).
Proof.
  split; [reflexivity|].
  destruct (submit_then_view_approve_takes_days Sample.now Sample2.later
              Sample.request Sample.request 1 Sample2.draft_db
              Sample2.submitted Sample2.idle_balance
              sample_submit_accepted eq_refl)
    as (_ & (balance' & Hlookup & Hpending & Htaken & Hclosing) & _).
  exists balance'. split; [exact Hlookup|].
  split; [exact Hpending|]. split; [exact Htaken|exact Hclosing].
Defined.

Lemma submit_keeps_available_balance_witness :
  leave_balances Sample2.draft_db
    !! LeaveApplication.balance_key Sample2.submitted
  = Some Sample2.idle_balance
  ∧ exists balance',
      leave_balances
        (LeaveApplicationViewSet.submit Sample.now Sample.request 1
           Sample2.draft_db).2
        !! LeaveApplication.balance_key Sample2.submitted
      = Some balance'
      ∧ EmployeeLeaveBalanceSerializer.get_available_balance balance'
        = 2100 - 500.
Proof.
  split; [reflexivity|].
  destruct (submit_keeps_available_balance Sample.now Sample.request 1
              Sample2.draft_db Sample2.submitted Sample2.idle_balance
              sample_submit_accepted eq_refl)
    as (balance' & Hlookup & Havailable & _).
  exists balance'. split; [exact Hlookup|exact Havailable].
Defined.

Lemma decided_application_is_final_witness :
  let db := Sample.leave_db LeaveApplication.REJECTED
              {[ Sample.key := Sample.balance ]} in
  leave_applications db !! 1
    = Some (Sample.application LeaveApplication.REJECTED)
  ∧ (LeaveApplicationViewSet.reject Sample.now Sample.request 1 db).2 = db
  ∧ leave_application_approve Sample.now Sample.request 1 db
    = (HttpServerError, db).
Proof.
  intros db.
  destruct (decided_application_is_final Sample.now Sample.request 1 db
              (Sample.application LeaveApplication.REJECTED) eq_refl)
    as (_ & _ & Hreject & Hview & _).
  { apply list_elem_of_In. cbn. tauto. }
  split; [reflexivity|]. split; [by rewrite Hreject|exact Hview].
Defined.


Lemma sample_awaiting_consistent :
  pending_days_consistent Sample2.awaiting_db.
Proof.
  intros key balance Hb.
  unfold Sample2.awaiting_db, Sample.leave_db in Hb.
  cbn [leave_balances] in Hb.
  apply lookup_singleton_Some in Hb as [<- <-].
  vm_compute. reflexivity.
Defined.

Lemma pending_days_stay_consistent_witness :
  pending_days_consistent Sample2.awaiting_db
  ∧ pending_days_consistent
      (LeaveApplicationViewSet.reject Sample.now Sample.request 1
         Sample2.awaiting_db).2
  ∧ pending_days_consistent
      (leave_application_approve Sample.now Sample.request 1
         Sample2.awaiting_db).2.
Proof.
  split; [exact sample_awaiting_consistent|].
  destruct (pending_days_stay_consistent Sample.now Sample.request 1
              Sample2.awaiting_db sample_awaiting_consistent)
    as (_ & Hreject & Happrove).
  split; [exact Hreject|exact Happrove].
Defined.

Lemma accrue_monthly_keeps_rows_witness :
  leave_balances Sample2.staff_db !! Sample.key = Some Sample.balance
  ∧ exists balance',
      leave_balances
        (EmployeeLeaveBalanceViewSet.accrue_monthly Sample.now Sample.request
           Sample2.staff_db).2 !! Sample.key
      = Some balance'
      ∧ same_but_accrual Sample.balance balance'.
Proof.
  split; [reflexivity|].
  apply (accrue_monthly_keeps_rows Sample.now Sample.request Sample2.staff_db
           Sample.key Sample.balance eq_refl).
Defined.

Lemma accrue_monthly_skips_others_witness :
  leave_balances
    (EmployeeLeaveBalanceViewSet.accrue_monthly Sample.now Sample.request
       Sample2.staff_db).2 !! (11, 3, 2023)
  = leave_balances Sample2.staff_db !! (11, 3, 2023).
Proof.
  apply (accrue_monthly_skips_others Sample.now Sample.request
           Sample2.staff_db (11, 3, 2023)).
  intros employee leave_type _ _ _ _ Hkey.
  unfold pair_key in Hkey. injection Hkey as _ _ Hyear.
  vm_compute in Hyear. discriminate Hyear.
Defined.

Lemma sample_staff_ids :
  List.NoDup
    (List.map Employee.id
       (List.filter
          (fun e =>
             bool_decide (Employee.employment_status e = Employee.ACTIVE))
          (employees Sample2.staff_db)))
  ∧ List.NoDup
      (List.map LeaveType.id
         (List.filter LeaveType.is_active (leave_types Sample2.staff_db))).
Proof.
  split; cbn;
    (constructor; [intros [H|[]]; discriminate H|]);
    (constructor; [intros []|constructor]).
Defined.

Lemma accrue_monthly_adds_rate_witness :
  In Sample2.second_employee (employees Sample2.staff_db)
  ∧ In Sample2.second_leave (leave_types Sample2.staff_db)
  ∧ exists balance',
      leave_balances
        (EmployeeLeaveBalanceViewSet.accrue_monthly Sample.now Sample.request
           Sample2.staff_db).2
        !! pair_key Sample.now Sample2.second_employee Sample2.second_leave
      = Some balance'
      ∧ EmployeeLeaveBalance.accrued_days balance' = 0 + 100.
Proof.
  assert (In Sample2.second_employee (employees Sample2.staff_db)) as He
    by (right; left; reflexivity).
  assert (In Sample2.second_leave (leave_types Sample2.staff_db)) as Hlt
    by (right; left; reflexivity).
  split; [exact He|]. split; [exact Hlt|].
  destruct (accrue_monthly_adds_rate Sample.now Sample.request
              Sample2.staff_db Sample2.second_employee Sample2.second_leave
              (proj1 sample_staff_ids) (proj2 sample_staff_ids)
              He eq_refl Hlt eq_refl)
    as (balance' & Hlookup & Haccrued & _).
  exists balance'. split; [exact Hlookup|exact Haccrued].
Defined.

Lemma accrue_monthly_twice_adds_twice_witness :
  DateTime.year Sample.now = DateTime.year Sample2.later
  ∧ decimals_in_range Sample2.staff_db
  ∧ decimals_in_range
      (EmployeeLeaveBalanceViewSet.accrue_monthly Sample2.later
         Sample.request Sample2.staff_db).2
  ∧ accrued_at (pair_key Sample2.later Sample.employee Sample.annual_leave)
      (leave_balances
         (EmployeeLeaveBalanceViewSet.accrue_monthly Sample.now Sample.request
            (EmployeeLeaveBalanceViewSet.accrue_monthly Sample2.later
               Sample.request Sample2.staff_db).2).2)
    = 2100 + 2 * 175.
Proof.
  assert (decimals_in_range Sample2.staff_db) as Hbefore
    by (apply (bool_decide_unpack _); vm_compute; exact I).
  assert (decimals_in_range
            (EmployeeLeaveBalanceViewSet.accrue_monthly Sample2.later
               Sample.request Sample2.staff_db).2) as Hafter
    by (apply (bool_decide_unpack _); vm_compute; exact I).
  split; [reflexivity|]. split; [exact Hbefore|]. split; [exact Hafter|].
  apply (accrue_monthly_twice_adds_twice Sample2.later Sample.now
           Sample.request Sample.request Sample2.staff_db Sample.employee
           Sample.annual_leave eq_refl (proj1 sample_staff_ids)
           (proj2 sample_staff_ids)).
  - left; reflexivity.
  - reflexivity.
  - left; reflexivity.
  - reflexivity.
  - exact Hbefore.
  - exact Hafter.
Defined.



Lemma period_actions_transitions_witness :
  let db := Sample.period_db PayrollPeriod.OPEN in
  let a := Process Sample.now Sample.request 5 in
  exists period' period,
    payroll_periods (run_period_action db a) !! 5 = Some period'
    ∧ payroll_periods db !! 5 = Some period
    ∧ (period' = period
       ∨ (PayrollPeriod.status period
            ∈ [PayrollPeriod.OPEN; PayrollPeriod.PROCESSING]
          ∧ PayrollPeriod.status period' = PayrollPeriod.PROCESSING)
       ∨ (PayrollPeriod.status period = PayrollPeriod.CALCULATED
          ∧ PayrollPeriod.status period' = PayrollPeriod.APPROVED)).
Proof.
  intros db a.
  assert (payroll_periods (run_period_action db a) !! 5
          = Some (PayrollPeriod.set_processing_started_at (Some Sample.now)
                    (Sample.period PayrollPeriod.PROCESSING))) as Hafter
    by reflexivity.
  destruct (period_actions_transitions db a 5 _ Hafter)
    as (period & Hbefore & Hmove).
  eexists _, period. split; [exact Hafter|]. split; [exact Hbefore|exact Hmove].
Defined.

Lemma approved_period_is_final_witness :
  let actions :=
    [Process Sample.now Sample.request 5;
     Approve Sample2.later Sample.request 5;
     Process Sample2.later Sample.request 5] in
  payroll_periods (Sample.period_db PayrollPeriod.APPROVED) !! 5
    = Some (Sample.period PayrollPeriod.APPROVED)
  ∧ payroll_periods
      (run_period_actions actions (Sample.period_db PayrollPeriod.APPROVED))
      !! 5
    = Some (Sample.period PayrollPeriod.APPROVED).
Proof.
  intros actions. split; [reflexivity|].
  apply (approved_period_is_final actions 5
           (Sample.period_db PayrollPeriod.APPROVED)
           (Sample.period PayrollPeriod.APPROVED) eq_refl).
  apply list_elem_of_In. cbn. tauto.
Defined.

Lemma period_actions_ignore_lock_witness :
  payroll_periods (Sample2.locked_db PayrollPeriod.OPEN) !! 6
    = Some (Sample2.locked_period PayrollPeriod.OPEN)
  ∧ PayrollPeriod.locked (Sample2.locked_period PayrollPeriod.OPEN) = true
  ∧ exists started period',
      PayrollPeriodViewSet.process Sample.now Sample.request 6
        (Sample2.locked_db PayrollPeriod.OPEN)
      = (HTTP_200_OK started,
         save_payroll_period 6 period'
           (Sample2.locked_db PayrollPeriod.OPEN))
      ∧ PayrollPeriod.status period' = PayrollPeriod.PROCESSING
      ∧ PayrollPeriod.locked period' = true.
Proof.
  split; [reflexivity|]. split; [reflexivity|].
  destruct (period_actions_ignore_lock Sample.now Sample.request 6
              (Sample2.locked_db PayrollPeriod.OPEN)
              (Sample2.locked_period PayrollPeriod.OPEN) eq_refl)
    as [Hprocess _].
  destruct Hprocess as (started & period' & Heq & Hst & _ & Hlocked & _).
  { apply list_elem_of_In. cbn. tauto. }
  exists started, period'. split; [exact Heq|].
  split; [exact Hst|exact Hlocked].
Defined.

Lemma summary_agrees_with_detail_page_witness :
  payroll_periods Sample2.paid_db !! 5
    = Some (Sample.period PayrollPeriod.CALCULATED)
  ∧ exists body title calculations figures,
      PayrollPeriodQueries.summary Sample.request 5 Sample2.paid_db
        = HTTP_200_OK body
      ∧ payroll_period_detail Sample.request 5 Sample2.paid_db
        = (HttpRender "hr_payroll/payroll_period_detail.html"
             (PayrollPeriodContext title
                (Sample.period PayrollPeriod.CALCULATED) calculations
                figures), Sample2.paid_db)
      ∧ PayrollPeriodQueries.total_gross_pay body = total_gross figures.
Proof.
  split; [reflexivity|].
  destruct (summary_agrees_with_detail_page Sample.request Sample.request 5
              Sample2.paid_db (Sample.period PayrollPeriod.CALCULATED)
              eq_refl)
    as (body & title & calculations & figures & Hs & Hd & _ & Hgross & _).
  exists body, title, calculations, figures.
  split; [exact Hs|]. split; [exact Hd|exact Hgross].
Defined.

Lemma summary_of_empty_period_witness :
  payroll_periods (Sample.period_db PayrollPeriod.OPEN) !! 5
    = Some (Sample.period PayrollPeriod.OPEN)
  ∧ PayrollPeriodQueries.summary Sample.request 5
      (Sample.period_db PayrollPeriod.OPEN)
    = HTTP_200_OK
        (PayrollPeriodQueries.mkSummary "March 2024" "Open" 0 0 0 0 0
           (None, None)).
Proof.
  split; [reflexivity|].
  apply (summary_of_empty_period Sample.request 5
           (Sample.period_db PayrollPeriod.OPEN)
           (Sample.period PayrollPeriod.OPEN) eq_refl).
  intros k calculation Hk. discriminate Hk.
Defined.

Lemma summary_after_admin_add_witness :
  let db' :=
    set_payroll_calculations
      (<[2 := Sample2.second_calculation]>
         (payroll_calculations Sample2.paid_db)) Sample2.paid_db in
  PayrollCalculationAdmin.add_view 2 Sample2.second_calculation []
    Sample2.paid_db = Some db'
  ∧ exists body body',
      PayrollPeriodQueries.summary Sample.request 5 Sample2.paid_db
        = HTTP_200_OK body
      ∧ PayrollPeriodQueries.summary Sample.request 5 db'
        = HTTP_200_OK body'
      ∧ PayrollPeriodQueries.employee_count body'
        = PayrollPeriodQueries.employee_count body + 1
      ∧ PayrollPeriodQueries.total_gross_pay body'
        = PayrollPeriodQueries.total_gross_pay body + 70000.
Proof.
  intros db'.
  assert (PayrollCalculationAdmin.add_view 2 Sample2.second_calculation []
            Sample2.paid_db = Some db') as Hadd
    by (vm_compute; reflexivity).
  split; [exact Hadd|].
  destruct (summary_after_admin_add Sample.request 5 Sample2.paid_db
              (Sample.period PayrollPeriod.CALCULATED) 2
              Sample2.second_calculation [] db' eq_refl eq_refl Hadd)
    as (body & body' & Hs & Hs' & Hcount & Hgross & _).
  exists body, body'. split; [exact Hs|]. split; [exact Hs'|].
  split; [exact Hcount|exact Hgross].
Defined.

Lemma overtime_first_ruling_stands_witness :
  let table : gmap Z OvertimeRequest.t :=
    {[ 3 := Sample2.overtime OvertimeRequest.PENDING ]} in
  let rulings :=
    [OvertimeRequestViewSet.Approve Sample.request 3;
     OvertimeRequestViewSet.Reject Sample.request 3] in
  table !! 3 = Some (Sample2.overtime OvertimeRequest.PENDING)
  ∧ exists settled,
      OvertimeRequestViewSet.rule_all rulings
        (OvertimeRequestViewSet.reject Sample2.request_with_notes 3 table).2
        !! 3 = Some settled
      ∧ OvertimeRequest.approval_status settled = OvertimeRequest.REJECTED
      ∧ OvertimeRequest.approved_by settled = Some 9
      ∧ OvertimeRequest.approval_notes settled = "No budget".
Proof.
  intros table rulings. split; [reflexivity|].
  destruct (overtime_first_ruling_stands Sample2.request_with_notes 3 table
              (Sample2.overtime OvertimeRequest.PENDING) rulings
              eq_refl eq_refl)
    as (_ & settled & _ & Hlookup & Hst & Hby & Hnotes).
  exists settled. split; [exact Hlookup|]. split; [exact Hst|].
  split; [exact Hby|exact Hnotes].
Defined.

Lemma first_download_date_is_kept_witness :
  let payslips : gmap Z Payslip.t := {[ 1 := Sample2.payslip ]} in
  let deliveries :=
    [PayslipViewSet.Email Sample2.later Sample.request 1;
     PayslipViewSet.Download Sample2.later Sample.request 1] in
  payslips !! 1 = Some Sample2.payslip
  ∧ Payslip.downloaded Sample2.payslip = false
  ∧ exists payslip',
      PayslipViewSet.deliver_all Sample2.emails deliveries
        (PayslipViewSet.download Sample.now Sample.request 1 payslips).2
        !! 1 = Some payslip'
      ∧ Payslip.download_date payslip' = Some Sample.now.
Proof.
  intros payslips deliveries. split; [reflexivity|]. split; [reflexivity|].
  destruct (first_download_date_is_kept Sample.now Sample.request
              Sample2.emails deliveries payslips 1 Sample2.payslip
              eq_refl eq_refl)
    as (payslip' & Hlookup & _ & Hdate).
  exists payslip'. split; [exact Hlookup|exact Hdate].
Defined.

Lemma breakdown_needs_a_department_witness :
  payroll_calculations Sample2.paid_db !! 1 = Some Sample.calculation
  ∧ Employee.department Sample.employee = None
  ∧ PayrollCalculationViewSet.breakdown Sample.request 1 Sample2.paid_db
    = (HTTP_500_INTERNAL_SERVER_ERROR, Sample2.paid_db).
Proof.
  split; [reflexivity|]. split; [reflexivity|].
  apply (breakdown_needs_a_department Sample.request 1 Sample2.paid_db
           Sample.calculation Sample.employee eq_refl eq_refl eq_refl).
Defined.
